(** * The API gateway of the task-management system: forwarding handlers,
      routing and health reporting, embedded from the JavaScript sources.

    Sources embedded here:
    - [api-gateway/server.js]: the [/health] handler, the five mounts, the
      404 handler and the global error handler;
    - [api-gateway/routes/{auth,task,notification,reporting,admin}.js]: the
      five forwarding handlers and their route tables;
    - the stand-alone health-check script ([checkService],
      [checkAllServices]), the JavaScript at the end of [start.bat];
    - the [/health] handlers of the servers of the backends;
    - [auth-service/controllers/authController.js]: [authenticateToken] and
      the update [PUT /profile] builds;
    - the admin controller: [authenticateAdmin], [isAdmin], the handlers of
      [PUT /users/:id] and [DELETE /users/:id], the filters of [GET /users];
    - the task controller: [authenticateUser] and the handler of
      [DELETE /:id];
    - [task-service/models/Project.js] and the task model: the methods on
      members and subtasks;
    - the notification controller: the text version of an e-mail;
    - the route tables of the five controllers.

    Third-party libraries (Express, axios, Mongoose, the JSON built-ins
    and [decodeURIComponent]) are not part of the repository.  They are
    modelled at the level of their documented behaviour in the modules
    [JS], [Axios], [Express] and [Mongoose]; the network, the token library,
    the data stores and the comparison of cache validators are oracles. *)

From Stdlib Require Import ZArith Ascii String List Bool Lia.
From stdpp Require Import base option list strings gmap pretty.

Set Warnings "-register-all".

Local Open Scope Z_scope.
Local Open Scope string_scope.

(** ** JavaScript values and the JSON built-ins *)

Module JS.

(** The double quote character (code 34). *)
Definition dquote : ascii := "034"%char.

(** [quoted s] is [s] between two double quotes, nothing escaped. *)
Definition quoted (s : string) : string :=
  String dquote (s +:+ String dquote "").

(** Values that travel as request and response bodies.  [JNum n] is the
    JavaScript number [n]; only integers of magnitude at most 2^53 are
    represented (they are exactly the integers JavaScript prints in plain
    decimal without loss). *)
Inductive JSValue : Type :=
| JNull
| JBool (b : bool)
| JNum (n : Z)
| JStr (s : string)
| JArr (items : list JSValue)
| JObj (props : list (string * JSValue)).

(** JavaScript's [a || b] on strings that may be [undefined]: the empty
    string and [undefined] are falsy. *)
Definition or_default (a : option string) (b : string) : string :=
  match a with
  | Some s => if String.eqb s "" then b else s
  | None => b
  end.

(** [a || b] on numbers that may be [undefined]: [0] and [undefined] are
    falsy. *)
Definition or_defaultZ (a : option Z) (b : Z) : Z :=
  match a with
  | Some n => if (n =? 0)%Z then b else n
  | None => b
  end.

Definition hex_digit (n : N) : ascii :=
  ascii_of_N (if (n <? 10)%N then 48 + n else 87 + n)%N.

(** How [JSON.stringify] writes one character of a string. *)
Definition escape_char (c : ascii) : string :=
  let n := N_of_ascii c in
  if (n =? 34)%N then String "\" (String dquote "")
  else if (n =? 92)%N then "\\"
  else if (n =? 8)%N then "\b"
  else if (n =? 12)%N then "\f"
  else if (n =? 10)%N then "\n"
  else if (n =? 13)%N then "\r"
  else if (n =? 9)%N then "\t"
  else if (n <? 32)%N then
    "\u00" +:+ String (hex_digit (n / 16)) (String (hex_digit (n mod 16)) "")
  else String c "".

Fixpoint escape (s : string) : string :=
  match s with
  | EmptyString => ""
  | String c r => escape_char c +:+ escape r
  end.

Definition quote (s : string) : string := quoted (escape s).

Fixpoint join (sep : string) (l : list string) : string :=
  match l with
  | [] => ""
  | [x] => x
  | x :: r => x +:+ sep +:+ join sep r
  end.

(** [JSON.stringify(v)] without indentation: what [res.json(v)] writes. *)
Fixpoint JSON_stringify (v : JSValue) : string :=
  match v with
  | JNull => "null"
  | JBool true => "true"
  | JBool false => "false"
  | JNum n => pretty n
  | JStr s => quote s
  | JArr items => "[" +:+ join "," (map JSON_stringify items) +:+ "]"
  | JObj props =>
      "{" +:+ join "," (map (fun p => quote (fst p) +:+ ":" +:+ JSON_stringify (snd p)) props)
          +:+ "}"
  end.

(** *** [JSON.parse]

    A recursive-descent reader of the JSON grammar.  It recognises every
    JSON text; the value it builds is [None] when the text is valid JSON
    that denotes a value outside [JSValue] (a number with a fraction or an
    exponent, [-0], an integer beyond 2^53, a string with a non-ASCII byte
    or a [\u] escape above 127, an object with a key made of digits, whose
    position JavaScript rearranges). *)

Inductive PResult (A : Type) : Type :=
| POk (a : A) (rest : string)
| PSyntax
| PFuel.
Arguments POk {A} a rest.
Arguments PSyntax {A}.
Arguments PFuel {A}.

Definition is_ws (c : ascii) : bool :=
  let n := N_of_ascii c in
  ((n =? 32) || (n =? 9) || (n =? 10) || (n =? 13))%N.

Definition is_digit (c : ascii) : bool :=
  let n := N_of_ascii c in ((48 <=? n) && (n <=? 57))%N.

Definition digit_val (c : ascii) : Z := Z.of_N (N_of_ascii c) - 48.

Definition hex_val (c : ascii) : option N :=
  let n := N_of_ascii c in
  if ((48 <=? n) && (n <=? 57))%N then Some (n - 48)%N
  else if ((97 <=? n) && (n <=? 102))%N then Some (n - 87)%N
  else if ((65 <=? n) && (n <=? 70))%N then Some (n - 55)%N
  else None.

Fixpoint skip_ws (s : string) : string :=
  match s with
  | String c r => if is_ws c then skip_ws r else s
  | EmptyString => ""
  end.

(** [drop_prefix p s] is [Some r] when [s = p ++ r]. *)
Fixpoint drop_prefix (p s : string) : option string :=
  match p, s with
  | EmptyString, _ => Some s
  | String a p', String b s' => if Ascii.eqb a b then drop_prefix p' s' else None
  | String _ _, EmptyString => None
  end.

(** The longest run of digits at the head of [s], read as a number in base
    ten on top of [acc], and what follows it. *)
Fixpoint read_digits (acc : Z) (s : string) : Z * string :=
  match s with
  | String c r => if is_digit c then read_digits (10 * acc + digit_val c) r else (acc, s)
  | EmptyString => (acc, "")
  end.

Definition starts_with_digit (s : string) : bool :=
  match s with String c _ => is_digit c | EmptyString => false end.

(** The optional fraction of a number: [None] is a syntax error, otherwise
    whether a fraction was there and what follows. *)
Definition read_fraction (s : string) : option (bool * string) :=
  match s with
  | String c r =>
      if Ascii.eqb c "." then
        if starts_with_digit r then Some (true, snd (read_digits 0 r)) else None
      else Some (false, s)
  | EmptyString => Some (false, "")
  end.

Definition read_exponent (s : string) : option (bool * string) :=
  match s with
  | String c r =>
      if Ascii.eqb c "e" || Ascii.eqb c "E" then
        let r' := match r with
                  | String d r1 => if Ascii.eqb d "+" || Ascii.eqb d "-" then r1 else r
                  | EmptyString => r
                  end in
        if starts_with_digit r' then Some (true, snd (read_digits 0 r')) else None
      else Some (false, s)
  | EmptyString => Some (false, "")
  end.

Definition max_exact_int : Z := 9007199254740992.

(** A JSON number: an optional minus sign; then a single zero, or a nonzero
    digit followed by digits; then optionally a dot and one or more digits;
    then optionally e or E, an optional sign and one or more digits. *)
Definition parse_number (s : string) : PResult (option Z) :=
  let (neg, s1) := match s with
                   | String c r => if Ascii.eqb c "-" then (true, r) else (false, s)
                   | EmptyString => (false, s)
                   end in
  match s1 with
  | String c r =>
      if is_digit c then
        let (n, s2) := if Ascii.eqb c "0" then (0, r) else read_digits 0 s1 in
        match read_fraction s2 with
        | Some (frac, s3) =>
            match read_exponent s3 with
            | Some (ex, s4) =>
                if frac || ex || (neg && (n =? 0)%Z) || (max_exact_int <? n)%Z
                then POk None s4
                else POk (Some (if neg then - n else n)) s4
            | None => PSyntax
            end
        | None => PSyntax
        end
      else PSyntax
  | EmptyString => PSyntax
  end.

(** The character a one-letter escape stands for. *)
Definition simple_escape (c : ascii) : option ascii :=
  let n := N_of_ascii c in
  if (n =? 34)%N then Some dquote
  else if (n =? 92)%N then Some "\"%char
  else if (n =? 47)%N then Some "/"%char
  else if (n =? 98)%N then Some (ascii_of_N 8)
  else if (n =? 102)%N then Some (ascii_of_N 12)
  else if (n =? 110)%N then Some (ascii_of_N 10)
  else if (n =? 114)%N then Some (ascii_of_N 13)
  else if (n =? 116)%N then Some (ascii_of_N 9)
  else None.

Definition hex4 (a b c d : ascii) : option N :=
  match hex_val a, hex_val b, hex_val c, hex_val d with
  | Some x, Some y, Some z, Some w => Some (((x * 16 + y) * 16 + z) * 16 + w)%N
  | _, _, _, _ => None
  end.

Definition cons_char (c : option ascii) (s : option string) : option string :=
  match c, s with
  | Some c, Some s => Some (String c s)
  | _, _ => None
  end.

(** The rest of a string after its opening quote, up to the closing one. *)
Fixpoint parse_string_body (s : string) : PResult (option string) :=
  match s with
  | EmptyString => PSyntax
  | String c r =>
      let n := N_of_ascii c in
      if (n =? 34)%N then POk (Some "") r
      else if (n =? 92)%N then
        match r with
        | String e r1 =>
            if Ascii.eqb e "u" then
              match r1 with
              | String h1 (String h2 (String h3 (String h4 r2))) =>
                  match hex4 h1 h2 h3 h4 with
                  | Some code =>
                      match parse_string_body r2 with
                      | POk t rest =>
                          POk (cons_char (if (code <? 128)%N then Some (ascii_of_N code) else None) t)
                              rest
                      | PSyntax => PSyntax
                      | PFuel => PFuel
                      end
                  | None => PSyntax
                  end
              | _ => PSyntax
              end
            else
              match simple_escape e with
              | Some x =>
                  match parse_string_body r1 with
                  | POk t rest => POk (cons_char (Some x) t) rest
                  | PSyntax => PSyntax
                  | PFuel => PFuel
                  end
              | None => PSyntax
              end
        | EmptyString => PSyntax
        end
      else if (n <? 32)%N then PSyntax
      else
        match parse_string_body r with
        | POk t rest => POk (cons_char (if (n <? 128)%N then Some c else None) t) rest
        | PSyntax => PSyntax
        | PFuel => PFuel
        end
  end.

Definition all_digits (k : string) : bool :=
  negb (String.eqb k "") && forallb is_digit (list_ascii_of_string k).

(** Setting property [k] of an object: an existing property keeps its
    place and takes the new value, a new one goes last. *)
Fixpoint obj_put (k : string) (v : JSValue) (props : list (string * JSValue))
  : list (string * JSValue) :=
  match props with
  | [] => [(k, v)]
  | (k', v') :: r => if String.eqb k k' then (k, v) :: r else (k', v') :: obj_put k v r
  end.

Definition put_member (k : option string) (v : option JSValue)
    (acc : option (list (string * JSValue))) : option (list (string * JSValue)) :=
  match k, v, acc with
  | Some k, Some v, Some props => if all_digits k then None else Some (obj_put k v props)
  | _, _, _ => None
  end.

Definition push_item (v : option JSValue) (acc : option (list JSValue))
  : option (list JSValue) :=
  match v, acc with
  | Some v, Some l => Some (v :: l)
  | _, _ => None
  end.

Definition literal (word : string) (v : JSValue) (s : string) : PResult (option JSValue) :=
  match drop_prefix word s with
  | Some r => POk (Some v) r
  | None => PSyntax
  end.

Fixpoint parse_value (fuel : nat) (s : string) : PResult (option JSValue) :=
  match fuel with
  | O => PFuel
  | S fuel =>
      match skip_ws s with
      | EmptyString => PSyntax
      | String c r =>
          if Ascii.eqb c "{" then
            match skip_ws r with
            | String d r' =>
                if Ascii.eqb d "}" then POk (Some (JObj [])) r'
                else parse_members fuel r (Some [])
            | EmptyString => PSyntax
            end
          else if Ascii.eqb c "[" then
            match skip_ws r with
            | String d r' =>
                if Ascii.eqb d "]" then POk (Some (JArr [])) r'
                else parse_elements fuel r (Some [])
            | EmptyString => PSyntax
            end
          else if Ascii.eqb c dquote then
            match parse_string_body r with
            | POk t rest => POk (JStr <$> t) rest
            | PSyntax => PSyntax
            | PFuel => PFuel
            end
          else if Ascii.eqb c "t" then literal "rue" (JBool true) r
          else if Ascii.eqb c "f" then literal "alse" (JBool false) r
          else if Ascii.eqb c "n" then literal "ull" JNull r
          else if Ascii.eqb c "-" || is_digit c then
            match parse_number (String c r) with
            | POk n rest => POk (JNum <$> n) rest
            | PSyntax => PSyntax
            | PFuel => PFuel
            end
          else PSyntax
      end
  end
with parse_elements (fuel : nat) (s : string) (acc : option (list JSValue))
  : PResult (option JSValue) :=
  match fuel with
  | O => PFuel
  | S fuel =>
      match parse_value fuel s with
      | POk v r =>
          match skip_ws r with
          | String d r' =>
              if Ascii.eqb d "," then parse_elements fuel r' (push_item v acc)
              else if Ascii.eqb d "]" then POk ((fun l => JArr (rev l)) <$> push_item v acc) r'
              else PSyntax
          | EmptyString => PSyntax
          end
      | PSyntax => PSyntax
      | PFuel => PFuel
      end
  end
with parse_members (fuel : nat) (s : string) (acc : option (list (string * JSValue)))
  : PResult (option JSValue) :=
  match fuel with
  | O => PFuel
  | S fuel =>
      match skip_ws s with
      | String q r =>
          if Ascii.eqb q dquote then
            match parse_string_body r with
            | POk k r1 =>
                match skip_ws r1 with
                | String colon r2 =>
                    if Ascii.eqb colon ":" then
                      match parse_value fuel r2 with
                      | POk v r3 =>
                          match skip_ws r3 with
                          | String d r4 =>
                              if Ascii.eqb d "," then parse_members fuel r4 (put_member k v acc)
                              else if Ascii.eqb d "}" then POk (JObj <$> put_member k v acc) r4
                              else PSyntax
                          | EmptyString => PSyntax
                          end
                      | PSyntax => PSyntax
                      | PFuel => PFuel
                      end
                    else PSyntax
                | EmptyString => PSyntax
                end
            | PSyntax => PSyntax
            | PFuel => PFuel
            end
          else PSyntax
      | EmptyString => PSyntax
      end
  end.

(** A recursion budget that no text exhausts (lemma [parse_value_budget]). *)
Definition parse_budget (s : string) : nat := 2 * String.length s + 2.

(** The three outcomes of [JSON.parse(text)]. *)
Inductive Parsed : Type :=
| Value (v : JSValue)
| Unrepresented
| SyntaxError.

Definition JSON_parse (text : string) : Parsed :=
  match parse_value (parse_budget text) text with
  | POk v rest =>
      match skip_ws rest with
      | EmptyString => match v with Some v => Value v | None => Unrepresented end
      | String _ _ => SyntaxError
      end
  | PSyntax => SyntaxError
  | PFuel => SyntaxError
  end.

End JS.

Import JS.

(** ** axios: request descriptions, outcomes and the URL of a request *)

Module Axios.

(** The request description handed to [axios(config)].  A header whose
    value is [None] is present with the value [undefined]. *)
Record Config : Type := {
  cfg_method : string;
  cfg_url : string;
  cfg_data : JSValue;
  cfg_params : list (string * string);
  cfg_headers : gmap string (option string)
}.

(** [response.status] and [response.data].  The status is the code of an
    HTTP status line. *)
Record Response : Type := {
  resp_status : Z;
  resp_data : JSValue
}.

(** A thrown JavaScript error: [error.message], [error.status] and, on an
    axios error raised for a received reply, [error.response]. *)
Record Error : Type := {
  err_message : string;
  err_status : option Z;
  err_response : option Response
}.

(** How the promise returned by [axios(config)] settles, if it does.  One
    call of [axios] is one outbound call here; the redirects axios may
    follow before it settles are inside the oracle.  The handlers pass no
    [timeout] and axios has none of its own: as long as the backend keeps
    the connection open without answering, the promise stays [Pending] (so
    it does while a backend waits for the rest of a body that the
    [content-length] copied from the inbound request announces and the
    re-serialised body does not fill). *)
Inductive Outcome : Type :=
| Resolved (r : Response)
| Rejected (e : Error)
| Pending.

(** The network and the backends behind it. *)
Definition Network : Type := Config -> Outcome.

Definition is_unreserved (c : ascii) : bool :=
  let n := N_of_ascii c in
  ((48 <=? n) && (n <=? 57) || (65 <=? n) && (n <=? 90) || (97 <=? n) && (n <=? 122)
   || (n =? 45) || (n =? 95) || (n =? 46) || (n =? 33) || (n =? 126) || (n =? 42)
   || (n =? 39) || (n =? 40) || (n =? 41))%N.

Definition upper_hex (n : N) : ascii :=
  ascii_of_N (if (n <? 10)%N then 48 + n else 55 + n)%N.

(** [encode] of axios's [buildURL]: [encodeURIComponent], after which the
    escapes of [: $ , [ ]] are undone and that of the space becomes [+]. *)
Definition encode_char (c : ascii) : string :=
  let n := N_of_ascii c in
  if is_unreserved c then String c ""
  else if ((n =? 58) || (n =? 36) || (n =? 44) || (n =? 91) || (n =? 93))%N then String c ""
  else if (n =? 32)%N then "+"
  else String "%" (String (upper_hex (n / 16)) (String (upper_hex (n mod 16)) "")).

Fixpoint encode (s : string) : string :=
  match s with
  | EmptyString => ""
  | String c r => encode_char c +:+ encode r
  end.

Definition serialize (params : list (string * string)) : string :=
  join "&" (map (fun p => encode (fst p) +:+ "=" +:+ encode (snd p)) params).

Fixpoint contains_char (c : ascii) (s : string) : bool :=
  match s with
  | EmptyString => false
  | String d r => Ascii.eqb c d || contains_char c r
  end.

(** The part of [s] before the first [c] (all of [s] when there is none). *)
Fixpoint before_char (c : ascii) (s : string) : string :=
  match s with
  | EmptyString => ""
  | String d r => if Ascii.eqb c d then "" else String d (before_char c r)
  end.

(** axios's [buildURL(url, params)]: the URL the request is sent to. *)
Definition buildURL (url : string) (params : list (string * string)) : string :=
  let serializedParams := serialize params in
  if String.eqb serializedParams "" then url
  else
    let url := before_char "#" url in
    url +:+ (if contains_char "?" url then "&" else "?") +:+ serializedParams.

Definition request_url (c : Config) : string := buildURL (cfg_url c) (cfg_params c).

(** The names axios reads, in the headers of a configuration, as groups of
    default headers: it takes them out of the headers. *)
Definition header_groups : list string :=
  ["common"; "delete"; "get"; "head"; "post"; "put"; "patch"].

(** The headers of a configuration that go out with the request as they
    are given: a header whose value is [undefined] is left out, and so is
    one named as a group.  (Under names the configuration does not use the
    client adds headers of its own, [Accept] and [User-Agent] among
    them.) *)
Definition sent_headers (c : Config) : gmap string string :=
  filter (fun header => fst header ∉ header_groups) (omap id (cfg_headers c)).

(** axios's default [validateStatus]. *)
Definition validateStatus (status : Z) : bool := (200 <=? status)%Z && (status <? 300)%Z.

End Axios.

Import Axios.

(** ** Effects: the trace of a handler run, exceptions, [try]/[catch] *)

Module Effects.

Inductive Body : Type :=
| JsonBody (v : JSValue)      (* written by [res.json(v)] *)
| RawBody (text : string).    (* written by a middleware *)

Inductive Event : Type :=
| Outbound (c : Config)                    (* one call of [axios(config)] *)
| ConsoleError (label message : string)    (* [console.error(label, message)] *)
| Sent (status : Z) (body : Body).         (* a response sent to the caller *)

Definition is_sent (e : Event) : bool :=
  match e with Sent _ _ => true | _ => false end.

Definition is_outbound (e : Event) : bool :=
  match e with Outbound _ => true | _ => false end.

(** [res.headersSent]. *)
Definition headersSent (t : list Event) : bool := existsb is_sent t.

(** How a computation ends: it returns, it throws, or it stays suspended at
    an [await] whose promise never settles. *)
Inductive Completion (A : Type) : Type :=
| Normal (a : A)
| Throw (e : Error)
| Suspended.
Arguments Normal {A} a.
Arguments Throw {A} e.
Arguments Suspended {A}.

(** A computation extends the trace and returns, throws or stays
    suspended. *)
Definition M (A : Type) : Type := list Event -> Completion A * list Event.

Definition ret {A} (a : A) : M A := fun t => (Normal a, t).

Definition bind {A B} (m : M A) (k : A -> M B) : M B :=
  fun t =>
    match m t with
    | (Normal a, t') => k a t'
    | (Throw e, t') => (Throw e, t')
    | (Suspended, t') => (Suspended, t')
    end.

Definition try_catch {A} (body : M A) (handler : Error -> M A) : M A :=
  fun t =>
    match body t with
    | (Normal a, t') => (Normal a, t')
    | (Throw e, t') => handler e t'
    | (Suspended, t') => (Suspended, t')
    end.

Definition emit (e : Event) : M unit := fun t => (Normal tt, (t ++ [e])%list).

(** [await axios(config)]: one outbound call; a rejection is thrown, and
    nothing after the [await] runs while the promise is pending. *)
Definition axios (net : Network) (config : Config) : M Response :=
  fun t =>
    match net config with
    | Resolved r => (Normal r, (t ++ [Outbound config])%list)
    | Rejected e => (Throw e, (t ++ [Outbound config])%list)
    | Pending => (Suspended, (t ++ [Outbound config])%list)
    end.

Definition console_error (label message : string) : M unit :=
  emit (ConsoleError label message).

Definition throw {A} (e : Error) : M A := fun t => (Throw e, t).

Definition ERR_HTTP_HEADERS_SENT : Error :=
  {| err_message := "Cannot set headers after they are sent to the client";
     err_status := None;
     err_response := None |}.

(** [res.status(code).json(v)]: sends the response, or throws when one was
    already sent. *)
Definition res_status_json (code : Z) (v : JSValue) : M unit :=
  fun t =>
    if headersSent t then (Throw ERR_HTTP_HEADERS_SENT, t)
    else (Normal tt, (t ++ [Sent code (JsonBody v)])%list).

End Effects.

Import Effects.

Notation "'let*' x ':=' m 'in' k" := (bind m (fun x => k))
  (at level 10, x name, m at level 100, k at level 200).
Notation "m ';;' k" := (bind m (fun _ => k))
  (at level 100, k at level 200, right associativity).

(** ** Express: requests, mounting and route matching *)

Module Express.

(** The request object as a route handler sees it, after the body parsers
    and the query parser ran.  [req_headers] has lower-case names, as Node
    delivers them; [req_query] is the parsed query string (flat, string
    values); [req_url] is rewritten by [app.use(prefix, router)] while
    [req_originalUrl] keeps the URL of the request line, as the client
    wrote it (percent-escapes included). *)
Record Request : Type := {
  req_method : string;
  req_originalUrl : string;
  req_url : string;
  req_body : JSValue;
  req_headers : gmap string string;
  req_query : list (string * string);
  req_ip : string;
  req_protocol : string
}.

Definition with_url (req : Request) (u : string) : Request :=
  {| req_method := req_method req;
     req_originalUrl := req_originalUrl req;
     req_url := u;
     req_body := req_body req;
     req_headers := req_headers req;
     req_query := req_query req;
     req_ip := req_ip req;
     req_protocol := req_protocol req |}.

Definition lower_char (c : ascii) : ascii :=
  let n := N_of_ascii c in
  if ((65 <=? n) && (n <=? 90))%N then ascii_of_N (n + 32) else c.

Fixpoint lowercase (s : string) : string :=
  match s with
  | EmptyString => ""
  | String c r => String (lower_char c) (lowercase r)
  end.

(** [req.get(name)]. *)
Definition req_get (req : Request) (name : string) : option string :=
  req_headers req !! lowercase name.

(** The path of a URL: what precedes the query string. *)
Definition pathname (url : string) : string := before_char "?" url.

Fixpoint drop_chars (n : nat) (s : string) : string :=
  match n, s with
  | O, _ => s
  | S n, String _ r => drop_chars n r
  | S _, EmptyString => ""
  end.

(** [drop_prefix] up to the case of letters. *)
Fixpoint drop_prefix_ci (p s : string) : option string :=
  match p, s with
  | EmptyString, _ => Some s
  | String a p', String b s' =>
      if Ascii.eqb (lower_char a) (lower_char b) then drop_prefix_ci p' s' else None
  | String _ _, EmptyString => None
  end.

Definition starts_with_slash (s : string) : bool :=
  match s with String c _ => Ascii.eqb c "/" | EmptyString => false end.

(** [app.use(prefix, router)] on a request whose URL is [url]: [None] when
    the layer does not match, otherwise the URL the router sees.  The layer
    matches the prefix, whatever the case of its letters, when it ends the
    path or a slash follows; the matched part, with one slash after it when
    that slash ends the path or precedes another slash, is cut off the URL,
    and a leading slash is put back when the cut removed it. *)
Definition mount_strip (prefix url : string) : option string :=
  match drop_prefix_ci prefix (pathname url) with
  | None => None
  | Some rest =>
      let n := String.length prefix in
      let removed :=
        match rest with
        | EmptyString => Some n
        | String c rest' =>
            if Ascii.eqb c "/" then
              match rest' with
              | EmptyString => Some (S n)
              | String d _ => if Ascii.eqb d "/" then Some (S n) else Some n
              end
            else None
        end in
      match removed with
      | None => None
      | Some k =>
          let u := drop_chars k url in
          Some (if starts_with_slash u then u else String "/" u)
      end
  end.

Fixpoint split_on (sep : ascii) (s : string) : list string :=
  match s with
  | EmptyString => [""]
  | String c r =>
      if Ascii.eqb c sep then "" :: split_on sep r
      else match split_on sep r with
           | x :: l => String c x :: l
           | [] => [String c ""]
           end
  end.

Fixpoint trim_last_empty (l : list string) : list string :=
  match l with
  | [] => []
  | [x] => if String.eqb x "" then [] else [x]
  | x :: r => x :: trim_last_empty r
  end.

(** The segments of a path that starts with a slash; one trailing slash is
    optional (routes are not strict). *)
Definition path_segments (path : string) : option (list string) :=
  match path with
  | String c body =>
      if Ascii.eqb c "/" then Some (trim_last_empty (split_on "/" body)) else None
  | EmptyString => None
  end.

Inductive PatSeg : Type :=
| Lit (s : string)
| Param.

Definition pattern_segment (s : string) : PatSeg :=
  match s with
  | String c _ => if Ascii.eqb c ":" then Param else Lit s
  | EmptyString => Lit s
  end.

Definition pattern_segments (pattern : string) : list PatSeg :=
  match path_segments pattern with
  | Some l => map pattern_segment l
  | None => []
  end.

(** The regular expression of a pattern on one segment: a literal segment
    matches up to the case of letters; a parameter matches any non-empty
    segment (its text is decoded after the match, see [layer_match]). *)
Definition segment_matches (p : PatSeg) (s : string) : bool :=
  match p with
  | Lit l => String.eqb (lowercase l) (lowercase s)
  | Param => negb (String.eqb s "")
  end.

Fixpoint segments_match (ps : list PatSeg) (ss : list string) : bool :=
  match ps, ss with
  | [], [] => true
  | p :: ps', s :: ss' => segment_matches p s && segments_match ps' ss'
  | _, _ => false
  end.

Definition path_matches (pattern path : string) : bool :=
  match path_segments path with
  | Some ss => segments_match (pattern_segments pattern) ss
  | None => false
  end.

(** A route registered with [router.get] also serves [HEAD]. *)
Definition handles_method (route_method method : string) : bool :=
  String.eqb method route_method
  || (String.eqb method "HEAD" && String.eqb route_method "GET").

(** A route: its method and its path pattern. *)
Definition Route : Type := (string * string)%type.

Definition route_matches (r : Route) (method url : string) : bool :=
  handles_method (fst r) method && path_matches (snd r) (pathname url).

Definition router_matches (routes : list Route) (method url : string) : bool :=
  existsb (fun r => route_matches r method url) routes.

(** *** Percent-decoding

    [decodeURIComponent]: every [%XX] is read as a byte, and the bytes so
    written must be well-formed UTF-8, each byte of a sequence written as
    an escape of its own.  [None]: it throws a [URIError]. *)
Inductive Piece : Type :=
| Plain (c : ascii)       (* a character that stands for itself *)
| Escaped (byte : N).     (* a byte written as [%XX] *)

Fixpoint unescape (s : string) : option (list Piece) :=
  match s with
  | EmptyString => Some []
  | String c r =>
      if Ascii.eqb c "%" then
        match r with
        | String a (String b r') =>
            match hex_val a, hex_val b with
            | Some x, Some y =>
                match unescape r' with
                | Some l => Some (Escaped (16 * x + y) :: l)
                | None => None
                end
            | _, _ => None
            end
        | _ => None
        end
      else
        match unescape r with
        | Some l => Some (Plain c :: l)
        | None => None
        end
  end.

(** [p] is an escaped byte between [lo] and [hi]. *)
Definition continues (lo hi : N) (p : Piece) : bool :=
  match p with
  | Escaped b => ((lo <=? b) && (b <=? hi))%N
  | Plain _ => false
  end.

(** The escaped bytes form well-formed UTF-8 sequences (no overlong form,
    no surrogate, nothing above U+10FFFF). *)
Fixpoint well_formed (l : list Piece) : bool :=
  match l with
  | [] => true
  | Plain _ :: r => well_formed r
  | Escaped b :: r =>
      if (b <? 128)%N then well_formed r
      else if ((194 <=? b) && (b <=? 223))%N then
        match r with
        | p1 :: r1 => continues 128 191 p1 && well_formed r1
        | _ => false
        end
      else if ((224 <=? b) && (b <=? 239))%N then
        match r with
        | p1 :: p2 :: r2 =>
            continues (if (b =? 224)%N then 160 else 128) (if (b =? 237)%N then 159 else 191) p1
            && continues 128 191 p2 && well_formed r2
        | _ => false
        end
      else if ((240 <=? b) && (b <=? 244))%N then
        match r with
        | p1 :: p2 :: p3 :: r3 =>
            continues (if (b =? 240)%N then 144 else 128) (if (b =? 244)%N then 143 else 191) p1
            && continues 128 191 p2 && continues 128 191 p3 && well_formed r3
        | _ => false
        end
      else false
  end.

Definition byte_of (p : Piece) : ascii :=
  match p with
  | Plain c => c
  | Escaped b => ascii_of_N b
  end.

(** The decoded text, given by its UTF-8 bytes. *)
Definition decodeURIComponent (s : string) : option string :=
  match unescape s with
  | Some l => if well_formed l then Some (string_of_list_ascii (map byte_of l)) else None
  | None => None
  end.

Definition decodes (s : string) : bool :=
  match decodeURIComponent s with Some _ => true | None => false end.

(** The error Express raises when a parameter does not decode. *)
Definition decode_error (val : string) : Error :=
  {| err_message := "Failed to decode param '" +:+ val +:+ "'";
     err_status := Some 400;
     err_response := None |}.

(** [decode_param] of a layer. *)
Definition decode_param (val : string) : Error + string :=
  match decodeURIComponent val with
  | Some s => inr s
  | None => inl (decode_error val)
  end.

(** *** Layers and routers

    Matching a layer against a path: the regular expression of the pattern
    is tried, and when it matches the text of every parameter is decoded,
    in order; a parameter that does not decode makes the match fail with
    an error.  The method plays no part here. *)
Inductive LayerMatch : Type :=
| Matched
| NotMatched
| MatchFailed (e : Error).

Fixpoint param_values (ps : list PatSeg) (ss : list string) : list string :=
  match ps, ss with
  | Param :: ps', s :: ss' => s :: param_values ps' ss'
  | Lit _ :: ps', _ :: ss' => param_values ps' ss'
  | _, _ => []
  end.

Fixpoint first_failure (vals : list string) : option Error :=
  match vals with
  | [] => None
  | val :: rest =>
      match decode_param val with
      | inl e => Some e
      | inr _ => first_failure rest
      end
  end.

Definition layer_match (pattern path : string) : LayerMatch :=
  if path_matches pattern path then
    match path_segments path with
    | Some ss =>
        match first_failure (param_values (pattern_segments pattern) ss) with
        | Some e => MatchFailed e
        | None => Matched
        end
    | None => NotMatched
    end
  else NotMatched.

(** What a router does with a request: one of its routes runs, or it
    passes the request on, with or without an error. *)
Inductive Dispatch : Type :=
| Handled
| Unhandled
| Raised (e : Error).

(** The loop of the router's [next()] over its routes.  The path is
    matched before the method is looked at; the first error of a match is
    held in [layerError], and from then on no route takes the request. *)
Fixpoint dispatch (routes : list Route) (method path : string) (layerError : option Error)
  : Dispatch :=
  match routes with
  | [] =>
      match layerError with
      | Some e => Raised e
      | None => Unhandled
      end
  | r :: rest =>
      match layer_match (snd r) path with
      | NotMatched => dispatch rest method path layerError
      | MatchFailed e => dispatch rest method path (Some (default e layerError))
      | Matched =>
          match layerError with
          | Some _ => dispatch rest method path layerError
          | None =>
              if handles_method (fst r) method then Handled
              else dispatch rest method path None
          end
      end
  end.

Definition router_dispatch (routes : list Route) (method url : string) : Dispatch :=
  dispatch routes method (pathname url) None.

(** What a middleware does with a request: pass it on, answer it, or fail. *)
Inductive MwResult : Type :=
| MwNext
| MwEnd (status : Z) (body : string)
| MwError (e : Error).

(** [cors()] with its defaults answers every [OPTIONS] request itself. *)
Definition cors (req : Request) : MwResult :=
  if String.eqb (req_method req) "OPTIONS" then MwEnd 204 "" else MwNext.

(** The body [res.json(v)] writes under the status [status] of the status
    line, in answer to a request of method [method]: the serialisation of
    [v]; nothing under 204, 205 and 304 or under a status below 200, and
    nothing in answer to [HEAD].  (It is the body before the compression
    middleware encodes it for a client that accepts an encoding.) *)
Definition json_wire_body (method : string) (status : Z) (v : JSValue) : string :=
  if ((status <? 200) || (status =? 204) || (status =? 205) || (status =? 304))%Z
     || String.eqb method "HEAD" then ""
  else JSON_stringify v.

(** Whether a request is conditional: it carries a validator. *)
Definition conditional (req : Request) : bool :=
  negb (String.eqb (default "" (req_headers req !! "if-none-match")) "")
  || negb (String.eqb (default "" (req_headers req !! "if-modified-since")) "").

(** [req.fresh] when [res.json] is about to write [text] under [status]: the
    request is a conditional [GET] or [HEAD], the status is 2xx or 304, and
    the validators of the request hold of the response.  [validators] is
    that last test (the [ETag] Express computes from [text] against
    [If-None-Match], [If-Modified-Since], [Cache-Control: no-cache]). *)
Definition fresh (validators : Request -> string -> bool) (req : Request)
    (status : Z) (text : string) : bool :=
  (String.eqb (req_method req) "GET" || String.eqb (req_method req) "HEAD")
  && ((200 <=? status) && (status <? 300) || (status =? 304))%Z
  && conditional req
  && validators req text.

(** The status line and the body of [res.status(status).json(v)] in answer
    to [req]: a fresh request is answered 304. *)
Definition json_response (validators : Request -> string -> bool) (req : Request)
    (status : Z) (v : JSValue) : Z * string :=
  let status := if fresh validators req status (JSON_stringify v) then 304 else status in
  (status, json_wire_body (req_method req) status v).

End Express.

Import Express.

(** ** The gateway *)

Module Gateway.

(** [process.env]. *)
Abbreviation Env := (gmap string string).

(** *** routes/*.js: the forwarding handlers

    The five route files define the same handler up to the constant it
    reads, the label it logs under and the body it answers when no reply
    was received.  [forward] is that common text; the five handlers below
    instantiate it with the constants of their file. *)

Definition forward_config (SERVICE_URL : string) (req : Request) : Config :=
  let targetUrl := SERVICE_URL +:+ req_url req in
  {| cfg_method := req_method req;
     cfg_url := targetUrl;
     cfg_data := req_body req;
     cfg_params := req_query req;
     cfg_headers :=
       <["x-forwarded-host" := req_get req "host"]>
         (<["x-forwarded-proto" := Some (req_protocol req)]>
            (<["x-forwarded-for" := Some (req_ip req)]>
               (Some <$> req_headers req))) |}.

Definition unavailable (error message : string) : JSValue :=
  JObj [("error", JStr error); ("message", JStr message)].

Definition forward (SERVICE_URL label error message : string)
    (net : Network) (req : Request) : M unit :=
  try_catch
    (let config := forward_config SERVICE_URL req in
     let* response := axios net config in
     res_status_json (resp_status response) (resp_data response))
    (fun error_ =>
       console_error label (err_message error_) ;;
       match err_response error_ with
       | Some response => res_status_json (resp_status response) (resp_data response)
       | None => res_status_json 500 (unavailable error message)
       end).

Definition AUTH_SERVICE_URL (env : Env) : string :=
  or_default (env !! "AUTH_SERVICE_URL") "http://localhost:3001".
Definition TASK_SERVICE_URL (env : Env) : string :=
  or_default (env !! "TASK_SERVICE_URL") "http://localhost:3002".
Definition NOTIFICATION_SERVICE_URL (env : Env) : string :=
  or_default (env !! "NOTIFICATION_SERVICE_URL") "http://localhost:3003".
Definition REPORTING_SERVICE_URL (env : Env) : string :=
  or_default (env !! "REPORTING_SERVICE_URL") "http://localhost:3004".
Definition ADMIN_SERVICE_URL (env : Env) : string :=
  or_default (env !! "ADMIN_SERVICE_URL") "http://localhost:3005".

(** In each handler [env] is [process.env] as it was when the route file
    was loaded: the URL is a constant of the module. *)
Definition forwardToAuthService (env : Env) : Network -> Request -> M unit :=
  forward (AUTH_SERVICE_URL env) "Auth service error:"
    "Auth Service Unavailable" "Unable to connect to authentication service".

Definition forwardToTaskService (env : Env) : Network -> Request -> M unit :=
  forward (TASK_SERVICE_URL env) "Task service error:"
    "Task Service Unavailable" "Unable to connect to task management service".

Definition forwardToNotificationService (env : Env) : Network -> Request -> M unit :=
  forward (NOTIFICATION_SERVICE_URL env) "Notification service error:"
    "Notification Service Unavailable" "Unable to connect to notification service".

Definition forwardToReportingService (env : Env) : Network -> Request -> M unit :=
  forward (REPORTING_SERVICE_URL env) "Reporting service error:"
    "Reporting Service Unavailable" "Unable to connect to reporting service".

Definition forwardToAdminService (env : Env) : Network -> Request -> M unit :=
  forward (ADMIN_SERVICE_URL env) "Admin service error:"
    "Admin Service Unavailable" "Unable to connect to admin service".

Definition authRoutes : list Route :=
  [("POST", "/register"); ("POST", "/login"); ("POST", "/logout");
   ("POST", "/refresh-token"); ("GET", "/profile"); ("PUT", "/profile");
   ("POST", "/forgot-password"); ("POST", "/reset-password");
   ("POST", "/verify-email")].

Definition taskRoutes : list Route :=
  [("GET", "/"); ("POST", "/"); ("GET", "/:id"); ("PUT", "/:id");
   ("DELETE", "/:id"); ("PATCH", "/:id/status"); ("PATCH", "/:id/assign");
   ("GET", "/user/:userId"); ("GET", "/project/:projectId");
   ("POST", "/:id/comments"); ("GET", "/:id/comments")].

Definition notificationRoutes : list Route :=
  [("POST", "/send-email"); ("POST", "/send-sms"); ("POST", "/send-push");
   ("GET", "/templates"); ("POST", "/templates"); ("PUT", "/templates/:id");
   ("DELETE", "/templates/:id"); ("GET", "/history"); ("GET", "/history/:id")].

Definition reportingRoutes : list Route :=
  [("GET", "/dashboard"); ("GET", "/tasks/summary"); ("GET", "/users/performance");
   ("GET", "/projects/status"); ("POST", "/generate-report"); ("GET", "/reports");
   ("GET", "/reports/:id"); ("GET", "/analytics/task-completion");
   ("GET", "/analytics/user-productivity"); ("GET", "/analytics/project-timeline")].

Definition adminRoutes : list Route :=
  [("GET", "/users"); ("GET", "/users/:id"); ("PUT", "/users/:id");
   ("DELETE", "/users/:id"); ("POST", "/users/:id/activate");
   ("POST", "/users/:id/deactivate"); ("GET", "/system/health");
   ("GET", "/system/logs"); ("GET", "/system/metrics"); ("POST", "/system/backup");
   ("GET", "/audit-logs"); ("GET", "/audit-logs/:id")].

(** *** server.js *)

(** The five backends. *)
Inductive Service : Type := Auth | Task | Notification | Reporting | Admin.

Definition services : list Service := [Auth; Task; Notification; Reporting; Admin].

Definition routes_of (s : Service) : list Route :=
  match s with
  | Auth => authRoutes
  | Task => taskRoutes
  | Notification => notificationRoutes
  | Reporting => reportingRoutes
  | Admin => adminRoutes
  end.

Definition handler_of (s : Service) : Env -> Network -> Request -> M unit :=
  match s with
  | Auth => forwardToAuthService
  | Task => forwardToTaskService
  | Notification => forwardToNotificationService
  | Reporting => forwardToReportingService
  | Admin => forwardToAdminService
  end.

(** The [app.use(prefix, router)] lines, in order. *)
Definition mounts : list (string * Service) :=
  [("/api/auth", Auth); ("/api/tasks", Task); ("/api/notifications", Notification);
   ("/api/reports", Reporting); ("/api/admin", Admin)].

(** [app.get("/health", ...)]; [env] is [process.env] when the request is
    handled and [now] is [new Date().toISOString()]. *)
Definition health (env : Env) (now : string) : M unit :=
  res_status_json 200
    (JObj [("status", JStr "OK");
           ("message", JStr "API Gateway is running");
           ("timestamp", JStr now);
           ("services",
            JObj [("auth", JStr (or_default (env !! "AUTH_SERVICE_URL") "http://localhost:3001"));
                  ("task", JStr (or_default (env !! "TASK_SERVICE_URL") "http://localhost:3002"));
                  ("notification",
                   JStr (or_default (env !! "NOTIFICATION_SERVICE_URL") "http://localhost:3003"));
                  ("reporting",
                   JStr (or_default (env !! "REPORTING_SERVICE_URL") "http://localhost:3004"));
                  ("admin", JStr (or_default (env !! "ADMIN_SERVICE_URL") "http://localhost:3005"))])]).

(** [app.use("*", ...)]: the 404 handler. *)
Definition notFound (req : Request) : M unit :=
  res_status_json 404
    (JObj [("error", JStr "Route not found");
           ("message", JStr ("Cannot " +:+ req_method req +:+ " " +:+ req_originalUrl req))]).

(** The global error handler. *)
Definition globalErrorHandler (err : Error) : M unit :=
  console_error "Global error:" (err_message err) ;;
  res_status_json (or_defaultZ (err_status err) 500)
    (JObj [("error", JStr "Internal Server Error");
           ("message", JStr (or_default (Some (err_message err)) "Something went wrong"))]).

(** Where the routing layers take a request: the layers are tried in the
    order of [server.js], and inside a router the first route that takes
    the request runs (no handler passes the request on).  A layer whose
    parameter does not decode raises an error instead, and the request goes
    to the error handler past every layer that is left. *)
Inductive Target : Type :=
| ToHealth
| ToService (s : Service) (url : string)
| ToNotFound
| ToError (e : Error).

(** What the [app.use(prefix, router)] lines do with a request. *)
Inductive Mounted : Type :=
| Taken (s : Service) (url : string)
| PassedOn
| MountRaised (e : Error).

Fixpoint first_mount (ms : list (string * Service)) (req : Request) : Mounted :=
  match ms with
  | [] => PassedOn
  | (prefix, s) :: rest =>
      match mount_strip prefix (req_url req) with
      | Some url =>
          match router_dispatch (routes_of s) (req_method req) url with
          | Handled => Taken s url
          | Unhandled => first_mount rest req
          | Raised e => MountRaised e
          end
      | None => first_mount rest req
      end
  end.

(** The layer of [app.use("*", ...)] matches every path, and decodes it. *)
Definition route (req : Request) : Target :=
  if route_matches ("GET", "/health") (req_method req) (req_url req) then ToHealth
  else match first_mount mounts req with
       | Taken s url => ToService s url
       | MountRaised e => ToError e
       | PassedOn =>
           match decode_param (pathname (req_url req)) with
           | inr _ => ToNotFound
           | inl e => ToError e
           end
       end.

(** The middleware in front of the routes: [helmet], [compression] and
    [morgan] always pass the request on and [cors] is as above; [guard]
    stands for the rate limiter and the body parsers, which answer or fail
    on their own terms. *)
Definition middleware (guard : Request -> MwResult) (req : Request) : MwResult :=
  match cors req with
  | MwNext => guard req
  | r => r
  end.

(** One request through the application.  [boot] is [process.env] when the
    modules were loaded, [env] is [process.env] now.  The request enters
    with [req.url] equal to the URL of its request line.  An error passed
    on by a middleware, raised by a layer, or thrown by a handler, reaches
    the global error handler.  (Express hands it the errors thrown
    synchronously; the model hands it those of the asynchronous forwarding
    handlers as well, which is the most an error escaping them could
    reach.) *)
Definition app (boot env : Env) (now : string) (net : Network)
    (guard : Request -> MwResult) (req : Request) : Completion unit * list Event :=
  let req := with_url req (req_originalUrl req) in
  match middleware guard req with
  | MwEnd status body => (Normal tt, [Sent status (RawBody body)])
  | MwError e => globalErrorHandler e []
  | MwNext =>
      let run :=
        match route req with
        | ToHealth => health env now
        | ToService s url => handler_of s boot net (with_url req url)
        | ToNotFound => notFound req
        | ToError e => throw e
        end in
      try_catch run globalErrorHandler []
  end.

(** The constant each service's handler forwards to, the name it shows in
    its error body, and the readings of a trace the statements below use. *)
Definition service_url (s : Service) (env : Env) : string :=
  match s with
  | Auth => AUTH_SERVICE_URL env
  | Task => TASK_SERVICE_URL env
  | Notification => NOTIFICATION_SERVICE_URL env
  | Reporting => REPORTING_SERVICE_URL env
  | Admin => ADMIN_SERVICE_URL env
  end.

Definition env_name (s : Service) : string :=
  match s with
  | Auth => "AUTH_SERVICE_URL"
  | Task => "TASK_SERVICE_URL"
  | Notification => "NOTIFICATION_SERVICE_URL"
  | Reporting => "REPORTING_SERVICE_URL"
  | Admin => "ADMIN_SERVICE_URL"
  end.

Definition default_url (s : Service) : string :=
  match s with
  | Auth => "http://localhost:3001"
  | Task => "http://localhost:3002"
  | Notification => "http://localhost:3003"
  | Reporting => "http://localhost:3004"
  | Admin => "http://localhost:3005"
  end.

Definition display_name (s : Service) : string :=
  match s with
  | Auth => "Auth Service"
  | Task => "Task Service"
  | Notification => "Notification Service"
  | Reporting => "Reporting Service"
  | Admin => "Admin Service"
  end.

Definition log_label (s : Service) : string :=
  match s with
  | Auth => "Auth service error:"
  | Task => "Task service error:"
  | Notification => "Notification service error:"
  | Reporting => "Reporting service error:"
  | Admin => "Admin service error:"
  end.

Definition connect_message (s : Service) : string :=
  match s with
  | Auth => "Unable to connect to authentication service"
  | Task => "Unable to connect to task management service"
  | Notification => "Unable to connect to notification service"
  | Reporting => "Unable to connect to reporting service"
  | Admin => "Unable to connect to admin service"
  end.

(** The responses sent during a run, in order. *)
Fixpoint responses (t : list Event) : list (Z * Body) :=
  match t with
  | [] => []
  | Sent status body :: r => (status, body) :: responses r
  | _ :: r => responses r
  end.

(** The outbound calls made during a run, in order. *)
Fixpoint outbound_calls (t : list Event) : list Config :=
  match t with
  | [] => []
  | Outbound c :: r => c :: outbound_calls r
  | _ :: r => outbound_calls r
  end.

(** The request a handler mounted under a prefix receives. *)
Definition inbound (req : Request) : Request := with_url req (req_originalUrl req).

End Gateway.

Import Gateway.

(** ** Replies on the wire *)

Module Wire.

Definition is_ascii (c : ascii) : bool := (N_of_ascii c <? 128)%N.



(** How [axios(config)] settles on a reply of status [status] whose body
    was read as [data]: it resolves on 2xx and rejects, carrying the
    reply, on any other status. *)
Definition settle (status : Z) (data : JSValue) : Outcome :=
  let response := {| resp_status := status; resp_data := data |} in
  if validateStatus status then Resolved response
  else Rejected {| err_message := "Request failed with status code " +:+ pretty status;
                   err_status := Some status;
                   err_response := Some response |}.




(** What may follow a number without being read as part of it. *)
Definition ends_number (rest : string) : bool :=
  match rest with
  | EmptyString => true
  | String c _ =>
      negb (is_digit c || Ascii.eqb c "." || Ascii.eqb c "e" || Ascii.eqb c "E")
  end.

(** How [JSON_stringify] writes one property of an object. *)
Definition member (p : string * JSValue) : string :=
  quote (fst p) +:+ ":" +:+ JSON_stringify (snd p).


(** What a server puts on the wire for the responses of a run, in answer
    to a request of method [method] that carries no validator. *)
Definition wire_body (method : string) (status : Z) (body : Body) : string :=
  match body with
  | JsonBody v => json_wire_body method status v
  | RawBody text => text
  end.

Definition wire_responses (method : string) (t : list Event) : list (Z * string) :=
  map (fun r => (fst r, wire_body method (fst r) (snd r))) (responses t).

(** The same in answer to any request [req]: status line and body. *)
Definition answer (validators : Request -> string -> bool) (req : Request)
    (r : Z * Body) : Z * string :=
  match snd r with
  | JsonBody v => json_response validators req (fst r) v
  | RawBody text => (fst r, text)
  end.

Definition answers (validators : Request -> string -> bool) (req : Request)
    (t : list Event) : list (Z * string) :=
  map (answer validators req) (responses t).

End Wire.

Import Wire.

(** ** The stand-alone health-check script *)

Module HealthScript.

Record ServiceEntry : Type := {
  name : string;
  port : Z;
  path : string
}.

Definition services : list ServiceEntry :=
  [ {| name := "API Gateway"; port := 3000; path := "/health" |};
    {| name := "Auth Service"; port := 3001; path := "/health" |};
    {| name := "Task Service"; port := 3002; path := "/health" |};
    {| name := "Notification Service"; port := 3003; path := "/health" |};
    {| name := "Reporting Service"; port := 3004; path := "/health" |};
    {| name := "Admin Service"; port := 3005; path := "/health" |} ].

(** The options [checkService] passes to [http.request]. *)
Record Options : Type := {
  opt_hostname : string;
  opt_port : Z;
  opt_path : string;
  opt_method : string;
  opt_timeout : Z
}.

(** What happens to one request of the script: the reply ended with its
    body read as [data], the request failed, or it timed out. *)
Inductive ProbeOutcome : Type :=
| Ended (data : string)
| Failed (message : string)
| TimedOut.

Definition Probe : Type := Options -> ProbeOutcome.

(** The value a [checkService] promise resolves to. *)
Inductive CheckResult : Type :=
| healthy (name : string) (port : Z) (response : Parsed)
| unhealthy (name : string) (port : Z) (error : string).

Definition result_name (r : CheckResult) : string :=
  match r with healthy n _ _ => n | unhealthy n _ _ => n end.

Definition result_port (r : CheckResult) : Z :=
  match r with healthy _ p _ => p | unhealthy _ p _ => p end.

Definition result_status (r : CheckResult) : string :=
  match r with healthy _ _ _ => "healthy" | unhealthy _ _ _ => "unhealthy" end.

Definition is_healthy (r : CheckResult) : bool :=
  match r with healthy _ _ _ => true | unhealthy _ _ _ => false end.

Definition options_of (service : ServiceEntry) : Options :=
  {| opt_hostname := "localhost";
     opt_port := port service;
     opt_path := path service;
     opt_method := "GET";
     opt_timeout := 5000 |}.

Definition checkService (probe : Probe) (service : ServiceEntry) : CheckResult :=
  match probe (options_of service) with
  | Ended data =>
      match JSON_parse data with
      | SyntaxError => unhealthy (name service) (port service) "Invalid JSON response"
      | response => healthy (name service) (port service) response
      end
  | Failed message => unhealthy (name service) (port service) message
  | TimedOut => unhealthy (name service) (port service) "Request timeout"
  end.

Definition nl : string := String (ascii_of_N 10) "".

Fixpoint repeat_string (s : string) (n : nat) : string :=
  match n with
  | O => ""
  | S n => s +:+ repeat_string s n
  end.

(** The lines [results.forEach] prints for one result. *)
Definition report_lines (result : CheckResult) : list string :=
  let statusIcon := if String.eqb (result_status result) "healthy" then "✅" else "❌" in
  (statusIcon +:+ " " +:+ result_name result +:+ " (Port " +:+ pretty (result_port result)
     +:+ "): " +:+ result_status result)
  :: match result with
     | unhealthy _ _ error => ["   Error: " +:+ error]
     | healthy _ _ _ => []
     end.

(** The [allHealthy] flag after [results.forEach]. *)
Fixpoint all_healthy (results : list CheckResult) (allHealthy : bool) : bool :=
  match results with
  | [] => allHealthy
  | result :: rest =>
      all_healthy rest
        (if String.eqb (result_status result) "unhealthy" then false else allHealthy)
  end.

Record Run : Type := {
  results : list CheckResult;
  printed : list string;
  allHealthy : bool;
  exit_code : Z
}.

Definition checkAllServices (probe : Probe) : Run :=
  let results := map (checkService probe) services in
  let allHealthy := all_healthy results true in
  {| results := results;
     printed :=
       (["🔍 Checking service health..." +:+ nl]
        ++ concat (map report_lines results)
        ++ [nl +:+ repeat_string "=" 50]
        ++ [if allHealthy then "🎉 All services are healthy!"
            else "⚠️  Some services are unhealthy!"])%list;
     allHealthy := allHealthy;
     exit_code := if allHealthy then 0 else 1 |}.

End HealthScript.

(** ** Statements about runs, and sample inputs *)

(** [reaches guard req target]: the request passes the middleware and the
    routing layers hand it to [target]. *)
Definition reaches (guard : Request -> MwResult) (req : Request) (target : Target) : Prop :=
  middleware guard (inbound req) = MwNext /\ route (inbound req) = target.

(** The configuration of the outbound call for a request routed to [s]. *)
Definition outbound_config (boot : Env) (s : Service) (req : Request) (url : string) : Config :=
  forward_config (service_url s boot) (with_url (inbound req) url).

(** Sample inputs. *)

Definition pass : Request -> MwResult := fun _ => MwNext.

Definition refused : Error :=
  {| err_message := "connect ECONNREFUSED 127.0.0.1:3001";
     err_status := None;
     err_response := None |}.

Definition net_down : Network := fun _ => Rejected refused.

Definition login_request : Request :=
  {| req_method := "POST";
     req_originalUrl := "/api/auth/login";
     req_url := "/api/auth/login";
     req_body := JObj [("email", JStr "ann@example.org"); ("password", JStr "secret")];
     req_headers :=
       <["host" := "localhost:3000"]> (<["content-type" := "application/json"]> ∅);
     req_query := [];
     req_ip := "::1";
     req_protocol := "http" |}.


Definition get_task_request : Request :=
  {| req_method := "GET";
     req_originalUrl := "/api/tasks/abc123?verbose=true";
     req_url := "/api/tasks/abc123?verbose=true";
     req_body := JObj [];
     req_headers :=
       <["host" := "localhost:3000"]> (<["authorization" := "Bearer t0k3n"]> ∅);
     req_query := [("verbose", "true")];
     req_ip := "::1";
     req_protocol := "http" |}.

(** A backend that answers every call with status [status] and a body that
    axios reads as [data]. *)
Definition net_replying (status : Z) (data : JSValue) : Network :=
  fun _ => settle status data.



(** The prefix a service's router is mounted under. *)
Definition mount_prefix (s : Service) : string :=
  match s with
  | Auth => "/api/auth"
  | Task => "/api/tasks"
  | Notification => "/api/notifications"
  | Reporting => "/api/reports"
  | Admin => "/api/admin"
  end.

Definition net_ok : Network := net_replying 200 (JObj [("ok", JBool true)]).

(** The number a string of digits writes. *)
Fixpoint decimal (s : string) (acc : nat) : nat :=
  match s with
  | EmptyString => acc
  | String c r => decimal r (10 * acc + (N.to_nat (N_of_ascii c) - 48))
  end.

(** A backend that answers once it has read as many bytes of the body as
    the [content-length] of the call announces, and keeps waiting for them
    when the body is shorter.  The body of the call is the serialisation of
    its [data]. *)
Definition net_reading_body : Network :=
  fun c =>
    match cfg_headers c !! "content-length" with
    | Some (Some n) =>
        if (String.length (JSON_stringify (cfg_data c)) <? decimal n 0)%nat then Pending
        else settle 200 (JObj [("ok", JBool true)])
    | _ => settle 200 (JObj [("ok", JBool true)])
    end.

(** [POST /api/auth/login] from a client that wrote its JSON body with a
    space after each colon and each comma: 50 bytes, which the gateway's
    parser reads as the object of [login_request]. *)
Definition spaced_login_request : Request :=
  {| req_method := "POST";
     req_originalUrl := "/api/auth/login";
     req_url := "/api/auth/login";
     req_body := JObj [("email", JStr "ann@example.org"); ("password", JStr "secret")];
     req_headers :=
       <["host" := "localhost:3000"]>
         (<["content-type" := "application/json"]> (<["content-length" := "50"]> ∅));
     req_query := [];
     req_ip := "::1";
     req_protocol := "http" |}.


Definition task_bad_escape_request : Request :=
  {| req_method := "GET";
     req_originalUrl := "/api/tasks/%zz";
     req_url := "/api/tasks/%zz";
     req_body := JObj [];
     req_headers := <["host" := "localhost:3000"]> ∅;
     req_query := [];
     req_ip := "::1";
     req_protocol := "http" |}.

(** A request that came through a proxy, over HTTP/1.0 and without a
    [Host] header. *)
Definition proxied_request : Request :=
  {| req_method := "GET";
     req_originalUrl := "/api/tasks/abc123";
     req_url := "/api/tasks/abc123";
     req_body := JObj [];
     req_headers :=
       <["x-forwarded-for" := "203.0.113.7"]> (<["accept" := "*/*"]> ∅);
     req_query := [];
     req_ip := "::1";
     req_protocol := "http" |}.

(** A validator test under which every conditional request is fresh. *)
Definition always_fresh : Request -> string -> bool := fun _ _ => true.


(** The names of the three forwarding headers. *)
Definition forwarded_names : gset string :=
  {["x-forwarded-for"; "x-forwarded-proto"; "x-forwarded-host"]}.

(** [req] with header [name] set to [value]. *)
Definition with_header (req : Request) (name value : string) : Request :=
  {| req_method := req_method req;
     req_originalUrl := req_originalUrl req;
     req_url := req_url req;
     req_body := req_body req;
     req_headers := <[name := value]> (req_headers req);
     req_query := req_query req;
     req_ip := req_ip req;
     req_protocol := req_protocol req |}.


(** The responses a forwarding handler sends, by the way its call settled:
    one, and none as long as the call is pending. *)
Definition relayed (s : Service) (o : Outcome) : list (Z * Body) :=
  match o with
  | Resolved r => [(resp_status r, JsonBody (resp_data r))]
  | Rejected e =>
      match err_response e with
      | Some r => [(resp_status r, JsonBody (resp_data r))]
      | None => [(500, JsonBody (unavailable (display_name s +:+ " Unavailable")
                                             (connect_message s)))]
      end
  | Pending => []
  end.

(** Whether the global error handler ran: it is the only place that logs
    under ["Global error:"]. *)
Definition error_handler_ran (t : list Event) : bool :=
  existsb (fun e => match e with
                    | ConsoleError label _ => String.eqb label "Global error:"
                    | _ => false
                    end) t.

(** [c] with header [name] set to [value]. *)
Definition with_cfg_header (c : Config) (name value : string) : Config :=
  {| cfg_method := cfg_method c;
     cfg_url := cfg_url c;
     cfg_data := cfg_data c;
     cfg_params := cfg_params c;
     cfg_headers := <[name := Some value]> (cfg_headers c) |}.




Definition health_request : Request :=
  {| req_method := "GET";
     req_originalUrl := "/health";
     req_url := "/health";
     req_body := JObj [];
     req_headers := <["host" := "localhost:3000"]> ∅;
     req_query := [];
     req_ip := "::1";
     req_protocol := "http" |}.

(** The body of the gateway's own health answer. *)
Definition health_body (env : Env) (now : string) : JSValue :=
  JObj [("status", JStr "OK");
        ("message", JStr "API Gateway is running");
        ("timestamp", JStr now);
        ("services",
         JObj [("auth", JStr (service_url Auth env));
               ("task", JStr (service_url Task env));
               ("notification", JStr (service_url Notification env));
               ("reporting", JStr (service_url Reporting env));
               ("admin", JStr (service_url Admin env))])].

(** A probe under which every service but the one on port 3002 answers. *)
Definition probe_task_down : HealthScript.Probe :=
  fun o =>
    if (HealthScript.opt_port o =? 3002)%Z then HealthScript.TimedOut
    else HealthScript.Ended ("{" +:+ quoted "status" +:+ ":" +:+ quoted "OK" +:+ "}").



(** Whether two mount prefixes agree, up to the case of letters, as far as
    both go. *)
Fixpoint agree_ci (p q : string) : bool :=
  match p, q with
  | String a p', String b q' =>
      Ascii.eqb (lower_char a) (lower_char b) && agree_ci p' q'
  | _, _ => true
  end.

(** [ms] are mounts of which at most one takes any URL. *)
Definition exclusive (ms : list (string * Service)) : Prop :=
  forall p1 s1 p2 s2 u u1 u2,
    In (p1, s1) ms -> In (p2, s2) ms ->
    mount_strip p1 u = Some u1 -> mount_strip p2 u = Some u2 ->
    (p1, s1) = (p2, s2).




(** ** The health handlers of the backends *)

Module Backends.

(** auth-service/server.js, [app.get("/health")]: [readyState] is
    [mongoose.connection.readyState] and [now] is
    [new Date().toISOString()]. *)
Definition auth_health (readyState : Z) (now : string) : M unit :=
  res_status_json 200
    (JObj [("status", JStr "OK");
           ("service", JStr "Authentication Service");
           ("timestamp", JStr now);
           ("database", JStr (if (readyState =? 1)%Z then "Connected" else "Disconnected"))]).

(** The task service's server, [app.get("/health")]. *)
Definition task_health (readyState : Z) (now : string) : M unit :=
  res_status_json 200
    (JObj [("status", JStr "OK");
           ("service", JStr "Task Management Service");
           ("timestamp", JStr now);
           ("database", JStr (if (readyState =? 1)%Z then "Connected" else "Disconnected"))]).

(** The notification service's server, [app.get("/health")]. *)
Definition notification_health (now : string) : M unit :=
  res_status_json 200
    (JObj [("status", JStr "OK");
           ("service", JStr "Notification Service");
           ("timestamp", JStr now);
           ("features", JArr [JStr "email"; JStr "sms"; JStr "push"])]).

(** How [pool.query("SELECT NOW()", callback)] calls back: with an error,
    or with the one row of the result, whose [now] is a date (written by
    [res.json] as its ISO string). *)
Inductive NowQuery : Type :=
| QueryFailed (err : string)
| QueryRow (now : string).

(** reporting-service/server.js, [app.get("/health")]. *)
Definition reporting_health (q : NowQuery) (now : string) : M unit :=
  res_status_json 200
    (JObj [("status", JStr "OK");
           ("service", JStr "Reporting Service");
           ("timestamp", JStr now);
           ("database",
            JStr (match q with QueryFailed _ => "Disconnected" | QueryRow _ => "Connected" end));
           ("databaseTime", match q with QueryFailed _ => JNull | QueryRow t => JStr t end)]).

(** The four handlers and what each depends on. *)
Inductive BackendHealth : Type :=
| AuthHealth (readyState : Z)
| TaskHealth (readyState : Z)
| NotificationHealth
| ReportingHealth (q : NowQuery).

Definition backend_health (h : BackendHealth) (now : string) : M unit :=
  match h with
  | AuthHealth readyState => auth_health readyState now
  | TaskHealth readyState => task_health readyState now
  | NotificationHealth => notification_health now
  | ReportingHealth q => reporting_health q now
  end.

End Backends.

(** [accepted v]: the reader accepts the serialisation of [v], whatever
    follows it (as long as that does not prolong a number), once the fuel
    is enough. *)
Definition accepted (v : JSValue) : Prop :=
  forall rest, ends_number rest = true ->
    exists fuel o, forall fuel', (fuel <= fuel')%nat ->
      parse_value fuel' (JSON_stringify v +:+ rest) = POk o rest.

(** What a request of the health-check script gets from a server whose
    run on that request is [run]: the body of the response as it is on the
    wire, or nothing before the time-out when no response was sent. *)
Definition served (method : string) (run : Completion unit * list Event)
  : HealthScript.ProbeOutcome :=
  match wire_responses method (snd run) with
  | (_, body) :: _ => HealthScript.Ended body
  | [] => HealthScript.TimedOut
  end.


(** ** The authentication service: [controllers/authController.js] *)

Module AuthService.

(** A thrown error: [error.name] and [error.message]. *)
Record JsError : Type := {
  name : string;
  message : string
}.

(** The user document [User.findById] gives, as far as this file reads it:
    [isActive] is whether [user.isActive] is truthy. *)
Record User : Type := {
  _id : string;
  role : string;
  isActive : bool
}.

(** [jwt.verify(token, secret)]: the payload, or the error thrown. *)
Inductive Verified : Type :=
| Decoded (payload : JSValue)
| VerifyError (error : JsError).

(** [await User.findById(id).select("-password")], where [id] is [None]
    for [undefined]: a document, [null], or the error thrown. *)
Inductive Lookup : Type :=
| Found (user : User)
| Missing
| LookupError (error : JsError).

(** The token library and the user store. *)
Record World : Type := {
  jwt_verify : string -> string -> Verified;
  User_findById : option JSValue -> Lookup
}.

(** The calls a middleware makes to them, in order. *)
Inductive Call : Type :=
| JwtVerify (token secret : string)
| FindById (id : option JSValue).

(** What a middleware does with the request: it calls [next()], with
    [req.user] set, or it answers. *)
Inductive Outcome : Type :=
| Next (user : User)
| Answer (status : Z) (body : JSValue).

(** [env] is [process.env] when the module is loaded. *)
Definition JWT_SECRET (env : Env) : string :=
  or_default (env !! "JWT_SECRET") "your-super-secret-jwt-key-change-in-production".

(** [authHeader && authHeader.split(" ")[1]]: [None] is [undefined]. *)
Definition token_of (authHeader : option string) : option string :=
  match authHeader with
  | Some h => if String.eqb h "" then Some "" else split_on " " h !! 1%nat
  | None => None
  end.

(** [decoded.userId]: [inl] the value ([None] for [undefined]), [inr] when
    reading it throws (on [null]). *)
Definition userId_of (decoded : JSValue) : option JSValue + JsError :=
  match decoded with
  | JObj props => inl (snd <$> find (fun p => String.eqb (fst p) "userId") props)
  | JNull => inr {| name := "TypeError";
                    message := "Cannot read properties of null (reading 'userId')" |}
  | _ => inl None
  end.

(** The [catch] block of [authenticateToken]. *)
Definition caught (error : JsError) : Outcome :=
  if String.eqb (name error) "TokenExpiredError"
  then Answer 401 (JObj [("error", JStr "Token expired")])
  else Answer 403 (JObj [("error", JStr "Invalid token")]).

Definition authenticateToken (env : Env) (w : World) (req : Request) : list Call * Outcome :=
  let authHeader := req_headers req !! "authorization" in
  match token_of authHeader with
  | None => ([], Answer 401 (JObj [("error", JStr "Access token required")]))
  | Some token =>
      if String.eqb token "" then
        ([], Answer 401 (JObj [("error", JStr "Access token required")]))
      else
        match jwt_verify w token (JWT_SECRET env) with
        | VerifyError error => ([JwtVerify token (JWT_SECRET env)], caught error)
        | Decoded decoded =>
            match userId_of decoded with
            | inr error => ([JwtVerify token (JWT_SECRET env)], caught error)
            | inl id =>
                let calls := [JwtVerify token (JWT_SECRET env); FindById id] in
                match User_findById w id with
                | LookupError error => (calls, caught error)
                | Missing =>
                    (calls, Answer 401 (JObj [("error", JStr "Invalid or inactive user")]))
                | Found user =>
                    if isActive user then (calls, Next user)
                    else (calls, Answer 401 (JObj [("error", JStr "Invalid or inactive user")]))
                end
            end
        end
  end.

(** Whether a value of a parsed body is truthy. *)
Definition truthy (v : JSValue) : bool :=
  match v with
  | JNull => false
  | JBool b => b
  | JNum n => negb (n =? 0)%Z
  | JStr s => negb (String.eqb s "")
  | JArr _ => true
  | JObj _ => true
  end.

(** [body.key] for a parsed body (an object or an array): [None] is
    [undefined]. *)
Definition field (key : string) (body : JSValue) : option JSValue :=
  match body with
  | JObj props => snd <$> find (fun p => String.eqb (fst p) key) props
  | _ => None
  end.

(** The properties [{...v}] copies from a truthy value, in order; [None]
    when some are named by numbers, which JavaScript would list first. *)
Definition spread_of (v : JSValue) : option (list (string * JSValue)) :=
  match v with
  | JObj props => if existsb (fun p => all_digits (fst p)) props then None else Some props
  | JArr [] => Some []
  | JArr (_ :: _) => None
  | JStr _ => None
  | _ => Some []
  end.

(** [if (value) updateData.key = value] *)
Definition copy_field (key : string) (body : JSValue) (updateData : list (string * JSValue))
  : list (string * JSValue) :=
  match field key body with
  | Some value => if truthy value then (updateData ++ [(key, value)])%list else updateData
  | None => updateData
  end.

(** The [updateData] that [PUT /profile] builds from [req.body]; [current]
    is what [{...req.user.preferences}] holds. *)
Definition profile_update (current : list (string * JSValue)) (body : JSValue)
  : option (list (string * JSValue)) :=
  let updateData := [] in
  let updateData := copy_field "firstName" body updateData in
  let updateData := copy_field "lastName" body updateData in
  let updateData := copy_field "department" body updateData in
  let updateData := copy_field "position" body updateData in
  let updateData := copy_field "phoneNumber" body updateData in
  match field "preferences" body with
  | Some preferences =>
      if truthy preferences then
        match spread_of preferences with
        | Some props =>
            Some (updateData
                  ++ [("preferences",
                       JObj (fold_left (fun merged p => obj_put (fst p) (snd p) merged)
                                       props current))])%list
        | None => None
        end
      else Some updateData
  | None => Some updateData
  end.

End AuthService.

(** A token library that accepts the token ["t0k3n"] for user ["u1"], and a
    user store that knows this user as an active one. *)
Definition sample_world : AuthService.World :=
  {| AuthService.jwt_verify := fun token _ =>
       if String.eqb token "t0k3n" then AuthService.Decoded (JObj [("userId", JStr "u1")])
       else AuthService.VerifyError
              {| AuthService.name := "JsonWebTokenError";
                 AuthService.message := "jwt malformed" |};
     AuthService.User_findById := fun id =>
       match id with
       | Some (JStr "u1") =>
           AuthService.Found {| AuthService._id := "u1"; AuthService.role := "user";
                                AuthService.isActive := true |}
       | _ => AuthService.Missing
       end |}.

(** A request to the authentication service itself. *)
Definition profile_request : Request :=
  {| req_method := "GET";
     req_originalUrl := "/profile";
     req_url := "/profile";
     req_body := JObj [];
     req_headers := <["authorization" := "Bearer t0k3n"]> ∅;
     req_query := [];
     req_ip := "::1";
     req_protocol := "http" |}.

(** A request for the profile route of the gateway. *)
Definition gateway_profile_request : Request :=
  {| req_method := "GET";
     req_originalUrl := "/api/auth/profile";
     req_url := "/api/auth/profile";
     req_body := JObj [];
     req_headers :=
       <["host" := "localhost:3000"]> (<["authorization" := "Bearer t0k3n"]> ∅);
     req_query := [];
     req_ip := "::1";
     req_protocol := "http" |}.


(** ** The admin service's controller *)

Module AdminService.

(** A row of a query result, and an object in general: its properties in
    the order [Object.keys] lists them. *)
Definition Row : Type := list (string * JSValue).

(** [object[key]]: [None] is [undefined]. *)
Definition lookup_key (key : string) (object : Row) : option JSValue :=
  snd <$> find (fun p => String.eqb (fst p) key) object.

(** How [await db.query(text, params)] settles. *)
Inductive QueryResult : Type :=
| Rows (rows : list Row)
| QueryError (message : string).

(** [req.app.locals.db], taken to be set: [db n text params] is how the
    query settles that a handler makes after [n] earlier ones. *)
Definition Db : Type := nat -> string -> list JSValue -> QueryResult.

(** What a handler does, in order. *)
Inductive Event : Type :=
| Queried (text : string) (params : list JSValue)
| Logged (label message : string)
| Responded (status : Z) (body : JSValue).

(** [req.userId] and [req.userRole]. *)
Record Identity : Type := {
  userId : string;
  userRole : string
}.

(** What a middleware does: it calls [next()], or it answers. *)
Inductive Guard : Type :=
| Pass (who : Identity)
| Reject (status : Z) (body : JSValue).

Definition authenticateAdmin (req : Request) : Guard :=
  match req_headers req !! "authorization" with
  | Some authHeader =>
      if String.eqb authHeader "" then
        Reject 401 (JObj [("error", JStr "Authorization header required")])
      else Pass {| userId := "demo-admin-id"; userRole := "admin" |}
  | None => Reject 401 (JObj [("error", JStr "Authorization header required")])
  end.

Definition isAdmin (who : Identity) : Guard :=
  if String.eqb (userRole who) "admin" then Pass who
  else Reject 403 (JObj [("error", JStr "Admin access required")]).

(** [authenticateAdmin, isAdmin], the two middlewares in front of every
    route of the controller. *)
Definition guard (req : Request) : Guard :=
  match authenticateAdmin req with
  | Pass who => isAdmin who
  | r => r
  end.

Definition handleDbError (message : string) : list Event :=
  [Logged "Database error:" message;
   Responded 500 (JObj [("error", JStr "Database operation failed");
                        ("message", JStr message)])].

Definition nl : string := String (ascii_of_N 10) "".

(** One round of the [forEach] over the keys of the body in
    [PUT /users/:id]. *)
Definition add_field (updateData : Row) (st : list string * list JSValue * Z) (key : string)
  : list string * list JSValue * Z :=
  let '(updateFields, params, paramIndex) := st in
  match lookup_key key updateData with
  | Some value =>
      ((updateFields ++ [key +:+ " = $" +:+ pretty paramIndex])%list,
       (params ++ [value])%list,
       paramIndex + 1)
  | None => st
  end.

(** The text of the update statement. *)
Definition update_query (updateFields : list string) (paramIndex : Z) : string :=
  nl +:+ "      UPDATE users " +:+ nl
  +:+ "      SET " +:+ join ", " updateFields +:+ nl
  +:+ "      WHERE id = $" +:+ pretty paramIndex +:+ nl
  +:+ "      RETURNING *" +:+ nl
  +:+ "    ".

(** The handler of [PUT /users/:id]: [errors] is [errors.array()] of
    [validationResult(req)], [id] is [req.params.id] and [updateData] is
    [req.body] as the validators left it. *)
Definition put_user (errors : list JSValue) (db : Db) (id : string) (updateData : Row)
  : list Event :=
  match errors with
  | _ :: _ => [Responded 400 (JObj [("errors", JArr errors)])]
  | [] =>
      let checkQuery := "SELECT id FROM users WHERE id = $1" in
      let checked := Queried checkQuery [JStr id] in
      match db 0%nat checkQuery [JStr id] with
      | QueryError message => checked :: handleDbError message
      | Rows [] => [checked; Responded 404 (JObj [("error", JStr "User not found")])]
      | Rows (_ :: _) =>
          let '(updateFields, params, paramIndex) :=
            fold_left (add_field updateData) (map fst updateData) ([], [], 1) in
          match updateFields with
          | [] => [checked; Responded 400 (JObj [("error", JStr "No fields to update")])]
          | _ :: _ =>
              let updateFields := (updateFields ++ ["updated_at = CURRENT_TIMESTAMP"])%list in
              let params := (params ++ [JStr id])%list in
              let query := update_query updateFields paramIndex in
              match db 1%nat query params with
              | QueryError message => checked :: Queried query params :: handleDbError message
              | Rows rows =>
                  [checked; Queried query params;
                   Responded 200
                     (JObj (("message", JStr "User updated successfully")
                            :: match rows with
                               | row :: _ => [("user", JObj row)]
                               | [] => []
                               end))]
              end
          end
      end
  end.

Definition put_user_route (req : Request) (errors : list JSValue) (db : Db) (id : string)
    (updateData : Row) : list Event :=
  match guard req with
  | Reject status body => [Responded status body]
  | Pass _ => put_user errors db id updateData
  end.

Definition deactivate_query : string :=
  nl +:+ "      UPDATE users " +:+ nl
  +:+ "      SET is_active = false, updated_at = CURRENT_TIMESTAMP" +:+ nl
  +:+ "      WHERE id = $1" +:+ nl
  +:+ "      RETURNING id, first_name, last_name, email" +:+ nl
  +:+ "    ".

(** The handler of [DELETE /users/:id]. *)
Definition delete_user (who : Identity) (db : Db) (id : string) : list Event :=
  let checkQuery := "SELECT id, role FROM users WHERE id = $1" in
  let checked := Queried checkQuery [JStr id] in
  match db 0%nat checkQuery [JStr id] with
  | QueryError message => checked :: handleDbError message
  | Rows [] => [checked; Responded 404 (JObj [("error", JStr "User not found")])]
  | Rows (row :: _) =>
      let is_admin :=
        match lookup_key "role" row with
        | Some (JStr role) => String.eqb role "admin"
        | _ => false
        end in
      if is_admin && negb (String.eqb (userId who) id) then
        [checked; Responded 403 (JObj [("error", JStr "Cannot delete other admin users")])]
      else
        match db 1%nat deactivate_query [JStr id] with
        | QueryError message =>
            checked :: Queried deactivate_query [JStr id] :: handleDbError message
        | Rows rows =>
            [checked; Queried deactivate_query [JStr id];
             Responded 200
               (JObj (("message", JStr "User deactivated successfully")
                      :: match rows with
                         | row :: _ => [("user", JObj row)]
                         | [] => []
                         end))]
        end
  end.

Definition delete_user_route (req : Request) (db : Db) (id : string) : list Event :=
  match guard req with
  | Reject status body => [Responded status body]
  | Pass who => delete_user who db id
  end.

(** Whether a value of [req.query] (a string, or [undefined]) is truthy. *)
Definition given (value : option string) : bool :=
  match value with
  | Some s => negb (String.eqb s "")
  | None => false
  end.

(** The statements of [GET /users] that build [whereClause], [params] and
    [paramIndex] from [req.query.role], [req.query.department] and
    [req.query.search], each one a string or [undefined]. *)
Definition users_where (role department search : option string)
  : string * list JSValue * Z :=
  let whereClause := "WHERE 1=1" in
  let params := [] in
  let paramIndex := 1 in
  let '(whereClause, params, paramIndex) :=
    match role with
    | Some role' =>
        if given role then
          (whereClause +:+ " AND role = $" +:+ pretty paramIndex,
           (params ++ [JStr role'])%list, paramIndex + 1)
        else (whereClause, params, paramIndex)
    | None => (whereClause, params, paramIndex)
    end in
  let '(whereClause, params, paramIndex) :=
    match department with
    | Some department' =>
        if given department then
          (whereClause +:+ " AND department = $" +:+ pretty paramIndex,
           (params ++ [JStr department'])%list, paramIndex + 1)
        else (whereClause, params, paramIndex)
    | None => (whereClause, params, paramIndex)
    end in
  match search with
  | Some search' =>
      if given search then
        (whereClause +:+ " AND (" +:+ nl
         +:+ "        first_name ILIKE $" +:+ pretty paramIndex +:+ " OR " +:+ nl
         +:+ "        last_name ILIKE $" +:+ pretty paramIndex +:+ " OR " +:+ nl
         +:+ "        email ILIKE $" +:+ pretty paramIndex +:+ nl
         +:+ "      )",
         (params ++ [JStr ("%" +:+ search' +:+ "%")])%list, paramIndex + 1)
      else (whereClause, params, paramIndex)
  | None => (whereClause, params, paramIndex)
  end.

End AdminService.

(** The assignments [key = $i] for the keys [keys], numbered from [i]. *)
Fixpoint assignments (i : Z) (keys : list string) : list string :=
  match keys with
  | [] => []
  | key :: rest => (key +:+ " = $" +:+ pretty i) :: assignments (i + 1) rest
  end.

(** Whether an event is the query that deactivates an account. *)
Definition deactivates (e : AdminService.Event) : bool :=
  match e with
  | AdminService.Queried text _ => String.eqb text AdminService.deactivate_query
  | _ => false
  end.

(** A request to the admin service with some [Authorization] header. *)
Definition admin_request : Request :=
  {| req_method := "DELETE";
     req_originalUrl := "/users/42";
     req_url := "/users/42";
     req_body := JObj [];
     req_headers := <["authorization" := "anything"]> ∅;
     req_query := [];
     req_ip := "::1";
     req_protocol := "http" |}.

(** A database in which every user is an administrator. *)
Definition db_of_admins : AdminService.Db :=
  fun _ _ params =>
    AdminService.Rows [[("id", JStr "42"); ("role", JStr "admin")]].


(** ** The task service's controller *)

Module TaskService.

(** A Mongoose [ObjectId]: its bytes. *)
Definition ObjectId : Type := string.

Definition hex_byte (c : ascii) : string :=
  let n := N_of_ascii c in
  String (hex_digit (n / 16)) (String (hex_digit (n mod 16)) "").

(** [id.toString()]: the bytes in hexadecimal, two digits each. *)
Fixpoint toString (id : ObjectId) : string :=
  match id with
  | EmptyString => ""
  | String c rest => hex_byte c +:+ toString rest
  end.

(** A task document, as far as [DELETE /:id] reads and writes it; the
    schema requires [reporter]. *)
Record Task : Type := {
  reporter : ObjectId;
  isArchived : bool;
  archivedAt : option string;
  archivedBy : option string
}.

(** [await Task.findById(id)]: a document, [null], or the error thrown. *)
Inductive Found : Type :=
| FoundTask (task : Task)
| NoTask
| FindError (message : string).

(** The task store: [Task.findById], and [task.save()] with the message
    of the error it rejects with, if it does. *)
Record Store : Type := {
  Task_findById : string -> Found;
  save : Task -> option string
}.

Inductive Event : Type :=
| Saved (task : Task)
| Logged (label message : string)
| Responded (status : Z) (body : JSValue).

(** What [authenticateUser] does: it calls [next()] with [req.userId] set,
    or it answers. *)
Inductive Guard : Type :=
| Pass (userId : string)
| Reject (status : Z) (body : JSValue).

Definition authenticateUser (req : Request) : Guard :=
  match req_headers req !! "authorization" with
  | Some authHeader =>
      if String.eqb authHeader "" then
        Reject 401 (JObj [("error", JStr "Authorization header required")])
      else Pass "demo-user-id"
  | None => Reject 401 (JObj [("error", JStr "Authorization header required")])
  end.

(** The handler of [DELETE /:id]: [id] is [req.params.id] and [now] is
    [new Date()]. *)
Definition delete_task (store : Store) (now : string) (userId : string) (id : string)
  : list Event :=
  let failed message :=
    [Logged "Delete task error:" message;
     Responded 500 (JObj [("error", JStr "Failed to delete task");
                          ("message", JStr message)])] in
  match Task_findById store id with
  | FindError message => failed message
  | NoTask => [Responded 404 (JObj [("error", JStr "Task not found")])]
  | FoundTask task =>
      if negb (String.eqb (toString (reporter task)) userId) then
        [Responded 403 (JObj [("error", JStr "Not authorized to delete this task")])]
      else
        let task := {| reporter := reporter task;
                       isArchived := true;
                       archivedAt := Some now;
                       archivedBy := Some userId |} in
        match save store task with
        | Some message => Saved task :: failed message
        | None =>
            [Saved task; Responded 200 (JObj [("message", JStr "Task archived successfully")])]
        end
  end.

Definition delete_task_route (req : Request) (store : Store) (now : string) (id : string)
  : list Event :=
  match authenticateUser req with
  | Reject status body => [Responded status body]
  | Pass userId => delete_task store now userId id
  end.

End TaskService.

Definition is_saved (e : TaskService.Event) : bool :=
  match e with TaskService.Saved _ => true | _ => false end.

(** ** Mongoose: the values of [ObjectId] paths *)

Module Mongoose.

(** What a caller passes where a document is named: an [ObjectId], or a
    text. *)
Inductive Id : Type :=
| AnObjectId (id : TaskService.ObjectId)
| AText (text : string).

(** [id.toString()]. *)
Definition text_of (id : Id) : string :=
  match id with
  | AnObjectId id => TaskService.toString id
  | AText text => text
  end.

(** The bytes that hexadecimal digits write, two digits a byte, in either
    case of the letters. *)
Fixpoint from_hex (s : string) : option TaskService.ObjectId :=
  match s with
  | EmptyString => Some ""
  | String a (String b r) =>
      match hex_val a, hex_val b, from_hex r with
      | Some x, Some y, Some id => Some (String (ascii_of_N (16 * x + y)) id)
      | _, _, _ => None
      end
  | String _ EmptyString => None
  end.

(** The cast of an [ObjectId] path: an [ObjectId] is taken as it is, and a
    text of 24 hexadecimal digits is the [ObjectId] of the 12 bytes they
    write.  [cast_other] is the cast of any other text ([None] for most:
    the cast fails; a text of 12 characters is an [ObjectId] to some
    versions of the driver). *)
Definition cast (cast_other : string -> option TaskService.ObjectId) (id : Id)
  : option TaskService.ObjectId :=
  match id with
  | AnObjectId id => Some id
  | AText text =>
      if Nat.eqb (String.length text) 24 then
        match from_hex text with
        | Some id => Some id
        | None => cast_other text
        end
      else cast_other text
  end.

End Mongoose.

(** ** The models of the task service *)

Module ProjectModel.

(** A member of a project.  [user] is an [ObjectId] path: [None] is
    [undefined], what the path holds after a value that does not cast was
    assigned (the schema requires the path, so that no saved document has
    such a member). *)
Record Member : Type := {
  user : option TaskService.ObjectId;
  role : string;
  joinedAt : Z
}.

(** A project document, as far as the methods below read and write it. *)
Record Project : Type := {
  members : list Member
}.

(** The message of the [TypeError] of [member.user.toString()] on a member
    without a user. *)
Definition TypeError : string :=
  "Cannot read properties of undefined (reading 'toString')".

(** The test [member.user.toString() === userId.toString()] of the
    callbacks; [None]: it throws. *)
Definition is_user (userId : Mongoose.Id) (member : Member) : option bool :=
  match user member with
  | Some id => Some (String.eqb (TaskService.toString id) (Mongoose.text_of userId))
  | None => None
  end.

(** [this.members.find(callback)]: the error thrown, or what it returns. *)
Fixpoint find_user (userId : Mongoose.Id) (members : list Member) : string + option Member :=
  match members with
  | [] => inr None
  | member :: rest =>
      match is_user userId member with
      | None => inl TypeError
      | Some true => inr (Some member)
      | Some false => find_user userId rest
      end
  end.

(** [this.members.some(callback)]. *)
Fixpoint some_user (userId : Mongoose.Id) (members : list Member) : string + bool :=
  match members with
  | [] => inr false
  | member :: rest =>
      match is_user userId member with
      | None => inl TypeError
      | Some true => inr true
      | Some false => some_user userId rest
      end
  end.

(** [this.members.filter(callback)] with the negated test. *)
Fixpoint without_user (userId : Mongoose.Id) (members : list Member) : string + list Member :=
  match members with
  | [] => inr []
  | member :: rest =>
      match is_user userId member with
      | None => inl TypeError
      | Some same =>
          match without_user userId rest with
          | inl e => inl e
          | inr kept => inr (if same then kept else member :: kept)
          end
      end
  end.

(** [existingMember.role = role] on the member [find] gave: the first one
    of that user. *)
Fixpoint set_role (userId : Mongoose.Id) (role : string) (members : list Member)
  : list Member :=
  match members with
  | [] => []
  | member :: rest =>
      match is_user userId member with
      | Some true => {| user := user member; role := role; joinedAt := joinedAt member |} :: rest
      | _ => member :: set_role userId role rest
      end
  end.

Section Methods.

(** The cast of texts that are not 24 hexadecimal digits, and
    [this.save()] with what it returns. *)
Context (cast_other : string -> option TaskService.ObjectId).
Context {R : Type} (save : Project -> R).

(** [addMember(userId, role = "developer")]: the error thrown, or the
    document after the call and what [this.save()] returned.  [role] is
    [None] when it is left out, and [now] is [Date.now()], the default of
    [joinedAt].  [this.members.push] casts the [user] of the new member. *)
Definition addMember (now : Z) (userId : Mongoose.Id) (role : option string) (this : Project)
  : string + Project * R :=
  let role := match role with Some role => role | None => "developer" end in
  match find_user userId (members this) with
  | inl e => inl e
  | inr (Some existingMember) =>
      let this := {| members := set_role userId role (members this) |} in
      inr (this, save this)
  | inr None =>
      let this :=
        {| members :=
             (members this
              ++ [{| user := Mongoose.cast cast_other userId; role := role;
                     joinedAt := now |}])%list |} in
      inr (this, save this)
  end.

Definition removeMember (userId : Mongoose.Id) (this : Project) : string + Project * R :=
  match without_user userId (members this) with
  | inl e => inl e
  | inr kept =>
      let this := {| members := kept |} in
      inr (this, save this)
  end.

End Methods.

Definition isMember (userId : Mongoose.Id) (this : Project) : string + bool :=
  some_user userId (members this).

(** [hasRole(userId, role)]: [None] is [undefined], which it returns for a
    user who is no member. *)
Definition hasRole (userId : Mongoose.Id) (role_ : string) (this : Project)
  : string + option bool :=
  match find_user userId (members this) with
  | inl e => inl e
  | inr (Some member) => inr (Some (String.eqb (role member) role_))
  | inr None => inr None
  end.

(** The test of the callbacks as a truth value: false on a member without
    a user. *)
Definition same_user (userId : Mongoose.Id) (member : Member) : bool :=
  match is_user userId member with Some b => b | None => false end.

(** Every member has a user, as in every document read from the
    database. *)
Definition has_user (member : Member) : bool :=
  match user member with Some _ => true | None => false end.

Definition loaded (this : Project) : bool := forallb has_user (members this).

End ProjectModel.

Module TaskModel.

Record Subtask : Type := {
  title : string;
  completed : bool;
  completedBy : option TaskService.ObjectId;
  completedAt : option Z
}.

(** A task document, as far as [completeSubtask] reads and writes it.
    [invalid] lists the paths for which the document holds the error of a
    failed cast: [save] rejects while there is one. *)
Record Task : Type := {
  subtasks : list Subtask;
  invalid : list string
}.

(** The path of [completedBy] in the subtask at [index]. *)
Definition completedBy_path (index : nat) : string :=
  "subtasks." +:+ pretty (Z.of_nat index) +:+ ".completedBy".

Section Methods.

Context (cast_other : string -> option TaskService.ObjectId).
Context {R : Type} (save : Task -> R).

(** [completeSubtask(subtaskIndex, userId)] for an integer index: the
    document after the call and what [this.save()] returned, or the message
    of the error thrown.  [now] is [new Date()].  The assignment to
    [completedBy] casts [userId]: when the cast fails the path keeps what it
    held and the document records the error; when it succeeds an error
    recorded for the path earlier is dropped. *)
Definition completeSubtask (now : Z) (subtaskIndex : Z) (userId : Mongoose.Id) (this : Task)
  : Task * R + string :=
  let found :=
    if (subtaskIndex <? 0)%Z then None else subtasks this !! Z.to_nat subtaskIndex in
  match found with
  | Some subtask =>
      let index := Z.to_nat subtaskIndex in
      let others :=
        List.filter (fun path => negb (String.eqb path (completedBy_path index)))
          (invalid this) in
      let this :=
        {| subtasks :=
             <[index :=
                 {| title := title subtask;
                    completed := true;
                    completedBy :=
                      match Mongoose.cast cast_other userId with
                      | Some id => Some id
                      | None => completedBy subtask
                      end;
                    completedAt := Some now |}]> (subtasks this);
           invalid :=
             match Mongoose.cast cast_other userId with
             | Some _ => others
             | None => (others ++ [completedBy_path index])%list
             end |} in
      inl (this, save this)
  | None => inr "Subtask not found"
  end.

End Methods.

End TaskModel.

(** ** The notification service's controller *)

Module NotificationService.

(** [emailContent.replace(/<[^>]*>/g, "")], the text version of an e-mail
    in [POST /send-email]: from left to right, every [<] after which a [>]
    comes is removed together with everything up to the first such [>].
    [inside] tells whether the characters are being removed. *)
Fixpoint strip (inside : bool) (s : string) : string :=
  match s with
  | EmptyString => ""
  | String c rest =>
      if inside then
        if Ascii.eqb c ">" then strip false rest else strip true rest
      else if Ascii.eqb c "<" && contains_char ">" rest then strip true rest
      else String c (strip false rest)
  end.

Definition strip_tags (emailContent : string) : string := strip false emailContent.

End NotificationService.

(** Whether a text holds a [<] with a [>] somewhere after it: whether the
    pattern of [strip_tags] matches in it. *)
Fixpoint has_tag (s : string) : bool :=
  match s with
  | EmptyString => false
  | String c rest => (Ascii.eqb c "<" && contains_char ">" rest) || has_tag rest
  end.

(** A task store with one task, which the user ["demo-user-id"] cannot
    have reported, and a request with some [Authorization] header. *)
Definition one_task_store : TaskService.Store :=
  {| TaskService.Task_findById := fun _ =>
       TaskService.FoundTask
         {| TaskService.reporter := "demo-user-id";
            TaskService.isArchived := false;
            TaskService.archivedAt := None;
            TaskService.archivedBy := None |};
     TaskService.save := fun _ => None |}.

Definition delete_task_request : Request :=
  {| req_method := "DELETE";
     req_originalUrl := "/64656d6f2d757365722d6964";
     req_url := "/64656d6f2d757365722d6964";
     req_body := JObj [];
     req_headers := <["authorization" := "Bearer t0k3n"]> ∅;
     req_query := [];
     req_ip := "::1";
     req_protocol := "http" |}.

(** The [ObjectId] that 24 hexadecimal digits write. *)
Definition oid (hex : string) : TaskService.ObjectId :=
  match Mongoose.from_hex hex with Some id => id | None => "" end.

Definition ann : TaskService.ObjectId := oid "507f1f77bcf86cd799439011".
Definition bob : TaskService.ObjectId := oid "507f191e810c19729de860ea".
Definition cat : TaskService.ObjectId := oid "64b0c0ffee0000000000aa01".

(** A driver that takes no text but 24 hexadecimal digits for an id. *)
Definition hex_only : string -> option TaskService.ObjectId := fun _ => None.

Definition two_members : ProjectModel.Project :=
  {| ProjectModel.members :=
       [ {| ProjectModel.user := Some ann; ProjectModel.role := "owner";
            ProjectModel.joinedAt := 1 |};
         {| ProjectModel.user := Some bob; ProjectModel.role := "tester";
            ProjectModel.joinedAt := 2 |} ] |}.

Definition two_subtasks : TaskModel.Task :=
  {| TaskModel.subtasks :=
       [ {| TaskModel.title := "write"; TaskModel.completed := false;
            TaskModel.completedBy := None; TaskModel.completedAt := None |};
         {| TaskModel.title := "test"; TaskModel.completed := false;
            TaskModel.completedBy := None; TaskModel.completedAt := None |} ];
     TaskModel.invalid := [] |}.


(** ** The routes the controllers of the backends register, in order *)

Module Controllers.

(** auth-service/controllers/authController.js *)
Definition auth : list Route :=
  [("POST", "/register"); ("POST", "/login"); ("GET", "/profile"); ("PUT", "/profile");
   ("POST", "/logout"); ("POST", "/refresh-token"); ("POST", "/forgot-password");
   ("POST", "/reset-password"); ("POST", "/verify-email"); ("GET", "/users")].

(** The task service's controller. *)
Definition task : list Route :=
  [("GET", "/"); ("POST", "/"); ("GET", "/:id"); ("PUT", "/:id");
   ("DELETE", "/:id"); ("PATCH", "/:id/status"); ("PATCH", "/:id/assign");
   ("GET", "/user/:userId"); ("GET", "/project/:projectId");
   ("POST", "/:id/comments"); ("GET", "/:id/comments")].

(** notification-service/controllers/notificationController.js *)
Definition notification : list Route :=
  [("POST", "/send-email"); ("POST", "/send-sms"); ("POST", "/send-push");
   ("GET", "/templates"); ("POST", "/templates"); ("PUT", "/templates/:id");
   ("DELETE", "/templates/:id"); ("GET", "/history"); ("GET", "/history/:id")].

(** The reporting service's controller. *)
Definition reporting : list Route :=
  [("GET", "/dashboard"); ("GET", "/tasks/summary"); ("GET", "/users/performance");
   ("GET", "/projects/status"); ("POST", "/generate-report"); ("GET", "/reports");
   ("GET", "/reports/:id"); ("GET", "/analytics/task-completion");
   ("GET", "/analytics/user-productivity"); ("GET", "/analytics/project-timeline")].

(** The admin service's controller. *)
Definition admin : list Route :=
  [("GET", "/users"); ("GET", "/users/:id"); ("PUT", "/users/:id");
   ("DELETE", "/users/:id"); ("POST", "/users/:id/activate");
   ("POST", "/users/:id/deactivate"); ("GET", "/system/health");
   ("GET", "/system/logs"); ("GET", "/system/metrics"); ("POST", "/system/backup");
   ("GET", "/audit-logs"); ("GET", "/audit-logs/:id")].

Definition routes (s : Service) : list Route :=
  match s with
  | Auth => auth
  | Task => task
  | Notification => notification
  | Reporting => reporting
  | Admin => admin
  end.

End Controllers.

Definition route_eqb (a b : Route) : bool :=
  String.eqb (fst a) (fst b) && String.eqb (snd a) (snd b).

(** Whether every route of [l] is among those of [l']. *)
Definition routes_among (l l' : list Route) : bool :=
  forallb (fun r => existsb (route_eqb r) l') l.

(** The routes of a controller that the gateway does not list. *)
Definition unlisted (s : Service) : list Route :=
  match s with
  | Auth => [("GET", "/users")]
  | _ => []
  end.


(** The names [PUT /profile] copies from the body. *)
Definition profile_fields : list string :=
  ["firstName"; "lastName"; "department"; "position"; "phoneNumber"; "preferences"].

(** The parameters a filter of [GET /users] contributes. *)
Definition filter_value (wrap : string -> string) (value : option string) : list JSValue :=
  match value with
  | Some s => if AdminService.given value then [JStr (wrap s)] else []
  | None => []
  end.


(** Whether a line the script printed is one of its [Error:] lines. *)
Definition is_error_line (line : string) : bool :=
  match drop_prefix "   Error: " line with
  | Some _ => true
  | None => false
  end.

(** The number of unhealthy results. *)
Definition count_unhealthy (results : list HealthScript.CheckResult) : nat :=
  length (List.filter (fun r => negb (HealthScript.is_healthy r)) results).

(** * Properties *)

(** ** The library models on small inputs *)

Example stringify_demo :
  JSON_stringify (JObj [("error", JStr "Route not found"); ("n", JArr [JNum (-3); JNull])])
  = "{" +:+ quoted "error" +:+ ":" +:+ quoted "Route not found" +:+ ","
        +:+ quoted "n" +:+ ":[-3,null]}".
Proof. vm_compute. reflexivity. Qed.

Example parse_pretty_object :
  JSON_parse ("{ " +:+ quoted "a" +:+ " : [1, true , null] }")
  = Value (JObj [("a", JArr [JNum 1; JBool true; JNull])]).
Proof. vm_compute. reflexivity. Qed.

Example parse_plain_text : JSON_parse "OK" = SyntaxError.
Proof. vm_compute. reflexivity. Qed.

Example parse_fraction : JSON_parse "[1.50]" = Unrepresented.
Proof. vm_compute. reflexivity. Qed.

Example parse_trailing : JSON_parse "[1,]" = SyntaxError.
Proof. vm_compute. reflexivity. Qed.

Example parse_stringify_escape :
  JSON_parse (JSON_stringify (JStr (String dquote (String (ascii_of_N 1) "a\b"))))
  = Value (JStr (String dquote (String (ascii_of_N 1) "a\b"))).
Proof. vm_compute. reflexivity. Qed.

Example mount_strip_task :
  mount_strip "/api/tasks" "/api/tasks/abc123?verbose=true" = Some "/abc123?verbose=true".
Proof. reflexivity. Qed.

Example mount_strip_root : mount_strip "/api/tasks" "/api/tasks?x=1" = Some "/?x=1".
Proof. reflexivity. Qed.

Example mount_strip_other : mount_strip "/api/tasks" "/api/tasksx" = None.
Proof. reflexivity. Qed.

Example path_matches_param : path_matches "/:id/comments" "/42/comments/" = true.
Proof. reflexivity. Qed.

Example path_matches_root : path_matches "/" "/" = true /\ path_matches "/" "//" = false.
Proof. split; reflexivity. Qed.

(** ** [JSON_parse] stays within its budget *)

Ltac break_match :=
  match goal with
  | H : context [match ?x with _ => _ end] |- _ => destruct x eqn:?
  | |- context [match ?x with _ => _ end] => destruct x eqn:?
  end.

Ltac inv_ok :=
  repeat match goal with
         | H : POk _ _ = POk _ _ |- _ => injection H as <- <-
         | H : Some _ = Some _ |- _ => injection H as <-
         | H : (_, _) = (_, _) |- _ => injection H as <- <-
         end.

Section ParserBudget.

Local Open Scope nat_scope.

Lemma skip_ws_length (s : string) : String.length (skip_ws s) <= String.length s.
Proof. induction s as [|c r IH]; simpl; [lia|]. destruct (is_ws c); simpl; lia. Qed.

Lemma skip_ws_cons (s : string) (c : ascii) (r : string) :
  skip_ws s = String c r -> String.length r < String.length s.
Proof. intros H. pose proof (skip_ws_length s) as L. rewrite H in L. simpl in L. lia. Qed.

Lemma drop_prefix_length (p s r : string) :
  drop_prefix p s = Some r -> String.length r <= String.length s.
Proof.
  revert s. induction p as [|a p IH]; intros [|b s] H; simpl in *;
    try discriminate; try (injection H as <-; simpl; lia).
  destruct (Ascii.eqb a b); [|discriminate]. apply IH in H. lia.
Qed.

Lemma read_digits_length (acc : Z) (s : string) :
  String.length (snd (read_digits acc s)) <= String.length s.
Proof.
  revert acc. induction s as [|c r IH]; intros acc; simpl; [lia|].
  destruct (is_digit c); simpl; [specialize (IH (10 * acc + digit_val c)%Z)|]; lia.
Qed.

Lemma read_fraction_length (s : string) (b : bool) (r : string) :
  read_fraction s = Some (b, r) -> String.length r <= String.length s.
Proof.
  destruct s as [|c s]; simpl; intros H; [injection H as <- <-; simpl; lia|].
  destruct (Ascii.eqb c ".").
  - destruct (starts_with_digit s); [|discriminate]. injection H as <- <-.
    pose proof (read_digits_length 0 s). lia.
  - injection H as <- <-. simpl. lia.
Qed.

Lemma read_exponent_length (s : string) (b : bool) (r : string) :
  read_exponent s = Some (b, r) -> String.length r <= String.length s.
Proof.
  destruct s as [|c s]; simpl; intros H; [injection H as <- <-; simpl; lia|].
  destruct (Ascii.eqb c "e" || Ascii.eqb c "E").
  - destruct s as [|d s']; simpl in H; [discriminate|].
    destruct (Ascii.eqb d "+" || Ascii.eqb d "-").
    + destruct (starts_with_digit s'); [|discriminate]. injection H as <- <-.
      pose proof (read_digits_length 0 s'). simpl. lia.
    + destruct (starts_with_digit (String d s')); [|discriminate]. injection H as <- <-.
      pose proof (read_digits_length 0 (String d s')). simpl in *. lia.
  - injection H as <- <-. simpl. lia.
Qed.

Lemma parse_number_fuel (s : string) : parse_number s <> PFuel.
Proof. unfold parse_number. repeat break_match; discriminate. Qed.

Lemma parse_number_consumes (s : string) (v : option Z) (r : string) :
  parse_number s = POk v r -> String.length r < String.length s.
Proof.
  unfold parse_number.
  destruct (match s with
            | String c r0 => if Ascii.eqb c "-" then (true, r0) else (false, s)
            | EmptyString => (false, s)
            end) as [neg s1] eqn:Hsign.
  assert (L1 : String.length s1 <= String.length s).
  { destruct s as [|c r0]; [injection Hsign as <- <-; lia|].
    destruct (Ascii.eqb c "-"); injection Hsign as <- <-; simpl; lia. }
  destruct s1 as [|c r1]; [discriminate|].
  destruct (is_digit c) eqn:Hd; [|discriminate].
  destruct (if Ascii.eqb c "0" then (0%Z, r1) else read_digits 0 (String c r1))
    as [n s2] eqn:Hint.
  assert (L2 : String.length s2 <= String.length r1).
  { destruct (Ascii.eqb c "0"); [injection Hint as <- <-; lia|].
    simpl in Hint. rewrite Hd in Hint.
    pose proof (read_digits_length (10 * 0 + digit_val c) r1) as L.
    rewrite Hint in L. exact L. }
  destruct (read_fraction s2) as [[frac s3]|] eqn:Hf; [|discriminate].
  apply read_fraction_length in Hf.
  destruct (read_exponent s3) as [[ex s4]|] eqn:He; [|discriminate].
  apply read_exponent_length in He. simpl in L1.
  intros H. break_match; injection H as <- <-; lia.
Qed.

Lemma parse_string_body_fuel (s : string) : parse_string_body s <> PFuel.
Proof.
  assert (G : forall n s, String.length s <= n -> parse_string_body s <> PFuel).
  { clear s. induction n as [|n IH]; intros [|c r] L; simpl in *; try discriminate; try lia.
    assert (IH' : forall t, String.length t <= String.length r -> parse_string_body t <> PFuel).
    { intros t Lt. apply IH. lia. }
    repeat break_match; try discriminate;
      match goal with
      | H : parse_string_body ?t = PFuel |- _ => exfalso; revert H; apply IH'; simpl; lia
      end. }
  apply (G (String.length s)). lia.
Qed.

Lemma parse_string_body_consumes (s : string) (v : option string) (r : string) :
  parse_string_body s = POk v r -> String.length r < String.length s.
Proof.
  assert (G : forall n s v r, String.length s <= n ->
                parse_string_body s = POk v r -> String.length r < String.length s).
  { clear. induction n as [|n IH]; intros [|c t] v r L; simpl in *; try discriminate; try lia.
    intros H.
    repeat break_match; try discriminate; inv_ok; simpl in *; try lia;
      match goal with
      | H : parse_string_body ?u = POk _ _ |- _ => apply IH in H; simpl in *; lia
      end. }
  apply (G (String.length s)). lia.
Qed.

Lemma literal_fuel (word : string) (v : JSValue) (s : string) : literal word v s <> PFuel.
Proof. unfold literal. break_match; discriminate. Qed.

Lemma literal_consumes (word : string) (v : JSValue) (s : string) (w : option JSValue)
    (r : string) :
  literal word v s = POk w r -> String.length r <= String.length s.
Proof.
  unfold literal. destruct (drop_prefix word s) eqn:E; [|discriminate].
  intros H; injection H as <- <-. eapply drop_prefix_length, E.
Qed.

Ltac use_skip :=
  repeat match goal with
         | H : skip_ws _ = String _ _ |- _ => apply skip_ws_cons in H
         | H : skip_ws _ = EmptyString |- _ => clear H
         | H : parse_string_body _ = POk _ _ |- _ => apply parse_string_body_consumes in H
         | H : parse_number _ = POk _ _ |- _ => apply parse_number_consumes in H
         | H : literal _ _ _ = POk _ _ |- _ => apply literal_consumes in H
         end.

Lemma parse_consumes (fuel : nat) :
  (forall s v r, parse_value fuel s = POk v r -> String.length r < String.length s)
  /\ (forall s acc v r,
        parse_elements fuel s acc = POk v r -> String.length r < String.length s)
  /\ (forall s acc v r,
        parse_members fuel s acc = POk v r -> String.length r < String.length s).
Proof.
  induction fuel as [|fuel (IHv & IHe & IHm)]; [repeat split; intros; discriminate|].
  repeat split.
  - intros s v r H. simpl in H.
    repeat break_match; try discriminate; inv_ok; use_skip;
      repeat match goal with
             | H : parse_elements fuel _ _ = POk _ _ |- _ => apply IHe in H
             | H : parse_members fuel _ _ = POk _ _ |- _ => apply IHm in H
             end; simpl in *; lia.
  - intros s acc v r H. simpl in H.
    repeat break_match; try discriminate; inv_ok; use_skip;
      repeat match goal with
             | H : parse_value fuel _ = POk _ _ |- _ => apply IHv in H
             | H : parse_elements fuel _ _ = POk _ _ |- _ => apply IHe in H
             end; simpl in *; lia.
  - intros s acc v r H. simpl in H.
    repeat break_match; try discriminate; inv_ok; use_skip;
      repeat match goal with
             | H : parse_value fuel _ = POk _ _ |- _ => apply IHv in H
             | H : parse_members fuel _ _ = POk _ _ |- _ => apply IHm in H
             end; simpl in *; lia.
Qed.

Lemma parse_fuel_adequate (fuel : nat) :
  (forall s, 2 * String.length s + 2 <= fuel -> parse_value fuel s <> PFuel)
  /\ (forall s acc, 2 * String.length s + 3 <= fuel -> parse_elements fuel s acc <> PFuel)
  /\ (forall s acc, 2 * String.length s + 3 <= fuel -> parse_members fuel s acc <> PFuel).
Proof.
  induction fuel as [|fuel (IHv & IHe & IHm)]; [repeat split; intros; lia|].
  destruct (parse_consumes fuel) as (Cv & Ce & Cm).
  repeat split.
  - intros s L H. simpl in H.
    repeat break_match; try discriminate; use_skip;
      try (eapply parse_string_body_fuel; eassumption);
      try (eapply parse_number_fuel; eassumption);
      try (eapply literal_fuel; eassumption);
      match goal with
      | H : parse_elements fuel _ _ = PFuel |- _ => revert H; apply IHe; simpl in *; lia
      | H : parse_members fuel _ _ = PFuel |- _ => revert H; apply IHm; simpl in *; lia
      end.
  - intros s acc L H. simpl in H.
    repeat break_match; try discriminate; use_skip;
      repeat match goal with
             | H : parse_value fuel _ = POk _ _ |- _ => apply Cv in H
             end;
      match goal with
      | H : parse_value fuel _ = PFuel |- _ => revert H; apply IHv; simpl in *; lia
      | H : parse_elements fuel _ _ = PFuel |- _ => revert H; apply IHe; simpl in *; lia
      end.
  - intros s acc L H. simpl in H.
    repeat break_match; try discriminate; use_skip;
      try (eapply parse_string_body_fuel; eassumption);
      repeat match goal with
             | H : parse_value fuel _ = POk _ _ |- _ => apply Cv in H
             end;
      match goal with
      | H : parse_value fuel _ = PFuel |- _ => revert H; apply IHv; simpl in *; lia
      | H : parse_members fuel _ _ = PFuel |- _ => revert H; apply IHm; simpl in *; lia
      end.
Qed.

(** [parse_budget] is enough for every text: [JSON_parse] reports a syntax
    error only when the text is not JSON. *)
Lemma parse_value_budget (text : string) : parse_value (parse_budget text) text <> PFuel.
Proof. apply (parse_fuel_adequate (parse_budget text)). unfold parse_budget. lia. Qed.

End ParserBudget.

(** ** Reading back what [JSON_stringify] wrote *)

Section ReadBack.

Local Arguments String.append : simpl nomatch.

Lemma app_assoc_string (a b c : string) : (a +:+ b) +:+ c = a +:+ (b +:+ c).
Proof. induction a as [|x a IH]; simpl; [reflexivity|]. f_equal. exact IH. Qed.

Lemma read_digits_stop (acc : Z) (rest : string) :
  ends_number rest = true -> read_digits acc rest = (acc, rest).
Proof.
  destruct rest as [|c r]; simpl; [reflexivity|]. intros H.
  destruct (is_digit c); [discriminate|reflexivity].
Qed.

Lemma pretty_N_char_digit (d : N) :
  (d < 10)%N ->
  is_digit (pretty_N_char d) = true /\ digit_val (pretty_N_char d) = Z.of_N d.
Proof.
  intros H.
  assert (d = 0 \/ d = 1 \/ d = 2 \/ d = 3 \/ d = 4 \/ d = 5 \/ d = 6 \/ d = 7
          \/ d = 8 \/ d = 9)%N as C by lia.
  repeat destruct C as [->|C]; try subst d; split; reflexivity.
Qed.

(** Reading the digits [pretty_N_go x s] puts in front of [s]. *)
Lemma read_digits_pretty_go (x : N) :
  forall (s rest : string) (m v : Z),
    (forall acc, read_digits acc s = (acc * m + v, rest)%Z) ->
    exists M, forall acc,
      read_digits acc (pretty_N_go x s) = (acc * M + (Z.of_N x * m + v), rest)%Z.
Proof.
  induction (N.lt_wf_0 x) as [x _ IH]. intros s rest m v Hs.
  destruct (N.eq_dec x 0%N) as [->|Hx].
  - exists m. intros acc. rewrite pretty_N_go_0, Hs. f_equal; lia.
  - rewrite pretty_N_go_step by lia.
    destruct (pretty_N_char_digit (x mod 10)%N) as [Hd Hv]; [apply N.mod_lt; lia|].
    destruct (IH (x / 10)%N (N.div_lt x 10%N ltac:(lia) ltac:(lia))
                (String (pretty_N_char (x mod 10)%N) s) rest (10 * m)%Z
                (Z.of_N (x mod 10)%N * m + v)%Z) as [M HM].
    + intros acc. simpl. rewrite Hd, Hs, Hv. f_equal; lia.
    + exists M. intros acc. rewrite HM. f_equal.
      rewrite (N.div_mod x 10%N) at 3 by lia. lia.
Qed.

Lemma pretty_N_go_app (x : N) : forall s t, pretty_N_go x s +:+ t = pretty_N_go x (s +:+ t).
Proof.
  induction (N.lt_wf_0 x) as [x _ IH]. intros s t.
  destruct (N.eq_dec x 0%N) as [->|Hx]; [rewrite !pretty_N_go_0; reflexivity|].
  rewrite (pretty_N_go_step x s), (pretty_N_go_step x (s +:+ t)) by lia.
  rewrite IH by (apply N.div_lt; lia). reflexivity.
Qed.

(** The digits of a positive number start with a digit other than zero. *)
Lemma pretty_N_go_head (x : N) :
  (0 < x)%N ->
  forall s, exists c r,
    pretty_N_go x s = String c r /\ is_digit c = true /\ Ascii.eqb c "0" = false.
Proof.
  induction (N.lt_wf_0 x) as [x _ IH]. intros Hx s.
  rewrite pretty_N_go_step by lia.
  destruct (N.eq_dec (x / 10)%N 0%N) as [E|E].
  - rewrite E, pretty_N_go_0. eexists _, _. split; [reflexivity|].
    assert (x < 10)%N by (apply N.div_small_iff in E; lia).
    rewrite N.mod_small by lia.
    assert (x = 1 \/ x = 2 \/ x = 3 \/ x = 4 \/ x = 5 \/ x = 6 \/ x = 7 \/ x = 8 \/ x = 9)%N
      as C by lia.
    repeat destruct C as [->|C]; try subst x; split; reflexivity.
  - apply IH.
    + apply N.div_lt; lia.
    + apply N.neq_0_lt_0, E.
Qed.

Lemma parse_number_positive (p : positive) (rest : string) :
  ends_number rest = true ->
  exists c r,
    pretty (Z.pos p) +:+ rest = String c r
    /\ is_digit c = true /\ Ascii.eqb c "0" = false
    /\ read_digits 0 (String c r) = (Z.pos p, rest).
Proof.
  intros Hrest.
  assert (E : pretty (Z.pos p) +:+ rest = pretty_N_go (N.pos p) rest).
  { change (pretty (Z.pos p)) with (pretty_N_go (N.pos p) ""). apply pretty_N_go_app. }
  destruct (pretty_N_go_head (N.pos p) ltac:(lia) rest) as (c & r & Hc & Hd & Hz).
  exists c, r. rewrite E. split; [exact Hc|]. split; [exact Hd|]. split; [exact Hz|].
  rewrite <- Hc.
  destruct (read_digits_pretty_go (N.pos p) rest rest 1 0) as [M HM].
  - intros acc. rewrite read_digits_stop by exact Hrest. f_equal; lia.
  - rewrite HM. f_equal. lia.
Qed.

Lemma read_tail_stop (rest : string) :
  ends_number rest = true ->
  read_fraction rest = Some (false, rest) /\ read_exponent rest = Some (false, rest).
Proof.
  destruct rest as [|c r]; simpl; [split; reflexivity|]. intros H.
  apply negb_true_iff in H. repeat (apply orb_false_iff in H as [H ?]).
  rewrite H2, H1, H0. split; reflexivity.
Qed.




Lemma quote_app (s rest : string) :
  quote s +:+ rest = String dquote (escape s +:+ String dquote rest).
Proof. unfold quote, quoted. simpl. rewrite app_assoc_string. reflexivity. Qed.

(** The unfolding equations of the reader. *)
Lemma parse_value_S (fuel : nat) (s : string) :
  parse_value (S fuel) s =
    match skip_ws s with
    | EmptyString => PSyntax
    | String c r =>
        if Ascii.eqb c "{" then
          match skip_ws r with
          | String d r' =>
              if Ascii.eqb d "}" then POk (Some (JObj [])) r'
              else parse_members fuel r (Some [])
          | EmptyString => PSyntax
          end
        else if Ascii.eqb c "[" then
          match skip_ws r with
          | String d r' =>
              if Ascii.eqb d "]" then POk (Some (JArr [])) r'
              else parse_elements fuel r (Some [])
          | EmptyString => PSyntax
          end
        else if Ascii.eqb c dquote then
          match parse_string_body r with
          | POk t rest => POk (JStr <$> t) rest
          | PSyntax => PSyntax
          | PFuel => PFuel
          end
        else if Ascii.eqb c "t" then literal "rue" (JBool true) r
        else if Ascii.eqb c "f" then literal "alse" (JBool false) r
        else if Ascii.eqb c "n" then literal "ull" JNull r
        else if Ascii.eqb c "-" || is_digit c then
          match parse_number (String c r) with
          | POk n rest => POk (JNum <$> n) rest
          | PSyntax => PSyntax
          | PFuel => PFuel
          end
        else PSyntax
    end.
Proof. reflexivity. Qed.

Lemma parse_elements_S (fuel : nat) (s : string) (acc : option (list JSValue)) :
  parse_elements (S fuel) s acc =
    match parse_value fuel s with
    | POk v r =>
        match skip_ws r with
        | String d r' =>
            if Ascii.eqb d "," then parse_elements fuel r' (push_item v acc)
            else if Ascii.eqb d "]"
                 then POk ((fun l => JArr (rev l)) <$> push_item v acc) r'
                 else PSyntax
        | EmptyString => PSyntax
        end
    | PSyntax => PSyntax
    | PFuel => PFuel
    end.
Proof. reflexivity. Qed.

Lemma parse_members_S (fuel : nat) (s : string) (acc : option (list (string * JSValue))) :
  parse_members (S fuel) s acc =
    match skip_ws s with
    | String q r =>
        if Ascii.eqb q dquote then
          match parse_string_body r with
          | POk k r1 =>
              match skip_ws r1 with
              | String colon r2 =>
                  if Ascii.eqb colon ":" then
                    match parse_value fuel r2 with
                    | POk v r3 =>
                        match skip_ws r3 with
                        | String d r4 =>
                            if Ascii.eqb d "," then parse_members fuel r4 (put_member k v acc)
                            else if Ascii.eqb d "}" then POk (JObj <$> put_member k v acc) r4
                            else PSyntax
                        | EmptyString => PSyntax
                        end
                    | PSyntax => PSyntax
                    | PFuel => PFuel
                    end
                  else PSyntax
              | EmptyString => PSyntax
              end
          | PSyntax => PSyntax
          | PFuel => PFuel
          end
        else PSyntax
    | EmptyString => PSyntax
    end.
Proof. reflexivity. Qed.

(** More fuel does not change a result that did not need it. *)
Lemma parse_fuel_mono (fuel : nat) :
  (forall s, parse_value fuel s <> PFuel -> parse_value (S fuel) s = parse_value fuel s)
  /\ (forall s acc, parse_elements fuel s acc <> PFuel ->
        parse_elements (S fuel) s acc = parse_elements fuel s acc)
  /\ (forall s acc, parse_members fuel s acc <> PFuel ->
        parse_members (S fuel) s acc = parse_members fuel s acc).
Proof.
  induction fuel as [|fuel (IHv & IHe & IHm)];
    [repeat split; intros; exfalso; auto|].
  repeat split.
  - intros s H. rewrite (parse_value_S (S fuel)). rewrite (parse_value_S fuel) in *.
    destruct (skip_ws s) as [|c r]; [reflexivity|].
    destruct (Ascii.eqb c "{").
    { destruct (skip_ws r) as [|d r']; [reflexivity|].
      destruct (Ascii.eqb d "}"); [reflexivity|apply IHm; exact H]. }
    destruct (Ascii.eqb c "[").
    { destruct (skip_ws r) as [|d r']; [reflexivity|].
      destruct (Ascii.eqb d "]"); [reflexivity|apply IHe; exact H]. }
    reflexivity.
  - intros s acc H. rewrite (parse_elements_S (S fuel)). rewrite (parse_elements_S fuel) in *.
    destruct (parse_value fuel s) as [v r| |] eqn:E; [| |exfalso; auto].
    + rewrite (IHv s) by (rewrite E; discriminate). rewrite E.
      destruct (skip_ws r) as [|d r']; [reflexivity|].
      destruct (Ascii.eqb d ","); [apply IHe; exact H|reflexivity].
    + rewrite (IHv s) by (rewrite E; discriminate). rewrite E. reflexivity.
  - intros s acc H. rewrite (parse_members_S (S fuel)). rewrite (parse_members_S fuel) in *.
    destruct (skip_ws s) as [|q r]; [reflexivity|].
    destruct (Ascii.eqb q dquote); [|reflexivity].
    destruct (parse_string_body r) as [k r1| |]; [|reflexivity|reflexivity].
    destruct (skip_ws r1) as [|colon r2]; [reflexivity|].
    destruct (Ascii.eqb colon ":"); [|reflexivity].
    destruct (parse_value fuel r2) as [v r3| |] eqn:E; [| |exfalso; auto].
    + rewrite (IHv r2) by (rewrite E; discriminate). rewrite E.
      destruct (skip_ws r3) as [|d r4]; [reflexivity|].
      destruct (Ascii.eqb d ","); [apply IHm; exact H|reflexivity].
    + rewrite (IHv r2) by (rewrite E; discriminate). rewrite E. reflexivity.
Qed.

Lemma parse_value_more_fuel (fuel fuel' : nat) (s : string) :
  (fuel <= fuel')%nat ->
  parse_value fuel s <> PFuel -> parse_value fuel' s = parse_value fuel s.
Proof.
  induction 1 as [|m Hle IH]; intros H; [reflexivity|].
  rewrite <- (IH H). apply (parse_fuel_mono m). rewrite (IH H). exact H.
Qed.

Lemma JSValue_nested_ind (P : JSValue -> Prop) :
  P JNull ->
  (forall b, P (JBool b)) ->
  (forall n, P (JNum n)) ->
  (forall s, P (JStr s)) ->
  (forall items, Forall P items -> P (JArr items)) ->
  (forall props, Forall (fun p => P (snd p)) props -> P (JObj props)) ->
  forall v, P v.
Proof.
  intros HN HB HZ HS HA HO. fix IH 1. intros [|b|n|s|items|props].
  - exact HN.
  - apply HB.
  - apply HZ.
  - apply HS.
  - apply HA. induction items as [|v l IHl]; constructor; [apply IH|exact IHl].
  - apply HO. induction props as [|[k v] l IHl]; constructor; [apply IH|exact IHl].
Qed.

Lemma digit_dispatch (c : ascii) :
  is_digit c = true ->
  is_ws c = false /\ Ascii.eqb c "{" = false /\ Ascii.eqb c "[" = false
  /\ Ascii.eqb c dquote = false /\ Ascii.eqb c "t" = false /\ Ascii.eqb c "f" = false
  /\ Ascii.eqb c "n" = false /\ Ascii.eqb c "]" = false.
Proof.
  destruct c as [b0 b1 b2 b3 b4 b5 b6 b7].
  destruct b0, b1, b2, b3, b4, b5, b6, b7; intros H; try discriminate H;
    repeat split; reflexivity.
Qed.

(** A serialisation starts with a character that is neither white space
    nor a closing bracket. *)
Lemma stringify_head (v : JSValue) :
  exists c t, JSON_stringify v = String c t /\ is_ws c = false /\ Ascii.eqb c "]" = false.
Proof.
  destruct v as [|[]|[|p|p]|s|items|props]; simpl;
    try (eexists _, _; split; [reflexivity|split; reflexivity]).
  destruct (pretty_N_go_head (N.pos p) ltac:(lia) "") as (c & r & Hc & Hd & _).
  exists c, r. split; [exact Hc|]. destruct (digit_dispatch c Hd) as (? & _ & _ & _ & _ & _ & _ & ?).
  split; assumption.
Qed.

Lemma parse_value_array (fuel : nat) (r : string) :
  parse_value (S fuel) (String "[" r) =
    match skip_ws r with
    | String d r' =>
        if Ascii.eqb d "]" then POk (Some (JArr [])) r'
        else parse_elements fuel r (Some [])
    | EmptyString => PSyntax
    end.
Proof. reflexivity. Qed.

Lemma parse_value_object (fuel : nat) (r : string) :
  parse_value (S fuel) (String "{" r) =
    match skip_ws r with
    | String d r' =>
        if Ascii.eqb d "}" then POk (Some (JObj [])) r'
        else parse_members fuel r (Some [])
    | EmptyString => PSyntax
    end.
Proof. reflexivity. Qed.

Lemma parse_value_string (fuel : nat) (r : string) :
  parse_value (S fuel) (String dquote r) =
    match parse_string_body r with
    | POk t rest => POk (JStr <$> t) rest
    | PSyntax => PSyntax
    | PFuel => PFuel
    end.
Proof. reflexivity. Qed.

Lemma parse_value_number (fuel : nat) (c : ascii) (r : string) :
  is_digit c = true \/ c = "-"%char ->
  parse_value (S fuel) (String c r) =
    match parse_number (String c r) with
    | POk n rest => POk (JNum <$> n) rest
    | PSyntax => PSyntax
    | PFuel => PFuel
    end.
Proof.
  intros [Hd| ->]; [|reflexivity].
  destruct (digit_dispatch c Hd) as (Hw & H1 & H2 & H3 & H4 & H5 & H6 & _).
  rewrite parse_value_S. simpl. rewrite Hw, H1, H2, H3, H4, H5, H6, Hd, orb_true_r.
  reflexivity.
Qed.



Lemma join_cons_cons (x y : string) (l : list string) :
  join "," (x :: y :: l) = x +:+ String "," (join "," (y :: l)).
Proof. reflexivity. Qed.


Lemma stringify_array (items : list JSValue) (rest : string) :
  JSON_stringify (JArr items) +:+ rest
  = String "[" (join "," (map JSON_stringify items) +:+ String "]" rest).
Proof.
  change (JSON_stringify (JArr items))
    with (String "[" (join "," (map JSON_stringify items) +:+ "]")).
  change (String "[" (join "," (map JSON_stringify items) +:+ "]") +:+ rest)
    with (String "[" ((join "," (map JSON_stringify items) +:+ "]") +:+ rest)).
  rewrite app_assoc_string. reflexivity.
Qed.





Lemma member_app (k : string) (v : JSValue) (X : string) :
  member (k, v) +:+ X
  = String dquote (escape k +:+ String dquote (String ":" (JSON_stringify v +:+ X))).
Proof.
  unfold member. simpl fst. simpl snd. rewrite app_assoc_string, quote_app.
  rewrite app_assoc_string. reflexivity.
Qed.



Lemma stringify_object (props : list (string * JSValue)) (rest : string) :
  JSON_stringify (JObj props) +:+ rest
  = String "{" (join "," (map member props) +:+ String "}" rest).
Proof.
  change (JSON_stringify (JObj props))
    with (String "{" (join "," (map member props) +:+ "}")).
  change (String "{" (join "," (map member props) +:+ "}") +:+ rest)
    with (String "{" ((join "," (map member props) +:+ "}") +:+ rest)).
  rewrite app_assoc_string. reflexivity.
Qed.



Lemma append_empty (s : string) : s +:+ "" = s.
Proof. induction s as [|c s IH]; simpl; [reflexivity|]. f_equal. exact IH. Qed.



End ReadBack.

(** ** Strings, and percent-decoding piece by piece *)

Section Decoding.

Local Arguments String.append : simpl nomatch.

Lemma split_on_no_sep (sep : ascii) (a : string) :
  contains_char sep a = false -> split_on sep a = [a].
Proof.
  induction a as [|c a IH]; simpl; [reflexivity|].
  intros H. apply orb_false_iff in H as [Hc Ha].
  rewrite Ascii.eqb_sym, Hc, (IH Ha). reflexivity.
Qed.

Lemma split_on_app (sep : ascii) (a r : string) :
  contains_char sep a = false ->
  split_on sep (a +:+ String sep r) = a :: split_on sep r.
Proof.
  induction a as [|c a IH]; simpl.
  - intros _. rewrite Ascii.eqb_refl. reflexivity.
  - intros H. apply orb_false_iff in H as [Hc Ha].
    rewrite Ascii.eqb_sym, Hc, (IH Ha). reflexivity.
Qed.

(** A string that holds [c] is cut at its first [c]. *)
Lemma contains_char_cut (c : ascii) (s : string) :
  contains_char c s = true ->
  exists a b, s = a +:+ String c b /\ contains_char c a = false.
Proof.
  induction s as [|d s IH]; cbn [contains_char]; [discriminate|].
  destruct (Ascii.eqb_spec c d) as [->|Hne].
  - intros _. exists "", s. split; reflexivity.
  - cbn [orb]. intros H. destruct (IH H) as (a & b & -> & Ha).
    exists (String d a), b. split; [reflexivity|].
    cbn [contains_char]. rewrite Ha. destruct (Ascii.eqb_spec c d); [contradiction|reflexivity].
Qed.




Lemma length_append (a b : string) :
  String.length (a +:+ b) = (String.length a + String.length b)%nat.
Proof. induction a as [|c a IH]; simpl; [reflexivity|]. rewrite IH. reflexivity. Qed.

Lemma unescape_plain (c : ascii) (r : string) :
  Ascii.eqb c "%" = false ->
  unescape (String c r)
  = match unescape r with Some l => Some (Plain c :: l) | None => None end.
Proof. intros H. cbn [unescape]. rewrite H. reflexivity. Qed.

Lemma unescape_escape (a b : ascii) (r : string) :
  unescape (String "%" (String a (String b r)))
  = match hex_val a, hex_val b with
    | Some x, Some y =>
        match unescape r with
        | Some l => Some (Escaped (16 * x + y) :: l)
        | None => None
        end
    | _, _ => None
    end.
Proof. reflexivity. Qed.

(** A character that is not part of an escape is decoded on its own. *)
Lemma decodes_plain (c : ascii) (r : string) :
  Ascii.eqb c "%" = false -> decodes (String c r) = decodes r.
Proof.
  intros H. unfold decodes, decodeURIComponent. rewrite (unescape_plain c r H).
  destruct (unescape r) as [l|]; [|reflexivity].
  cbn [well_formed]. destruct (well_formed l); reflexivity.
Qed.

Lemma unescape_split (n : nat) (c : ascii) (b : string) :
  Ascii.eqb c "%" = false -> hex_val c = None ->
  forall a l,
    (String.length a <= n)%nat ->
    unescape (a +:+ String c b) = Some l ->
    exists la lb, unescape a = Some la /\ unescape b = Some lb /\ l = (la ++ Plain c :: lb)%list.
Proof.
  intros Hc Hx. induction n as [|n IH]; intros a l Hn.
  - destruct a; [|simpl in Hn; lia]. cbn [String.append]. rewrite (unescape_plain c b Hc).
    destruct (unescape b) as [lb|]; [|discriminate].
    intros H; injection H as <-. exists [], lb. auto.
  - destruct a as [|d a].
    + cbn [String.append]. rewrite (unescape_plain c b Hc).
      destruct (unescape b) as [lb|]; [|discriminate].
      intros H; injection H as <-. exists [], lb. auto.
    + cbn [String.append]. destruct (Ascii.eqb_spec d "%") as [->|Hd].
      * destruct a as [|x [|y a]].
        -- cbn [String.append]. destruct b as [|b0 b]; [discriminate|].
           rewrite unescape_escape, Hx. destruct (hex_val b0); discriminate.
        -- cbn [String.append]. rewrite unescape_escape, Hx.
           destruct (hex_val x); discriminate.
        -- cbn [String.append]. rewrite !unescape_escape.
           destruct (hex_val x) as [vx|]; [|discriminate].
           destruct (hex_val y) as [vy|]; [|discriminate].
           destruct (unescape (a +:+ String c b)) as [l'|] eqn:E; [|discriminate].
           intros H; injection H as <-.
           destruct (IH a l') as (la & lb & Ha & Hb & ->); [simpl in Hn; lia|exact E|].
           rewrite Ha. exists (Escaped (16 * vx + vy) :: la), lb. auto.
      * assert (Ascii.eqb d "%" = false) as Hd' by (destruct (Ascii.eqb_spec d "%"); congruence).
        rewrite !(unescape_plain d _ Hd').
        destruct (unescape (a +:+ String c b)) as [l'|] eqn:E; [|discriminate].
        intros H; injection H as <-.
        destruct (IH a l') as (la & lb & Ha & Hb & ->); [simpl in Hn; lia|exact E|].
        rewrite Ha. exists (Plain d :: la), lb. auto.
Qed.

Lemma well_formed_split (n : nat) (c : ascii) (lb : list Piece) :
  forall la,
    (length la <= n)%nat ->
    well_formed (la ++ Plain c :: lb) = true ->
    well_formed la = true /\ well_formed lb = true.
Proof.
  induction n as [|n IH]; intros la Hn.
  - destruct la; [|simpl in Hn; lia]. cbn [List.app well_formed]. auto.
  - destruct la as [|[d|x] la].
    + cbn [List.app well_formed]. auto.
    + cbn [List.app well_formed]. apply IH. simpl in Hn; lia.
    + cbn [List.app well_formed].
      destruct (x <? 128)%N; [apply IH; simpl in Hn; lia|].
      destruct ((194 <=? x) && (x <=? 223))%N.
      { destruct la as [|p1 la]; cbn [List.app continues andb]; [discriminate|].
        intros H. apply andb_true_iff in H as [H1 H2].
        destruct (IH la) as [Ha Hb]; [simpl in Hn; lia|exact H2|].
        rewrite H1, Ha. auto. }
      destruct ((224 <=? x) && (x <=? 239))%N.
      { destruct la as [|p1 [|p2 la]]; cbn [List.app continues andb].
        - destruct lb; discriminate.
        - destruct (continues _ _ p1); cbn [andb]; discriminate.
        - intros H. apply andb_true_iff in H as [H1 H2].
          destruct (IH la) as [Ha Hb]; [simpl in Hn; lia|exact H2|].
          rewrite H1, Ha. auto. }
      destruct ((240 <=? x) && (x <=? 244))%N; [|discriminate].
      destruct la as [|p1 [|p2 [|p3 la]]]; cbn [List.app continues andb].
      * destruct lb as [|? [|? ?]]; discriminate.
      * destruct lb; [discriminate|]. destruct (continues _ _ p1); cbn [andb]; discriminate.
      * destruct (continues _ _ p1); cbn [andb]; [|discriminate].
        destruct (continues _ _ p2); cbn [andb]; discriminate.
      * intros H. apply andb_true_iff in H as [H1 H2].
        destruct (IH la) as [Ha Hb]; [simpl in Hn; lia|exact H2|].
        rewrite H1, Ha. auto.
Qed.

(** An escape does not reach across a slash: both sides of a slash decode
    when the whole does. *)
Lemma decodes_slash (a b : string) :
  decodes (a +:+ String "/" b) = true -> decodes a = true /\ decodes b = true.
Proof.
  unfold decodes, decodeURIComponent.
  destruct (unescape (a +:+ String "/" b)) as [l|] eqn:E; [|discriminate].
  destruct (unescape_split (String.length a) "/" b eq_refl eq_refl a l (le_n _) E)
    as (la & lb & -> & -> & ->).
  destruct (well_formed (la ++ Plain "/" :: lb)) eqn:W; [|discriminate].
  destruct (well_formed_split (length la) "/" lb la (le_n _) W) as [-> ->]. auto.
Qed.

Lemma decodes_segments (n : nat) :
  forall s seg,
    (String.length s <= n)%nat ->
    decodes s = true -> In seg (split_on "/" s) -> decodes seg = true.
Proof.
  induction n as [|n IH]; intros s seg Hn Hs Hin.
  - destruct s; [|simpl in Hn; lia]. destruct Hin as [<-|[]]. reflexivity.
  - destruct (contains_char "/" s) eqn:C.
    + destruct (contains_char_cut _ _ C) as (a & b & -> & Ha).
      rewrite (split_on_app "/" a b Ha) in Hin.
      destruct (decodes_slash a b Hs) as [Da Db].
      destruct Hin as [<-|Hin]; [exact Da|].
      apply (IH b seg); [|exact Db|exact Hin].
      rewrite length_append in Hn. simpl in Hn. lia.
    + rewrite (split_on_no_sep "/" s C) in Hin. destruct Hin as [<-|[]]. exact Hs.
Qed.

Lemma In_trim_last_empty (x : string) (l : list string) :
  In x (trim_last_empty l) -> In x l.
Proof.
  induction l as [|y [|z l] IH]; cbn [trim_last_empty]; [auto| |].
  - destruct (String.eqb y ""); [intros []|auto].
  - intros [H|H]; [left; exact H|right; exact (IH H)].
Qed.

Lemma In_param_values (ps : list PatSeg) :
  forall ss val, In val (param_values ps ss) -> In val ss.
Proof.
  induction ps as [|[l|] ps IH]; intros [|s ss] val; cbn [param_values]; try solve [intros []].
  - intros H. right. exact (IH _ _ H).
  - intros [H|H]; [left; exact H|right; exact (IH _ _ H)].
Qed.

Lemma first_failure_none (vals : list string) :
  (forall val, In val vals -> decodes val = true) -> first_failure vals = None.
Proof.
  induction vals as [|val rest IH]; intros H; cbn [first_failure]; [reflexivity|].
  pose proof (H val (or_introl eq_refl)) as D.
  unfold decode_param. unfold decodes in D.
  destruct (decodeURIComponent val); [|discriminate].
  apply IH. intros v Hv. apply H. right. exact Hv.
Qed.


(** A layer matches a path that decodes whenever its pattern does. *)
Lemma layer_match_decodes (pattern path : string) :
  decodes path = true ->
  layer_match pattern path = if path_matches pattern path then Matched else NotMatched.
Proof.
  intros D. unfold layer_match, path_matches, path_segments.
  destruct path as [|c body]; [reflexivity|].
  destruct (Ascii.eqb_spec c "/") as [->|]; [|reflexivity].
  destruct (segments_match _ _); [|reflexivity].
  rewrite (decodes_plain "/" body eq_refl) in D.
  rewrite first_failure_none; [reflexivity|].
  intros val Hval. apply (decodes_segments (String.length body) body val (le_n _) D).
  apply In_trim_last_empty. exact (In_param_values _ _ _ Hval).
Qed.






(** On a path that decodes, a router takes the request exactly when one of
    its routes matches method and path. *)
Lemma dispatch_decodes (routes : list Route) (method path : string) :
  decodes path = true ->
  dispatch routes method path None
  = if existsb (fun r => handles_method (fst r) method && path_matches (snd r) path) routes
    then Handled else Unhandled.
Proof.
  intros D. induction routes as [|r rest IH]; cbn [dispatch existsb]; [reflexivity|].
  rewrite (layer_match_decodes _ _ D).
  destruct (path_matches (snd r) path).
  - rewrite andb_true_r. destruct (handles_method (fst r) method); [reflexivity|exact IH].
  - rewrite andb_false_r. exact IH.
Qed.


Lemma router_dispatch_decodes (routes : list Route) (method url : string) :
  decodes (pathname url) = true ->
  router_dispatch routes method url
  = if router_matches routes method url then Handled else Unhandled.
Proof. exact (dispatch_decodes routes method (pathname url)). Qed.

Lemma lower_char_percent (a : ascii) : lower_char a = lower_char "%" -> a = "%"%char.
Proof. destruct a as [[] [] [] [] [] [] [] []]; vm_compute; congruence. Qed.

Lemma drop_prefix_ci_decodes (p : string) :
  contains_char "%" p = false ->
  forall s rest, drop_prefix_ci p s = Some rest ->
    decodes s = decodes rest
    /\ drop_chars (String.length p) s = rest
    /\ (String.length p <= String.length s)%nat.
Proof.
  induction p as [|a p IH]; intros Hp s rest.
  - cbn [drop_prefix_ci]. intros H; injection H as <-. simpl. repeat split; lia.
  - cbn [contains_char] in Hp. apply orb_false_iff in Hp as [Ha Hp].
    destruct s as [|b s]; cbn [drop_prefix_ci]; [discriminate|].
    destruct (Ascii.eqb_spec (lower_char a) (lower_char b)) as [E|]; [|discriminate].
    intros H. destruct (IH Hp s rest H) as (D & K & L).
    assert (Ascii.eqb b "%" = false) as Hb.
    { destruct (Ascii.eqb_spec b "%") as [->|]; [|reflexivity].
      exfalso. apply lower_char_percent in E. subst a. discriminate Ha. }
    rewrite (decodes_plain b s Hb). simpl. repeat split; [exact D|exact K|lia].
Qed.

Lemma pathname_drop_chars (k : nat) :
  forall url, (k <= String.length (pathname url))%nat ->
    pathname (drop_chars k url) = drop_chars k (pathname url).
Proof.
  unfold pathname. induction k as [|k IH]; intros url Hk; [reflexivity|].
  destruct url as [|d r]; [reflexivity|].
  cbn [before_char] in *. destruct (Ascii.eqb "?" d).
  - simpl in Hk. lia.
  - cbn [drop_chars]. apply IH. simpl in Hk. lia.
Qed.

(** What a mounted router sees of a path that decodes, decodes. *)
Lemma mount_strip_decodes (prefix url u : string) :
  contains_char "%" prefix = false ->
  mount_strip prefix url = Some u ->
  decodes (pathname url) = true -> decodes (pathname u) = true.
Proof.
  intros Hp. unfold mount_strip.
  destruct (drop_prefix_ci prefix (pathname url)) as [rest|] eqn:E; [|discriminate].
  destruct (drop_prefix_ci_decodes prefix Hp _ _ E) as (D & K & L).
  assert (G : forall k,
            (k <= String.length (pathname url))%nat ->
            decodes (drop_chars k (pathname url)) = true ->
            Some (if starts_with_slash (drop_chars k url) then drop_chars k url
                  else String "/" (drop_chars k url)) = Some u ->
            decodes (pathname u) = true).
  { intros k Hk Hd H. injection H as <-.
    rewrite <- (pathname_drop_chars k url Hk) in Hd.
    destruct (starts_with_slash (drop_chars k url)); [exact Hd|].
    unfold pathname in *. cbn [before_char]. change (Ascii.eqb "?" "/") with false.
    cbv iota. rewrite (decodes_plain "/" _ eq_refl). exact Hd. }
  intros H Hd. rewrite D in Hd.
  destruct rest as [|c rest'].
  - apply (G (String.length prefix)); [exact L|rewrite K; reflexivity|exact H].
  - destruct (Ascii.eqb_spec c "/") as [->|]; [|discriminate].
    assert (drop_chars (S (String.length prefix)) (pathname url) = rest'
            /\ (S (String.length prefix) <= String.length (pathname url))%nat) as [K' L'].
    { clear - K. revert K. generalize (String.length prefix) as n. generalize (pathname url) as s.
      intros s n. revert s. induction n as [|n IH]; intros s.
      - cbn [drop_chars]. intros ->. split; [reflexivity|simpl; lia].
      - destruct s as [|d s]; cbn [drop_chars]; [discriminate|].
        intros H. destruct (IH s H) as [H1 H2]. split; [exact H1|simpl; lia]. }
    rewrite (decodes_plain "/" rest' eq_refl) in Hd.
    destruct rest' as [|d rest''].
    + apply (G (S (String.length prefix))); [exact L'|rewrite K'; reflexivity|exact H].
    + destruct (Ascii.eqb d "/").
      * apply (G (S (String.length prefix))); [exact L'|rewrite K'; exact Hd|exact H].
      * apply (G (String.length prefix)); [exact L|rewrite K|exact H].
        rewrite (decodes_plain "/" _ eq_refl). exact Hd.
Qed.

End Decoding.

(** ** Runs of the forwarding handlers *)

Section ForwardRun.

Variables (SERVICE_URL label error message : string).
Variables (net : Network) (req : Request).

Lemma forward_resolved (r : Response) :
  net (forward_config SERVICE_URL req) = Resolved r ->
  forward SERVICE_URL label error message net req [] =
    (Normal tt,
     [Outbound (forward_config SERVICE_URL req);
      Sent (resp_status r) (JsonBody (resp_data r))]).
Proof.
  intros H. unfold forward, try_catch, bind, axios. rewrite H. reflexivity.
Qed.

Lemma forward_rejected (e : Error) :
  net (forward_config SERVICE_URL req) = Rejected e ->
  forward SERVICE_URL label error message net req [] =
    (Normal tt,
     [Outbound (forward_config SERVICE_URL req);
      ConsoleError label (err_message e);
      match err_response e with
      | Some r => Sent (resp_status r) (JsonBody (resp_data r))
      | None => Sent 500 (JsonBody (unavailable error message))
      end]).
Proof.
  intros H. unfold forward, try_catch, bind, axios. rewrite H.
  unfold console_error, emit. destruct (err_response e); reflexivity.
Qed.

(** While the call is pending the handler has made its call and nothing
    else. *)
Lemma forward_pending :
  net (forward_config SERVICE_URL req) = Pending ->
  forward SERVICE_URL label error message net req [] =
    (Suspended, [Outbound (forward_config SERVICE_URL req)]).
Proof.
  intros H. unfold forward, try_catch, bind, axios. rewrite H. reflexivity.
Qed.

(** Whatever the network does, the handler throws nothing. *)
Lemma forward_never_throws (e : Error) (t : list Event) :
  forward SERVICE_URL label error message net req [] <> (Throw e, t).
Proof.
  destruct (net (forward_config SERVICE_URL req)) as [r|e'|] eqn:H.
  - rewrite (forward_resolved r H). discriminate.
  - rewrite (forward_rejected e' H). discriminate.
  - rewrite (forward_pending H). discriminate.
Qed.

End ForwardRun.

Lemma handler_of_forward (s : Service) (boot : Env) :
  handler_of s boot =
    forward (service_url s boot) (log_label s)
      (display_name s +:+ " Unavailable") (connect_message s).
Proof. destruct s; reflexivity. Qed.

(** The whole trace of a forwarding handler, by the way its call settles. *)
Lemma handler_trace (s : Service) (boot : Env) (net : Network) (req : Request) :
  handler_of s boot net req [] =
    match net (forward_config (service_url s boot) req) with
    | Resolved r =>
        (Normal tt,
         [Outbound (forward_config (service_url s boot) req);
          Sent (resp_status r) (JsonBody (resp_data r))])
    | Rejected e =>
        (Normal tt,
         [Outbound (forward_config (service_url s boot) req);
          ConsoleError (log_label s) (err_message e);
          match err_response e with
          | Some r => Sent (resp_status r) (JsonBody (resp_data r))
          | None =>
              Sent 500 (JsonBody (JObj [("error", JStr (display_name s +:+ " Unavailable"));
                                        ("message", JStr (connect_message s))]))
          end])
    | Pending => (Suspended, [Outbound (forward_config (service_url s boot) req)])
    end.
Proof.
  rewrite handler_of_forward.
  destruct (net (forward_config (service_url s boot) req)) as [r|e|] eqn:H.
  - apply forward_resolved, H.
  - apply forward_rejected, H.
  - apply forward_pending, H.
Qed.

Lemma handler_responses (s : Service) (boot : Env) (net : Network) (req : Request) :
  responses (snd (handler_of s boot net req []))
  = relayed s (net (forward_config (service_url s boot) req)).
Proof.
  rewrite handler_trace.
  destruct (net (forward_config (service_url s boot) req)) as [r|e|]; [reflexivity| |reflexivity].
  simpl. destruct (err_response e); reflexivity.
Qed.

Lemma handler_calls (s : Service) (boot : Env) (net : Network) (req : Request) :
  outbound_calls (snd (handler_of s boot net req []))
  = [forward_config (service_url s boot) req].
Proof.
  rewrite handler_trace.
  destruct (net (forward_config (service_url s boot) req)) as [r|e|]; [reflexivity| |reflexivity].
  simpl. destruct (err_response e); reflexivity.
Qed.

(** A request routed to a service is answered by that service's handler,
    run on the request with its URL rewritten; the error handler stays
    out of it. *)
Lemma app_routed (boot env : Env) (now : string) (net : Network)
    (guard : Request -> MwResult) (req : Request) (s : Service) (url : string) :
  reaches guard req (ToService s url) ->
  app boot env now net guard req =
    handler_of s boot net (with_url (inbound req) url) [].
Proof.
  intros [Hmw Hroute]. unfold app. fold (inbound req). rewrite Hmw, Hroute.
  unfold try_catch.
  destruct (handler_of s boot net (with_url (inbound req) url) []) as [[[]|e|] t] eqn:E;
    try reflexivity.
  exfalso. rewrite handler_of_forward in E. exact (forward_never_throws _ _ _ _ _ _ _ _ E).
Qed.




(** The application runs on closed inputs. *)
Example app_login_backend_down :
  wire_responses "POST"
    (snd (app ∅ ∅ "2024-01-01T00:00:00.000Z" net_down pass login_request))
  = [(500, "{" +:+ quoted "error" +:+ ":" +:+ quoted "Auth Service Unavailable" +:+ ","
           +:+ quoted "message" +:+ ":"
           +:+ quoted "Unable to connect to authentication service" +:+ "}")]
  /\ map request_url
       (outbound_calls (snd (app ∅ ∅ "2024-01-01T00:00:00.000Z" net_down pass login_request)))
     = ["http://localhost:3001/login"].
Proof. vm_compute. split; reflexivity. Qed.

Example app_options_is_answered_by_cors :
  app ∅ ∅ "2024-01-01T00:00:00.000Z" net_down pass
    {| req_method := "OPTIONS"; req_originalUrl := "/api/tasks"; req_url := "/api/tasks";
       req_body := JObj []; req_headers := ∅; req_query := []; req_ip := "::1";
       req_protocol := "http" |}
  = (Normal tt, [Sent 204 (RawBody "")]).
Proof. reflexivity. Qed.

Example route_head_uses_get :
  route {| req_method := "HEAD"; req_originalUrl := "/api/tasks/"; req_url := "/api/tasks/";
           req_body := JObj []; req_headers := ∅; req_query := []; req_ip := "::1";
           req_protocol := "http" |}
  = ToService Task "/".
Proof. reflexivity. Qed.

Example decodeURIComponent_samples :
  decodeURIComponent "abc%20d" = Some "abc d"
  /\ decodeURIComponent "%zz" = None
  /\ decodeURIComponent "%4" = None
  /\ decodeURIComponent "%C3%A9" = Some (String (ascii_of_N 195) (String (ascii_of_N 169) ""))
  /\ decodeURIComponent "%C3" = None
  /\ decodeURIComponent "%C3/" = None
  /\ decodeURIComponent "%E0%80%80" = None
  /\ decodeURIComponent "%ED%A0%80" = None
  /\ decodeURIComponent "%F4%90%80%80" = None
  /\ decodeURIComponent "%F0%9F%98%80" <> None.
Proof. vm_compute. repeat split; discriminate. Qed.

(** A parameter that does not decode: no route runs, whatever the method,
    and the error handler answers 400. *)
Example app_task_bad_escape :
  route (inbound task_bad_escape_request) = ToError (decode_error "%zz")
  /\ app ∅ ∅ "2024-01-01T00:00:00.000Z" net_ok pass task_bad_escape_request
     = (Normal tt,
        [ConsoleError "Global error:" "Failed to decode param '%zz'";
         Sent 400 (JsonBody (JObj [("error", JStr "Internal Server Error");
                                   ("message", JStr "Failed to decode param '%zz'")]))]).
Proof. vm_compute. split; reflexivity. Qed.

(** ** C1: the answer when no reply is received *)




(** ** C2: relaying the backend's reply *)

(** The responses sent for a request routed to a service, whichever way the
    call settles. *)
Lemma app_routed_responses (boot env : Env) (now : string) (net : Network)
    (guard : Request -> MwResult) (req : Request) (s : Service) (url : string) :
  reaches guard req (ToService s url) ->
  responses (snd (app boot env now net guard req))
  = relayed s (net (outbound_config boot s req url)).
Proof.
  intros Hreach. rewrite (app_routed _ _ _ _ _ _ _ _ Hreach). apply handler_responses.
Qed.


(** In answer to a request without a validator the status goes out as it
    is. *)
Lemma answers_unconditional (validators : Request -> string -> bool) (req : Request)
    (t : list Event) :
  conditional req = false ->
  answers validators req t = wire_responses (req_method req) t.
Proof.
  intros C. unfold answers, wire_responses. apply map_ext. intros [status [v|text]]; [|reflexivity].
  unfold answer, json_response, fresh. simpl. rewrite C, andb_false_r. reflexivity.
Qed.


(** However axios settles on a reply, the reply reaches the handler: as
    the value of the call on 2xx, inside the error on any other status. *)
Lemma settle_delivers (status : Z) (data : JSValue) :
  settle status data = Resolved {| resp_status := status; resp_data := data |}
  \/ exists e,
       settle status data = Rejected e
       /\ err_response e = Some {| resp_status := status; resp_data := data |}.
Proof. unfold settle. destruct (validateStatus status); [left; reflexivity|right; eauto]. Qed.



(** A conditional request: the backend's 200 goes out as 304. *)
Example fresh_request_is_answered_304 :
  answers always_fresh (with_header get_task_request "if-none-match" "*")
    (snd (app ∅ ∅ "2024-01-01T00:00:00.000Z" net_ok pass
            (with_header get_task_request "if-none-match" "*")))
  = [(304, "")].
Proof. vm_compute. reflexivity. Qed.

(** ** C3: the outbound URL *)

Lemma first_mount_sound (ms : list (string * Service)) (req : Request)
    (s : Service) (url : string) :
  first_mount ms req = Taken s url ->
  exists prefix,
    In (prefix, s) ms
    /\ mount_strip prefix (req_url req) = Some url
    /\ router_dispatch (routes_of s) (req_method req) url = Handled.
Proof.
  induction ms as [|[prefix s'] rest IH]; simpl; [discriminate|].
  destruct (mount_strip prefix (req_url req)) as [u|] eqn:Hstrip.
  - destruct (router_dispatch (routes_of s') (req_method req) u) eqn:Hm.
    + intros H; injection H as -> ->. exists prefix. auto.
    + intros H. destruct (IH H) as (p & Hin & Hrest). exists p. auto.
    + discriminate.
  - intros H. destruct (IH H) as (p & Hin & Hrest). exists p. auto.
Qed.

Lemma mounts_prefix (prefix : string) (s : Service) :
  In (prefix, s) mounts -> prefix = mount_prefix s.
Proof.
  unfold mounts. simpl.
  intros [H|[H|[H|[H|[H|[]]]]]]; injection H as <- <-; reflexivity.
Qed.

(** A request routed to [s] with URL [url]: [url] is the inbound URL with
    the mount prefix of [s] cut off, and the router of [s] takes it. *)
Lemma route_service (req : Request) (s : Service) (url : string) :
  route (inbound req) = ToService s url ->
  mount_strip (mount_prefix s) (req_originalUrl req) = Some url
  /\ router_dispatch (routes_of s) (req_method req) url = Handled.
Proof.
  unfold route.
  destruct (route_matches ("GET", "/health") (req_method (inbound req)) (req_url (inbound req)));
    [discriminate|].
  destruct (first_mount mounts (inbound req)) as [s' u| |e] eqn:Hfm.
  - intros H; injection H as -> ->.
    destruct (first_mount_sound _ _ _ _ Hfm) as (prefix & Hin & Hstrip & Hm).
    rewrite <- (mounts_prefix _ _ Hin). auto.
  - destruct (decode_param _); discriminate.
  - discriminate.
Qed.

Lemma app_routed_calls (boot env : Env) (now : string) (net : Network)
    (guard : Request -> MwResult) (req : Request) (s : Service) (url : string) :
  reaches guard req (ToService s url) ->
  outbound_calls (snd (app boot env now net guard req)) = [outbound_config boot s req url].
Proof.
  intros Hreach. rewrite (app_routed _ _ _ _ _ _ _ _ Hreach). apply handler_calls.
Qed.





(** ** C4: the outbound headers *)

Lemma forward_config_headers (SERVICE_URL : string) (req : Request) (name : string) :
  cfg_headers (forward_config SERVICE_URL req) !! name =
    if decide (name = "x-forwarded-host") then Some (req_get req "host")
    else if decide (name = "x-forwarded-proto") then Some (Some (req_protocol req))
    else if decide (name = "x-forwarded-for") then Some (Some (req_ip req))
    else Some <$> (req_headers req !! name).
Proof.
  unfold forward_config. simpl.
  repeat case_decide; subst; simplify_map_eq; try reflexivity.
Qed.

(** The headers that go out with the call of a forwarding handler. *)
Lemma sent_headers_lookup (c : Config) (name : string) :
  sent_headers c !! name
  = if decide (name ∈ header_groups) then None else cfg_headers c !! name ≫= id.
Proof.
  unfold sent_headers. apply option_eq. intros v.
  rewrite map_lookup_filter_Some, lookup_omap. cbn [fst].
  destruct (decide (name ∈ header_groups)) as [Hin|Hout].
  - split; [intros [_ H]; contradiction|discriminate].
  - split; [intros [H _]; exact H|intros H; split; [exact H|exact Hout]].
Qed.

Lemma forward_sent_headers (SERVICE_URL : string) (req : Request) (name : string) :
  name ∉ header_groups ->
  sent_headers (forward_config SERVICE_URL req) !! name =
    if decide (name = "x-forwarded-host") then req_headers req !! "host"
    else if decide (name = "x-forwarded-proto") then Some (req_protocol req)
    else if decide (name = "x-forwarded-for") then Some (req_ip req)
    else req_headers req !! name.
Proof.
  intros Hname. rewrite sent_headers_lookup, forward_config_headers.
  rewrite decide_False by exact Hname.
  repeat case_decide; try reflexivity.
  destruct (req_headers req !! name); reflexivity.
Qed.

Lemma forwarded_not_groups (name : string) :
  name ∈ forwarded_names -> name ∉ header_groups.
Proof.
  unfold forwarded_names. rewrite !elem_of_union, !elem_of_singleton.
  intros [[-> | ->] | ->] Hg; apply list_elem_of_In in Hg; simpl in Hg; intuition discriminate.
Qed.

Lemma forwarded_for_name : "x-forwarded-for" ∈ forwarded_names.
Proof. unfold forwarded_names. rewrite !elem_of_union, !elem_of_singleton. auto. Qed.

Lemma forwarded_proto_name : "x-forwarded-proto" ∈ forwarded_names.
Proof. unfold forwarded_names. rewrite !elem_of_union, !elem_of_singleton. auto. Qed.

Lemma forwarded_host_name : "x-forwarded-host" ∈ forwarded_names.
Proof. unfold forwarded_names. rewrite !elem_of_union, !elem_of_singleton. auto. Qed.

(** C4, as stated, at a concrete input: a request that carries its own
    [x-forwarded-for] and no [Host] goes out with that header replaced by
    the address of its sender and without [x-forwarded-host]: the value of
    an inbound header is dropped, and of the three headers only two go
    out. *)
Lemma C4_forwarded_headers_replace_inbound :
  outbound_calls (snd (app ∅ ∅ "2024-01-01T00:00:00.000Z" net_ok pass proxied_request))
  = [outbound_config ∅ Task proxied_request "/abc123"]
  /\ req_headers proxied_request !! "x-forwarded-for" = Some "203.0.113.7"
  /\ sent_headers (outbound_config ∅ Task proxied_request "/abc123") !! "x-forwarded-for"
     = Some "::1"
  /\ sent_headers (outbound_config ∅ Task proxied_request "/abc123") !! "x-forwarded-proto"
     = Some "http"
  /\ sent_headers (outbound_config ∅ Task proxied_request "/abc123") !! "x-forwarded-host"
     = None.
Proof.
  split; [apply app_routed_calls; split; reflexivity|].
  unfold outbound_config.
  rewrite (forward_sent_headers _ _ _ (forwarded_not_groups _ forwarded_for_name)),
    (forward_sent_headers _ _ _ (forwarded_not_groups _ forwarded_proto_name)),
    (forward_sent_headers _ _ _ (forwarded_not_groups _ forwarded_host_name)).
  repeat split; reflexivity.
Qed.

(** C4 (amended): for every forwarded request, the headers the gateway
    supplies with the one outbound call are the inbound headers with
    [x-forwarded-for] set to the address of the sender, [x-forwarded-proto]
    set to the inbound scheme and [x-forwarded-host] set to the inbound
    [Host]; an inbound header of one of these three names is replaced, and
    no [x-forwarded-host] goes out when the request has no [Host].  Every
    inbound header under another name goes out with its value unchanged,
    [host] and [content-length] included, except a header named as one of
    the groups of defaults of the HTTP client ([common] and the names of
    the methods), which does not go out. *)
Theorem C4_outbound_headers (boot env : Env) (now : string) (net : Network)
    (guard : Request -> MwResult) (req : Request) (s : Service) (url : string) :
  reaches guard req (ToService s url) ->
  exists c,
    outbound_calls (snd (app boot env now net guard req)) = [c]
    /\ sent_headers c !! "x-forwarded-for" = Some (req_ip req)
    /\ sent_headers c !! "x-forwarded-proto" = Some (req_protocol req)
    /\ sent_headers c !! "x-forwarded-host" = req_headers req !! "host"
    /\ (forall name, name ∉ forwarded_names -> name ∉ header_groups ->
          sent_headers c !! name = req_headers req !! name)
    /\ (forall name, name ∈ header_groups -> sent_headers c !! name = None).
Proof.
  intros Hreach. exists (outbound_config boot s req url).
  split; [apply app_routed_calls, Hreach|]. unfold outbound_config.
  split; [|split; [|split; [|split]]].
  - rewrite (forward_sent_headers _ _ _ (forwarded_not_groups _ forwarded_for_name)).
    reflexivity.
  - rewrite (forward_sent_headers _ _ _ (forwarded_not_groups _ forwarded_proto_name)).
    reflexivity.
  - rewrite (forward_sent_headers _ _ _ (forwarded_not_groups _ forwarded_host_name)).
    reflexivity.
  - intros name Hname Hg. rewrite (forward_sent_headers _ _ _ Hg).
    unfold forwarded_names in Hname.
    assert (name <> "x-forwarded-host" /\ name <> "x-forwarded-proto"
            /\ name <> "x-forwarded-for") as (H1 & H2 & H3).
    { repeat split; intros ->; apply Hname; set_solver. }
    rewrite !decide_False by assumption. reflexivity.
  - intros name Hg. rewrite sent_headers_lookup, decide_True by exact Hg. reflexivity.
Qed.

Lemma C4_outbound_headers_witness :
  exists c,
    outbound_calls
      (snd (app ∅ ∅ "2024-01-01T00:00:00.000Z" net_ok pass get_task_request)) = [c]
    /\ sent_headers c !! "x-forwarded-for" = Some (req_ip get_task_request)
    /\ sent_headers c !! "x-forwarded-proto" = Some (req_protocol get_task_request)
    /\ sent_headers c !! "x-forwarded-host" = req_headers get_task_request !! "host"
    /\ (forall name, name ∉ forwarded_names -> name ∉ header_groups ->
          sent_headers c !! name = req_headers get_task_request !! name)
    /\ (forall name, name ∈ header_groups -> sent_headers c !! name = None).
Proof.
  apply (C4_outbound_headers ∅ ∅ "2024-01-01T00:00:00.000Z" net_ok pass get_task_request
           Task "/abc123?verbose=true").
  split; reflexivity.
Defined.

(** ** C7 and C10: one call out, at most one response back, no exception *)

Lemma log_label_not_global (s : Service) : String.eqb (log_label s) "Global error:" = false.
Proof. destruct s; reflexivity. Qed.




Lemma spaced_login_reaches_auth : reaches pass spaced_login_request (ToService Auth "/login").
Proof. split; reflexivity. Qed.

(** C10, as stated, at a concrete input: a client posts a login whose JSON
    body has spaces in it, 50 bytes long.  The handler copies the
    [content-length] of 50 and sends the body re-serialised, 47 bytes long;
    the backend waits for the rest, the call stays pending (no time limit
    is set), and the gateway sends no response at all. *)
Lemma C10_no_response_while_call_pending :
  String.length
    (JSON_stringify (cfg_data (outbound_config ∅ Auth spaced_login_request "/login"))) = 47%nat
  /\ cfg_headers (outbound_config ∅ Auth spaced_login_request "/login") !! "content-length"
     = Some (Some "50")
  /\ net_reading_body (outbound_config ∅ Auth spaced_login_request "/login") = Pending
  /\ app ∅ ∅ "2024-01-01T00:00:00.000Z" net_reading_body pass spaced_login_request
     = (Suspended, [Outbound (outbound_config ∅ Auth spaced_login_request "/login")])
  /\ responses
       (snd (app ∅ ∅ "2024-01-01T00:00:00.000Z" net_reading_body pass spaced_login_request))
     = [].
Proof.
  assert (P : net_reading_body (outbound_config ∅ Auth spaced_login_request "/login") = Pending)
    by (vm_compute; reflexivity).
  assert (E : app ∅ ∅ "2024-01-01T00:00:00.000Z" net_reading_body pass spaced_login_request
     = (Suspended, [Outbound (outbound_config ∅ Auth spaced_login_request "/login")])).
  { rewrite (app_routed _ _ _ _ _ _ _ _ spaced_login_reaches_auth), handler_trace.
    fold (outbound_config ∅ Auth spaced_login_request "/login"). rewrite P. reflexivity. }
  split; [vm_compute; reflexivity|]. split; [vm_compute; reflexivity|].
  split; [exact P|]. split; [exact E|]. rewrite E. reflexivity.
Qed.

(** C10 (amended): no run of a forwarding handler throws, whether the call
    resolved, was rejected with a reply, was rejected without one or is
    still pending; the application on a request routed to the handler does
    what the handler does, and the global error handler does not run.
    When the call settles the run returns and has sent exactly one
    response; as long as the call is pending (the handlers set no time
    limit) no response is sent. *)
Theorem C10_one_response_no_exception (boot env : Env) (now : string) (net : Network)
    (guard : Request -> MwResult) (req : Request) (s : Service) (url : string) :
  reaches guard req (ToService s url) ->
  (forall e t, handler_of s boot net (with_url (inbound req) url) [] <> (Throw e, t))
  /\ app boot env now net guard req = handler_of s boot net (with_url (inbound req) url) []
  /\ error_handler_ran (snd (app boot env now net guard req)) = false
  /\ (net (outbound_config boot s req url) <> Pending ->
      fst (app boot env now net guard req) = Normal tt
      /\ exists r, responses (snd (app boot env now net guard req)) = [r])
  /\ (net (outbound_config boot s req url) = Pending ->
      fst (app boot env now net guard req) = Suspended
      /\ responses (snd (app boot env now net guard req)) = []).
Proof.
  intros Hreach. split; [|split; [exact (app_routed _ _ _ _ _ _ _ _ Hreach)|]].
  - intros e t. rewrite handler_of_forward. apply forward_never_throws.
  - rewrite (app_routed _ _ _ _ _ _ _ _ Hreach), handler_trace.
    fold (outbound_config boot s req url).
    destruct (net (outbound_config boot s req url)) as [r|e|].
    + split; [reflexivity|]. split; [|intros H; discriminate H].
      intros _. split; [reflexivity|]. eexists. reflexivity.
    + split; [|split; [|intros H; discriminate H]].
      * simpl. rewrite log_label_not_global. destruct (err_response e); reflexivity.
      * intros _. split; [reflexivity|]. simpl. destruct (err_response e); eexists; reflexivity.
    + split; [reflexivity|]. split; [intros H; contradiction|].
      intros _. split; reflexivity.
Qed.

Lemma C10_one_response_no_exception_witness :
  (forall e t, handler_of Auth ∅ net_down (with_url (inbound login_request) "/login") []
               <> (Throw e, t))
  /\ app ∅ ∅ "2024-01-01T00:00:00.000Z" net_down pass login_request
     = handler_of Auth ∅ net_down (with_url (inbound login_request) "/login") []
  /\ error_handler_ran (snd (app ∅ ∅ "2024-01-01T00:00:00.000Z" net_down pass login_request))
     = false
  /\ (net_down (outbound_config ∅ Auth login_request "/login") <> Pending ->
      fst (app ∅ ∅ "2024-01-01T00:00:00.000Z" net_down pass login_request) = Normal tt
      /\ exists r,
           responses (snd (app ∅ ∅ "2024-01-01T00:00:00.000Z" net_down pass login_request))
           = [r])
  /\ (net_down (outbound_config ∅ Auth login_request "/login") = Pending ->
      fst (app ∅ ∅ "2024-01-01T00:00:00.000Z" net_down pass login_request) = Suspended
      /\ responses (snd (app ∅ ∅ "2024-01-01T00:00:00.000Z" net_down pass login_request))
         = []).
Proof.
  apply (C10_one_response_no_exception ∅ ∅ "2024-01-01T00:00:00.000Z" net_down pass
           login_request Auth "/login").
  split; reflexivity.
Defined.

(** ** C9: the [Authorization] header *)

Lemma outbound_config_with_authorization (boot : Env) (s : Service) (req : Request)
    (url v : string) :
  outbound_config boot s (with_header req "authorization" v) url
  = with_cfg_header (outbound_config boot s req url) "authorization" v.
Proof.
  unfold outbound_config, forward_config, with_cfg_header, with_header, inbound, with_url,
    req_get. simpl. f_equal.
  rewrite fmap_insert.
  rewrite (lookup_insert_ne (req_headers req) "authorization" "host" v) by discriminate.
  rewrite (insert_insert_ne _ "authorization" "x-forwarded-host") by discriminate.
  rewrite (insert_insert_ne _ "authorization" "x-forwarded-proto") by discriminate.
  rewrite (insert_insert_ne _ "authorization" "x-forwarded-for") by discriminate.
  reflexivity.
Qed.

(** C9: for every forwarded request that carries an [Authorization] header,
    the outbound call carries the header with the same value; and the
    gateway does not look at the value: with any other value in its place
    the request takes the same route, the outbound call differs in that
    header only, and the response depends on the backend's answer alone. *)
Theorem C9_authorization_relayed_untouched (boot env : Env) (now : string) (net : Network)
    (guard : Request -> MwResult) (req : Request) (s : Service) (url v : string) :
  reaches guard req (ToService s url) ->
  req_headers req !! "authorization" = Some v ->
  (exists c,
     outbound_calls (snd (app boot env now net guard req)) = [c]
     /\ cfg_headers c !! "authorization" = Some (Some v)
     /\ sent_headers c !! "authorization" = Some v)
  /\ forall v' : string,
       route (inbound (with_header req "authorization" v')) = ToService s url
       /\ outbound_config boot s (with_header req "authorization" v') url
          = with_cfg_header (outbound_config boot s req url) "authorization" v'
       /\ forall net' : Network,
            net' (outbound_config boot s (with_header req "authorization" v') url)
            = net (outbound_config boot s req url) ->
            responses
              (snd (handler_of s boot net'
                      (with_url (inbound (with_header req "authorization" v')) url) []))
            = responses (snd (app boot env now net guard req)).
Proof.
  intros Hreach Hauth. split.
  - exists (outbound_config boot s req url). split; [apply app_routed_calls, Hreach|].
    unfold outbound_config.
    assert ("authorization" ∉ header_groups) as Hg.
    { intros Hg. apply list_elem_of_In in Hg. simpl in Hg. intuition discriminate. }
    rewrite (forward_sent_headers _ _ _ Hg), forward_config_headers.
    rewrite !decide_False by discriminate. simpl. rewrite Hauth. split; reflexivity.
  - intros v'. split; [exact (proj2 Hreach)|]. split.
    + apply outbound_config_with_authorization.
    + intros net' Hnet'.
      rewrite (app_routed_responses _ _ _ _ _ _ _ _ Hreach), handler_responses.
      fold (outbound_config boot s (with_header req "authorization" v') url).
      rewrite Hnet'. reflexivity.
Qed.

Lemma C9_authorization_relayed_untouched_witness :
  (exists c,
     outbound_calls
       (snd (app ∅ ∅ "2024-01-01T00:00:00.000Z" net_ok pass get_task_request)) = [c]
     /\ cfg_headers c !! "authorization" = Some (Some "Bearer t0k3n")
     /\ sent_headers c !! "authorization" = Some "Bearer t0k3n")
  /\ forall v' : string,
       route (inbound (with_header get_task_request "authorization" v'))
       = ToService Task "/abc123?verbose=true"
       /\ outbound_config ∅ Task (with_header get_task_request "authorization" v')
            "/abc123?verbose=true"
          = with_cfg_header (outbound_config ∅ Task get_task_request "/abc123?verbose=true")
              "authorization" v'
       /\ forall net' : Network,
            net' (outbound_config ∅ Task (with_header get_task_request "authorization" v')
                    "/abc123?verbose=true")
            = net_ok (outbound_config ∅ Task get_task_request "/abc123?verbose=true") ->
            responses
              (snd (handler_of Task ∅ net'
                      (with_url (inbound (with_header get_task_request "authorization" v'))
                         "/abc123?verbose=true") []))
            = responses
                (snd (app ∅ ∅ "2024-01-01T00:00:00.000Z" net_ok pass get_task_request)).
Proof.
  apply (C9_authorization_relayed_untouched ∅ ∅ "2024-01-01T00:00:00.000Z" net_ok pass
           get_task_request Task "/abc123?verbose=true" "Bearer t0k3n").
  - split; reflexivity.
  - reflexivity.
Defined.

(** ** C6: requests no route takes *)








(** ** C8: the base URLs *)

(** C8, as stated, at a concrete input: with [AUTH_SERVICE_URL] set to the
    empty string the handler does not take its base URL from the variable;
    it forwards to the default. *)
Lemma C8_empty_variable_is_ignored :
  (<["AUTH_SERVICE_URL" := ""]> ∅ : Env) !! env_name Auth = Some ""
  /\ service_url Auth (<["AUTH_SERVICE_URL" := ""]> ∅) = "http://localhost:3001"
  /\ service_url Auth (<["AUTH_SERVICE_URL" := ""]> ∅) <> "".
Proof. split; [reflexivity|]. split; [reflexivity|]. vm_compute. discriminate. Qed.

Lemma service_url_spec (s : Service) (env : Env) :
  service_url s env =
    match env !! env_name s with
    | Some v => if String.eqb v "" then default_url s else v
    | None => default_url s
    end.
Proof. destruct s; reflexivity. Qed.

(** C8 (amended): for each of the five services the base URL is the value
    of its environment variable when that is set to a non-empty string, and
    its default ([http://localhost:3001] to [http://localhost:3005])
    otherwise; the value is the one of the environment the modules were
    loaded under: a request routed to the service is forwarded to that base
    URL whatever the environment is when the request is handled. *)
Theorem C8_base_urls (boot env : Env) (now : string) (net : Network)
    (guard : Request -> MwResult) (req : Request) (s : Service) (url : string) :
  reaches guard req (ToService s url) ->
  (forall v, boot !! env_name s = Some v -> v <> "" -> service_url s boot = v)
  /\ (boot !! env_name s = None \/ boot !! env_name s = Some "" ->
      service_url s boot = default_url s)
  /\ map default_url services
     = ["http://localhost:3001"; "http://localhost:3002"; "http://localhost:3003";
        "http://localhost:3004"; "http://localhost:3005"]
  /\ map env_name services
     = ["AUTH_SERVICE_URL"; "TASK_SERVICE_URL"; "NOTIFICATION_SERVICE_URL";
        "REPORTING_SERVICE_URL"; "ADMIN_SERVICE_URL"]
  /\ map cfg_url (outbound_calls (snd (app boot env now net guard req)))
     = [service_url s boot +:+ url].
Proof.
  intros Hreach. split; [|split; [|split; [|split]]]; try reflexivity.
  - intros v Hv Hne. rewrite service_url_spec, Hv.
    destruct (String.eqb_spec v ""); [contradiction|reflexivity].
  - intros [H|H]; rewrite service_url_spec, H; reflexivity.
  - rewrite (app_routed_calls _ _ _ _ _ _ _ _ Hreach). reflexivity.
Qed.

Lemma C8_base_urls_witness :
  (forall v, (<["TASK_SERVICE_URL" := "http://tasks:8080"]> ∅ : Env) !! env_name Task = Some v ->
             v <> "" ->
             service_url Task (<["TASK_SERVICE_URL" := "http://tasks:8080"]> ∅) = v)
  /\ ((<["TASK_SERVICE_URL" := "http://tasks:8080"]> ∅ : Env) !! env_name Task = None
      \/ (<["TASK_SERVICE_URL" := "http://tasks:8080"]> ∅ : Env) !! env_name Task = Some "" ->
      service_url Task (<["TASK_SERVICE_URL" := "http://tasks:8080"]> ∅) = default_url Task)
  /\ map default_url services
     = ["http://localhost:3001"; "http://localhost:3002"; "http://localhost:3003";
        "http://localhost:3004"; "http://localhost:3005"]
  /\ map env_name services
     = ["AUTH_SERVICE_URL"; "TASK_SERVICE_URL"; "NOTIFICATION_SERVICE_URL";
        "REPORTING_SERVICE_URL"; "ADMIN_SERVICE_URL"]
  /\ map cfg_url
       (outbound_calls
          (snd (app (<["TASK_SERVICE_URL" := "http://tasks:8080"]> ∅) ∅
                  "2024-01-01T00:00:00.000Z" net_ok pass get_task_request)))
     = [service_url Task (<["TASK_SERVICE_URL" := "http://tasks:8080"]> ∅)
        +:+ "/abc123?verbose=true"].
Proof.
  apply (C8_base_urls (<["TASK_SERVICE_URL" := "http://tasks:8080"]> ∅) ∅
           "2024-01-01T00:00:00.000Z" net_ok pass get_task_request Task
           "/abc123?verbose=true").
  split; reflexivity.
Defined.

(** ** C5: health *)

Lemma health_is_health_body (env : Env) (now : string) :
  health env now [] = (Normal tt, [Sent 200 (JsonBody (health_body env now))]).
Proof. reflexivity. Qed.


Lemma app_health (boot env : Env) (now : string) (net : Network)
    (guard : Request -> MwResult) (req : Request) :
  reaches guard req ToHealth ->
  app boot env now net guard req = (Normal tt, [Sent 200 (JsonBody (health_body env now))]).
Proof.
  intros [Hmw Hroute]. unfold app. fold (inbound req). rewrite Hmw, Hroute. reflexivity.
Qed.


Lemma all_healthy_false (l : list HealthScript.CheckResult) :
  HealthScript.all_healthy l false = false.
Proof. induction l as [|r l IH]; simpl; [reflexivity|]. destruct r; simpl; exact IH. Qed.

Lemma all_healthy_forallb (l : list HealthScript.CheckResult) :
  HealthScript.all_healthy l true = forallb HealthScript.is_healthy l.
Proof.
  induction l as [|r l IH]; simpl; [reflexivity|].
  destruct r; simpl; [exact IH|apply all_healthy_false].
Qed.




Example script_reports_task_down :
  map HealthScript.result_status
    (HealthScript.results (HealthScript.checkAllServices probe_task_down))
  = ["healthy"; "healthy"; "unhealthy"; "healthy"; "healthy"; "healthy"]
  /\ HealthScript.exit_code (HealthScript.checkAllServices probe_task_down) = 1.
Proof. vm_compute. split; reflexivity. Qed.

(** * Further properties *)

(** ** The gateway: routing does not depend on the order of the mounts *)

Lemma drop_prefix_ci_agree (p q s r1 r2 : string) :
  drop_prefix_ci p s = Some r1 -> drop_prefix_ci q s = Some r2 -> agree_ci p q = true.
Proof.
  revert q s. induction p as [|a p IH]; intros [|b q] [|c s]; simpl; try done.
  destruct (Ascii.eqb_spec (lower_char a) (lower_char c)) as [E1|]; [|done].
  destruct (Ascii.eqb_spec (lower_char b) (lower_char c)) as [E2|]; [|done].
  intros H1 H2. rewrite E1, E2, Ascii.eqb_refl. simpl. eauto.
Qed.

Lemma drop_prefix_ci_cons (a : ascii) (p s : string) :
  drop_prefix_ci (String a p) s
  = match s with
    | String b s' =>
        if Ascii.eqb (lower_char a) (lower_char b) then drop_prefix_ci p s' else None
    | EmptyString => None
    end.
Proof. destruct s; reflexivity. Qed.

Lemma mount_strip_prefix (prefix url u : string) :
  mount_strip prefix url = Some u ->
  exists r, drop_prefix_ci prefix (pathname url) = Some r.
Proof.
  unfold mount_strip. destruct (drop_prefix_ci prefix (pathname url)); [eauto|discriminate].
Qed.

Lemma mounts_exclusive : exclusive mounts.
Proof.
  intros p1 s1 p2 s2 u u1 u2 H1 H2 M1 M2.
  destruct (mount_strip_prefix _ _ _ M1) as [r1 D1].
  destruct (mount_strip_prefix _ _ _ M2) as [r2 D2].
  pose proof (drop_prefix_ci_agree _ _ _ _ _ D1 D2) as A.
  unfold mounts in H1, H2. simpl in H1, H2.
  destruct H1 as [H1|[H1|[H1|[H1|[H1|[]]]]]]; injection H1 as <- <-;
    destruct H2 as [H2|[H2|[H2|[H2|[H2|[]]]]]]; injection H2 as <- <-;
    first [reflexivity | vm_compute in A; discriminate A].
Qed.

Lemma exclusive_tail (m : string * Service) (ms : list (string * Service)) :
  exclusive (m :: ms) -> exclusive ms.
Proof.
  intros E p1 s1 p2 s2 u u1 u2 H1 H2. apply E; right; assumption.
Qed.

(** Mounts whose routers leave the request alone pass it on. *)
Lemma first_mount_unhandled (ms : list (string * Service)) (req : Request) :
  (forall prefix s url,
     In (prefix, s) ms -> mount_strip prefix (req_url req) = Some url ->
     router_dispatch (routes_of s) (req_method req) url = Unhandled) ->
  first_mount ms req = PassedOn.
Proof.
  induction ms as [|[p0 s0] rest IH]; intros H; [reflexivity|].
  cbn [first_mount]. destruct (mount_strip p0 (req_url req)) as [u0|] eqn:H0.
  - rewrite (H p0 s0 u0 (or_introl eq_refl) H0).
    apply IH. intros prefix s url Hin. apply H. right. exact Hin.
  - apply IH. intros prefix s url Hin. apply H. right. exact Hin.
Qed.

(** Among exclusive mounts, the one whose prefix the URL has decides. *)
Lemma first_mount_at (ms : list (string * Service)) (req : Request)
    (prefix : string) (s : Service) (url : string) :
  exclusive ms ->
  In (prefix, s) ms ->
  mount_strip prefix (req_url req) = Some url ->
  first_mount ms req
  = match router_dispatch (routes_of s) (req_method req) url with
    | Handled => Taken s url
    | Unhandled => PassedOn
    | Raised e => MountRaised e
    end.
Proof.
  induction ms as [|[p0 s0] rest IH]; intros E Hin Hstrip; [destruct Hin|].
  cbn [first_mount]. destruct (mount_strip p0 (req_url req)) as [u0|] eqn:H0.
  - assert ((p0, s0) = (prefix, s)) as Heq.
    { apply (E p0 s0 prefix s (req_url req) u0 url);
        [left; reflexivity|exact Hin|exact H0|exact Hstrip]. }
    injection Heq as -> ->. rewrite Hstrip in H0. injection H0 as <-.
    destruct (router_dispatch (routes_of s) (req_method req) url) eqn:D; try reflexivity.
    apply first_mount_unhandled. intros p' s' u' Hin' Hstrip'.
    assert ((p', s') = (prefix, s)) as Heq.
    { apply (E p' s' prefix s (req_url req) u' url);
        [right; exact Hin'|exact Hin|exact Hstrip'|exact Hstrip]. }
    injection Heq as -> ->. rewrite Hstrip in Hstrip'. injection Hstrip' as <-. exact D.
  - destruct Hin as [Heq|Hin].
    + injection Heq as -> ->. rewrite Hstrip in H0. discriminate.
    + apply IH; [exact (exclusive_tail _ _ E)|assumption..].
Qed.

Lemma first_mount_cases (ms : list (string * Service)) (url : string) :
  (exists prefix s u, In (prefix, s) ms /\ mount_strip prefix url = Some u)
  \/ (forall prefix s, In (prefix, s) ms -> mount_strip prefix url = None).
Proof.
  induction ms as [|[p0 s0] rest [(prefix & s & u & Hin & H)|IH]].
  - right. intros prefix s [].
  - left. exists prefix, s, u. split; [right; exact Hin|exact H].
  - destruct (mount_strip p0 url) as [u0|] eqn:H0.
    + left. exists p0, s0, u0. split; [left; reflexivity|exact H0].
    + right. intros prefix s [Heq|Hin]; [injection Heq as <- <-; exact H0|exact (IH _ _ Hin)].
Qed.

Lemma exclusive_perm (ms ms' : list (string * Service)) :
  Permutation ms ms' -> exclusive ms' -> exclusive ms.
Proof.
  intros P E p1 s1 p2 s2 u u1 u2 H1 H2.
  apply E; eapply Permutation_in; eauto.
Qed.

(** Under a mount prefix the path is not that of the health route. *)
Lemma mounted_is_not_health (s : Service) (method url u : string) :
  mount_strip (mount_prefix s) url = Some u ->
  route_matches ("GET", "/health") method url = false.
Proof.
  intros M. destruct (mount_strip_prefix _ _ _ M) as [r D].
  unfold route_matches. simpl snd. apply andb_false_iff. right.
  assert (exists c0 c1 rest, pathname url = String c0 (String c1 rest)
                             /\ lower_char c1 = "a"%char) as (c0 & c1 & rest & -> & E).
  { assert (exists t, mount_prefix s = String "/" (String "a" t)) as [t Hp]
      by (destruct s; eexists; reflexivity).
    rewrite Hp in D. rewrite drop_prefix_ci_cons in D.
    destruct (pathname url) as [|c0 p']; [discriminate D|].
    destruct (Ascii.eqb (lower_char "/") (lower_char c0)); [|discriminate D].
    rewrite drop_prefix_ci_cons in D.
    destruct p' as [|c1 rest]; [discriminate D|].
    destruct (Ascii.eqb_spec (lower_char "a") (lower_char c1)) as [E|]; [|discriminate D].
    exists c0, c1, rest. split; [reflexivity|]. symmetry. exact E. }
  unfold path_matches, path_segments.
  destruct (Ascii.eqb c0 "/"); [|reflexivity].
  assert (Ascii.eqb c1 "/" = false) as N.
  { destruct (Ascii.eqb_spec c1 "/") as [->|]; [vm_compute in E; discriminate E|reflexivity]. }
  simpl split_on. rewrite N.
  assert (forall x l, segments_match [Lit "health"] (String c1 x :: l) = false) as Hx.
  { intros x l. cbn [segments_match segment_matches lowercase]. rewrite E. reflexivity. }
  change (pattern_segments "/health") with [Lit "health"].
  destruct (split_on "/" rest) as [|x [|y l]]; cbn [trim_last_empty String.eqb]; apply Hx.
Qed.

(** A request under the mount prefix of a service, of a method and a path
    that a route of its router matches, is handed to the handler of that
    service when its path decodes. *)
Lemma routed_when_registered (req : Request) (s : Service) (url : string) :
  mount_strip (mount_prefix s) (req_originalUrl req) = Some url ->
  router_matches (routes_of s) (req_method req) url = true ->
  decodes (pathname (req_originalUrl req)) = true ->
  route (inbound req) = ToService s url.
Proof.
  intros Hstrip Hm D. unfold route.
  change (req_method (inbound req)) with (req_method req).
  change (req_url (inbound req)) with (req_originalUrl req).
  rewrite (mounted_is_not_health s _ _ _ Hstrip).
  rewrite (first_mount_at mounts (inbound req) (mount_prefix s) s url).
  - change (req_method (inbound req)) with (req_method req).
    assert (contains_char "%" (mount_prefix s) = false) as Hp by (destruct s; reflexivity).
    rewrite (router_dispatch_decodes _ _ _ (mount_strip_decodes _ _ _ Hp Hstrip D)), Hm.
    reflexivity.
  - apply mounts_exclusive.
  - destruct s; simpl; auto 6.
  - exact Hstrip.
Qed.

(** X1: a request is handed to the forwarding handler of a service, with
    URL [url], exactly when its URL under the mount prefix of that service
    is [url] and that service's router takes it: a route of the router
    matches the method and the path, and no parameter of a pattern the path
    matches before that route fails to decode.  The health route and the
    other four mounts never take such a request, so the order in which
    [server.js] registers them plays no part. *)
Theorem route_to_service_iff (req : Request) (s : Service) (url : string) :
  route (inbound req) = ToService s url <->
  mount_strip (mount_prefix s) (req_originalUrl req) = Some url
  /\ router_dispatch (routes_of s) (req_method req) url = Handled.
Proof.
  split; [apply route_service|].
  intros [Hstrip Hm]. unfold route.
  change (req_method (inbound req)) with (req_method req).
  change (req_url (inbound req)) with (req_originalUrl req).
  rewrite (mounted_is_not_health s _ _ _ Hstrip).
  rewrite (first_mount_at mounts (inbound req) (mount_prefix s) s url).
  - change (req_method (inbound req)) with (req_method req). rewrite Hm. reflexivity.
  - apply mounts_exclusive.
  - destruct s; simpl; auto 6.
  - exact Hstrip.
Qed.

(** X2: registering the five [app.use(prefix, router)] lines in any other
    order gives the same routing decision for every request. *)
Theorem mount_order_is_irrelevant (ms : list (string * Service)) (req : Request) :
  Permutation ms mounts -> first_mount ms req = first_mount mounts req.
Proof.
  intros P.
  pose proof (exclusive_perm _ _ P mounts_exclusive) as E.
  destruct (first_mount_cases mounts (req_url req)) as [(prefix & s & u & Hin & H)|N].
  - rewrite (first_mount_at mounts req prefix s u mounts_exclusive Hin H).
    apply (first_mount_at ms req prefix s u E); [|exact H].
    eapply Permutation_in; [symmetry; exact P|exact Hin].
  - rewrite (first_mount_unhandled mounts req), (first_mount_unhandled ms req); [reflexivity| |].
    + intros prefix s url Hin H.
      rewrite (N prefix s (Permutation_in _ P Hin)) in H. discriminate.
    + intros prefix s url Hin H. rewrite (N prefix s Hin) in H. discriminate.
Qed.

Lemma mount_order_is_irrelevant_witness :
  Permutation (rev mounts) mounts
  /\ first_mount (rev mounts) (inbound get_task_request)
     = first_mount mounts (inbound get_task_request).
Proof.
  split.
  - symmetry. apply Permutation_rev.
  - apply (mount_order_is_irrelevant (rev mounts) (inbound get_task_request)).
    symmetry. apply Permutation_rev.
Defined.

(** ** The gateway: errors raised in front of the routes *)



(** ** [JSON.stringify] writes JSON *)

Section WritesJSON.

Local Arguments String.append : simpl nomatch.

Lemma parse_number_pretty (n : Z) (rest : string) :
  ends_number rest = true ->
  exists o, parse_number (pretty n +:+ rest) = POk o rest.
Proof.
  intros Hrest.
  destruct (read_tail_stop rest Hrest) as [Hf He].
  destruct n as [|p|p].
  - change (pretty 0%Z +:+ rest) with (String "0" rest).
    unfold parse_number. simpl. rewrite Hf, He. eexists. reflexivity.
  - destruct (parse_number_positive p rest Hrest) as (c & r & E & Hd & Hz & Hread).
    rewrite E. unfold parse_number.
    assert (Hm : Ascii.eqb c "-" = false).
    { destruct (Ascii.eqb_spec c "-") as [->|]; [discriminate Hd|reflexivity]. }
    rewrite Hm, Hd, Hz, Hread, Hf, He. simpl.
    destruct (max_exact_int <? Z.pos p)%Z; eexists; reflexivity.
  - destruct (parse_number_positive p rest Hrest) as (c & r & E & Hd & Hz & Hread).
    change (pretty (Z.neg p) +:+ rest) with (String "-" (pretty (Z.pos p) +:+ rest)).
    rewrite E. unfold parse_number. simpl Ascii.eqb at 1. cbv iota. cbv beta.
    rewrite Hd, Hz, Hread, Hf, He. simpl.
    destruct (max_exact_int <? Z.pos p)%Z; eexists; reflexivity.
Qed.

Lemma parse_escape_any (c : ascii) (t : string) :
  parse_string_body (escape_char c +:+ t) =
    match parse_string_body t with
    | POk w r => POk (cons_char (if is_ascii c then Some c else None) w) r
    | PSyntax => PSyntax
    | PFuel => PFuel
    end.
Proof.
  destruct c as [b0 b1 b2 b3 b4 b5 b6 b7].
  destruct b0, b1, b2, b3, b4, b5, b6, b7; reflexivity.
Qed.

Lemma parse_string_any (s rest : string) :
  exists o, parse_string_body (escape s +:+ String dquote rest) = POk o rest.
Proof.
  induction s as [|c s [o IH]]; simpl; [eexists; reflexivity|].
  rewrite app_assoc_string, parse_escape_any, IH. eexists. reflexivity.
Qed.

Lemma accepted_number (n : Z) : accepted (JNum n).
Proof.
  intros rest Hrest. destruct (parse_number_pretty n rest Hrest) as [o Hnum].
  exists 1%nat, (JNum <$> o). intros [|fuel] Hf; [lia|]. simpl JSON_stringify.
  destruct n as [|p|p].
  - change (pretty 0%Z +:+ rest) with (String "0" rest) in *.
    rewrite parse_value_number by (left; reflexivity). rewrite Hnum. reflexivity.
  - destruct (parse_number_positive p rest Hrest) as (c & r & E & Hd & _).
    rewrite E in *. rewrite parse_value_number by (left; exact Hd). rewrite Hnum. reflexivity.
  - change (pretty (Z.neg p) +:+ rest) with (String "-" (pretty (Z.pos p) +:+ rest)) in *.
    rewrite parse_value_number by (right; reflexivity). rewrite Hnum. reflexivity.
Qed.

Lemma accepted_string (s : string) : accepted (JStr s).
Proof.
  intros rest _. destruct (parse_string_any s rest) as [o Hs].
  exists 1%nat, (JStr <$> o). intros [|fuel] Hf; [lia|]. simpl JSON_stringify.
  rewrite quote_app, parse_value_string, Hs. reflexivity.
Qed.

Lemma parse_elements_any (items : list JSValue) :
  items <> [] ->
  Forall accepted items ->
  forall acc rest,
    exists fuel o, forall fuel', (fuel <= fuel')%nat ->
      parse_elements fuel' (join "," (map JSON_stringify items) +:+ String "]" rest) acc
      = POk o rest.
Proof.
  induction items as [|v l IH]; [contradiction|]. intros _ Hall acc rest.
  apply Forall_cons in Hall as [Hv Hl].
  destruct l as [|v' l'].
  - destruct (Hv (String "]" rest) eq_refl) as (fv & o & Hfv).
    exists (S fv). eexists. intros [|fuel] Hf; [lia|].
    rewrite parse_elements_S. simpl map. simpl join. rewrite Hfv by lia. reflexivity.
  - destruct (Hv (String "," (join "," (map JSON_stringify (v' :: l')) +:+ String "]" rest))
                eq_refl) as (fv & o & Hfv).
    destruct (IH ltac:(discriminate) Hl (push_item o acc) rest) as (fl & o' & Hfl).
    exists (S (Nat.max fv fl)), o'. intros [|fuel] Hf; [lia|].
    rewrite parse_elements_S.
    change (map JSON_stringify (v :: v' :: l'))
      with (JSON_stringify v :: JSON_stringify v' :: map JSON_stringify l').
    rewrite join_cons_cons, app_assoc_string.
    change (String "," (join "," (JSON_stringify v' :: map JSON_stringify l')) +:+ String "]" rest)
      with (String "," (join "," (map JSON_stringify (v' :: l')) +:+ String "]" rest)).
    rewrite Hfv by lia. simpl skip_ws. simpl Ascii.eqb. cbv iota.
    rewrite Hfl by lia. reflexivity.
Qed.

Lemma accepted_array (items : list JSValue) :
  Forall accepted items -> accepted (JArr items).
Proof.
  intros Hall rest _. destruct items as [|v l].
  - exists 1%nat. eexists. intros [|fuel] Hf; [lia|]. reflexivity.
  - destruct (parse_elements_any (v :: l) ltac:(discriminate) Hall (Some []) rest)
      as (fe & o & Hfe).
    exists (S fe), o. intros [|fuel] Hf; [lia|].
    rewrite stringify_array, parse_value_array.
    destruct (stringify_head v) as (c & t & Hc & Hw & Hb).
    assert (Hhead : exists t',
               join "," (map JSON_stringify (v :: l)) +:+ String "]" rest = String c t').
    { destruct l as [|v' l'].
      - simpl map. simpl join. rewrite Hc. eexists. reflexivity.
      - change (map JSON_stringify (v :: v' :: l'))
          with (JSON_stringify v :: JSON_stringify v' :: map JSON_stringify l').
        rewrite join_cons_cons, Hc. eexists. reflexivity. }
    destruct Hhead as [t' Ht']. rewrite Ht'. simpl skip_ws. rewrite Hw, Hb. rewrite <- Ht'.
    rewrite Hfe by lia. reflexivity.
Qed.

(** One property read by [parse_members], whatever was read before. *)
Lemma parse_member_any (k : string) (v : JSValue) (X : string)
    (o : option JSValue) (acc : option (list (string * JSValue))) :
  exists acc', forall fuel,
    parse_value fuel (JSON_stringify v +:+ X) = POk o X ->
    parse_members (S fuel) (member (k, v) +:+ X) acc =
      match skip_ws X with
      | String d r =>
          if Ascii.eqb d "," then parse_members fuel r acc'
          else if Ascii.eqb d "}" then POk (JObj <$> acc') r
          else PSyntax
      | EmptyString => PSyntax
      end.
Proof.
  destruct (parse_string_any k (String ":" (JSON_stringify v +:+ X))) as [ok Hk].
  exists (put_member ok o acc). intros fuel Hv.
  rewrite member_app, parse_members_S.
  change (skip_ws (String dquote ?t)) with (String dquote t).
  change (Ascii.eqb dquote dquote) with true. cbv iota.
  rewrite Hk.
  change (skip_ws (String ":" ?t)) with (String ":" t).
  change (Ascii.eqb ":" ":") with true. cbv iota.
  rewrite Hv. reflexivity.
Qed.

Lemma parse_members_any (props : list (string * JSValue)) :
  props <> [] ->
  Forall (fun p => accepted (snd p)) props ->
  forall acc rest,
    exists fuel o, forall fuel', (fuel <= fuel')%nat ->
      parse_members fuel' (join "," (map member props) +:+ String "}" rest) acc
      = POk o rest.
Proof.
  induction props as [|[k v] l IH]; [contradiction|]. intros _ Hall acc rest.
  apply Forall_cons in Hall as [Hv Hl]. simpl in Hv.
  destruct l as [|[k' v'] l'].
  - destruct (Hv (String "}" rest) eq_refl) as (fv & o & Hfv).
    destruct (parse_member_any k v (String "}" rest) o acc) as [acc' Hstep].
    exists (S fv), (JObj <$> acc'). intros [|fuel] Hf; [lia|].
    simpl map. simpl join.
    rewrite Hstep by (apply Hfv; lia). reflexivity.
  - destruct (Hv (String "," (join "," (map member ((k', v') :: l')) +:+ String "}" rest))
                eq_refl) as (fv & o & Hfv).
    destruct (parse_member_any k v
                (String "," (join "," (map member ((k', v') :: l')) +:+ String "}" rest))
                o acc) as [acc' Hstep].
    destruct (IH ltac:(discriminate) Hl acc' rest) as (fl & o' & Hfl).
    exists (S (Nat.max fv fl)), o'. intros [|fuel] Hf; [lia|].
    change (map member ((k, v) :: (k', v') :: l'))
      with (member (k, v) :: member (k', v') :: map member l').
    rewrite join_cons_cons, app_assoc_string.
    change (String "," (join "," (member (k', v') :: map member l')) +:+ String "}" rest)
      with (String "," (join "," (map member ((k', v') :: l')) +:+ String "}" rest)).
    rewrite Hstep by (apply Hfv; lia).
    simpl skip_ws. simpl Ascii.eqb. cbv iota.
    rewrite Hfl by lia. reflexivity.
Qed.

Lemma accepted_object (props : list (string * JSValue)) :
  Forall (fun p => accepted (snd p)) props -> accepted (JObj props).
Proof.
  intros Hall rest _. rewrite stringify_object. destruct props as [|[k v] l].
  - exists 1%nat. eexists. intros [|fuel] Hf; [lia|]. reflexivity.
  - destruct (parse_members_any ((k, v) :: l) ltac:(discriminate) Hall (Some []) rest)
      as (fm & o & Hfm).
    exists (S fm), o. intros [|fuel] Hf; [lia|].
    rewrite parse_value_object.
    assert (Hhead : exists t',
               join "," (map member ((k, v) :: l)) +:+ String "}" rest = String dquote t').
    { destruct l as [|p l'].
      - simpl map. simpl join. rewrite member_app. eexists. reflexivity.
      - change (map member ((k, v) :: p :: l'))
          with (member (k, v) :: member p :: map member l').
        rewrite join_cons_cons, member_app. eexists. reflexivity. }
    destruct Hhead as [t' Ht']. rewrite Ht'.
    change (skip_ws (String dquote t')) with (String dquote t').
    change (Ascii.eqb dquote "}") with false. cbv iota. rewrite <- Ht'.
    rewrite Hfm by lia. reflexivity.
Qed.

(** The reader accepts the serialisation of every value. *)
Lemma all_accepted (v : JSValue) : accepted v.
Proof.
  induction v as [|b|n|s|items IH|props IH] using JSValue_nested_ind.
  - intros rest _. exists 1%nat. eexists. intros [|fuel] Hf; [lia|]. reflexivity.
  - intros rest _. exists 1%nat. eexists. intros [|fuel] Hf; [lia|]. destruct b; reflexivity.
  - apply accepted_number.
  - apply accepted_string.
  - apply accepted_array, IH.
  - apply accepted_object, IH.
Qed.

(** [JSON.parse] never reports a syntax error on what [JSON.stringify]
    wrote. *)
Lemma JSON_stringify_is_JSON (v : JSValue) : JSON_parse (JSON_stringify v) <> SyntaxError.
Proof.
  destruct (all_accepted v "" eq_refl) as (fuel & o & Hfuel).
  rewrite append_empty in Hfuel. unfold JSON_parse.
  pose proof (parse_value_budget (JSON_stringify v)) as Hb.
  set (text := JSON_stringify v) in *.
  rewrite <- (parse_value_more_fuel (parse_budget text) (Nat.max fuel (parse_budget text)) text)
    by (try lia; exact Hb).
  rewrite Hfuel by lia. simpl. destruct o; discriminate.
Qed.

End WritesJSON.

(** ** The health-check script in front of the health handlers *)

Lemma checkService_accepts_json (probe : HealthScript.Probe) (sv : HealthScript.ServiceEntry)
    (v : JSValue) :
  probe (HealthScript.options_of sv) = HealthScript.Ended (JSON_stringify v) ->
  HealthScript.is_healthy (HealthScript.checkService probe sv) = true.
Proof.
  intros H. unfold HealthScript.checkService. rewrite H.
  pose proof (JSON_stringify_is_JSON v) as J.
  destruct (JSON_parse (JSON_stringify v)); [reflexivity..|contradiction].
Qed.

(** X4: the script reports the gateway healthy whenever its request
    ([GET /health]) passes the gateway's middleware, whatever the five
    backends do and whatever the base URLs are: the gateway's health answer
    is a JSON text in every case, and the script looks at nothing else. *)
Theorem script_reports_gateway_healthy (boot env : Env) (now : string) (net : Network)
    (guard : Request -> MwResult) (req : Request)
    (probe : HealthScript.Probe) (sv : HealthScript.ServiceEntry) :
  req_method req = "GET" ->
  req_originalUrl req = "/health" ->
  middleware guard (inbound req) = MwNext ->
  probe (HealthScript.options_of sv) = served "GET" (app boot env now net guard req) ->
  HealthScript.checkService probe sv
  = HealthScript.healthy (HealthScript.name sv) (HealthScript.port sv)
      (JSON_parse (JSON_stringify (health_body env now)))
  /\ HealthScript.is_healthy (HealthScript.checkService probe sv) = true.
Proof.
  intros Hm Hu Hmw Hp.
  assert (reaches guard req ToHealth) as R.
  { split; [exact Hmw|]. unfold route.
    change (req_method (inbound req)) with (req_method req).
    change (req_url (inbound req)) with (req_originalUrl req).
    rewrite Hm, Hu. reflexivity. }
  rewrite (app_health boot env now net guard req R) in Hp.
  change (served "GET" _) with (HealthScript.Ended (JSON_stringify (health_body env now))) in Hp.
  split; [|exact (checkService_accepts_json probe sv _ Hp)].
  unfold HealthScript.checkService. rewrite Hp.
  pose proof (JSON_stringify_is_JSON (health_body env now)) as J.
  destruct (JSON_parse (JSON_stringify (health_body env now))); [reflexivity..|contradiction].
Qed.

Lemma script_reports_gateway_healthy_witness :
  HealthScript.is_healthy
    (HealthScript.checkService
       (fun _ => served "GET" (app ∅ ∅ "2024-01-01T00:00:00.000Z" net_down pass health_request))
       {| HealthScript.name := "API Gateway"; HealthScript.port := 3000;
          HealthScript.path := "/health" |}) = true.
Proof.
  apply (script_reports_gateway_healthy ∅ ∅ "2024-01-01T00:00:00.000Z" net_down pass
           health_request); reflexivity.
Defined.

(** X5: each backend's health handler answers 200 with status "OK" in
    every state of its database connection (connected or not, query failed
    or not), and the script, given that answer, reports the service
    healthy. *)
Theorem script_reports_backend_healthy (h : Backends.BackendHealth) (now : string)
    (probe : HealthScript.Probe) (sv : HealthScript.ServiceEntry) :
  probe (HealthScript.options_of sv) = served "GET" (Backends.backend_health h now []) ->
  (exists rest,
     responses (snd (Backends.backend_health h now []))
     = [(200, JsonBody (JObj (("status", JStr "OK") :: rest)))])
  /\ HealthScript.is_healthy (HealthScript.checkService probe sv) = true.
Proof.
  intros Hp. split.
  - destruct h; eexists; reflexivity.
  - destruct h; exact (checkService_accepts_json probe sv _ Hp).
Qed.

Lemma script_reports_backend_healthy_witness :
  HealthScript.is_healthy
    (HealthScript.checkService
       (fun _ => served "GET" (Backends.backend_health (Backends.AuthHealth 0)
                                 "2024-01-01T00:00:00.000Z" []))
       {| HealthScript.name := "Auth Service"; HealthScript.port := 3001;
          HealthScript.path := "/health" |}) = true.
Proof.
  apply (script_reports_backend_healthy (Backends.AuthHealth 0) "2024-01-01T00:00:00.000Z").
  reflexivity.
Defined.

(** ** The authentication service: who passes [authenticateToken] *)

(** X6: [authenticateToken] calls [next()] exactly when the [Authorization]
    header has a non-empty second word (words being separated by single
    spaces), [jwt.verify] accepts that word under the secret, and the user
    store has an active user under the [userId] of the payload; it has then
    made these two calls and no other. *)
Theorem authenticateToken_passes_iff (env : Env) (w : AuthService.World) (req : Request)
    (calls : list AuthService.Call) (user : AuthService.User) :
  AuthService.authenticateToken env w req = (calls, AuthService.Next user)
  <->
  exists h token payload id,
    req_headers req !! "authorization" = Some h
    /\ split_on " " h !! 1%nat = Some token
    /\ token <> ""
    /\ AuthService.jwt_verify w token (AuthService.JWT_SECRET env) = AuthService.Decoded payload
    /\ AuthService.userId_of payload = inl id
    /\ AuthService.User_findById w id = AuthService.Found user
    /\ AuthService.isActive user = true
    /\ calls = [AuthService.JwtVerify token (AuthService.JWT_SECRET env);
                AuthService.FindById id].
Proof.
  unfold AuthService.authenticateToken, AuthService.token_of, AuthService.caught. split.
  - destruct (req_headers req !! "authorization") as [h|]; [|discriminate].
    destruct (String.eqb_spec h "") as [->|Hh]; [discriminate|].
    destruct (split_on " " h !! 1%nat) as [token|] eqn:Ht; [|discriminate].
    destruct (String.eqb_spec token "") as [->|Hne]; [discriminate|].
    destruct (AuthService.jwt_verify w token (AuthService.JWT_SECRET env))
      as [payload|e] eqn:Hv; [|destruct (String.eqb _ _); discriminate].
    destruct (AuthService.userId_of payload) as [id|e] eqn:Hid;
      [|destruct (String.eqb _ _); discriminate].
    destruct (AuthService.User_findById w id) as [u| |e] eqn:Hf;
      [|discriminate|destruct (String.eqb _ _); discriminate].
    destruct (AuthService.isActive u) eqn:Ha; [|discriminate].
    intros H. injection H as <- <-. exists h, token, payload, id. auto 10.
  - intros (h & token & payload & id & Hh & Ht & Hne & Hv & Hid & Hf & Ha & ->).
    rewrite Hh.
    destruct (String.eqb_spec h "") as [->|_]; [discriminate Ht|].
    rewrite Ht. destruct (String.eqb_spec token "") as [->|_]; [contradiction|].
    rewrite Hv, Hid, Hf, Ha. reflexivity.
Qed.

(** X7: only the second word of the [Authorization] header counts: the
    scheme in front of it may be any word (or none), and whatever follows
    the token after a space is ignored. *)
Theorem authenticateToken_ignores_scheme (env : Env) (w : AuthService.World) (req : Request)
    (scheme token extra : string) :
  contains_char " " scheme = false ->
  contains_char " " token = false ->
  AuthService.authenticateToken env w
    (with_header req "authorization" (scheme +:+ " " +:+ token +:+ " " +:+ extra))
  = AuthService.authenticateToken env w
      (with_header req "authorization" ("Bearer " +:+ token))
  /\ AuthService.authenticateToken env w
       (with_header req "authorization" (scheme +:+ " " +:+ token))
     = AuthService.authenticateToken env w
         (with_header req "authorization" ("Bearer " +:+ token)).
Proof.
  intros Hs Ht.
  assert (forall a b, exists c r, a +:+ String " " b = String c r) as Hcons.
  { intros [|c a] b; simpl; eauto. }
  assert (forall sch tail,
             contains_char " " sch = false ->
             (tail = "" \/ exists e, tail = String " " e) ->
             AuthService.token_of (Some (sch +:+ String " " (token +:+ tail))) = Some token) as Htok.
  { intros sch tail Hsch Htail. unfold AuthService.token_of.
    destruct (Hcons sch (token +:+ tail)) as (c & r & E). rewrite E at 1. simpl String.eqb.
    rewrite (split_on_app " " sch _ Hsch).
    destruct Htail as [->|[e ->]].
    - rewrite append_empty, (split_on_no_sep " " token Ht). reflexivity.
    - rewrite (split_on_app " " token e Ht). reflexivity. }
  unfold AuthService.authenticateToken, with_header. simpl req_headers.
  rewrite !lookup_insert_eq.
  change (scheme +:+ " " +:+ token +:+ " " +:+ extra)
    with (scheme +:+ String " " (token +:+ String " " extra)).
  change (scheme +:+ " " +:+ token) with (scheme +:+ String " " token).
  change ("Bearer " +:+ token) with ("Bearer" +:+ String " " token).
  rewrite (Htok scheme (String " " extra) Hs (or_intror (ex_intro _ extra eq_refl))).
  pose proof (Htok scheme "" Hs (or_introl eq_refl)) as H1. rewrite append_empty in H1.
  pose proof (Htok "Bearer" "" eq_refl (or_introl eq_refl)) as H2. rewrite append_empty in H2.
  rewrite H1, H2. split; reflexivity.
Qed.

Lemma authenticateToken_ignores_scheme_witness :
  AuthService.authenticateToken ∅ sample_world
    (with_header profile_request "authorization" "Basic t0k3n and more")
  = AuthService.authenticateToken ∅ sample_world
      (with_header profile_request "authorization" "Bearer t0k3n").
Proof.
  apply (authenticateToken_ignores_scheme ∅ sample_world profile_request
           "Basic" "t0k3n" "and more"); reflexivity.
Defined.

(** X8: [authenticateToken] answers every request it does not pass on with
    401 or 403, never with a 5xx status: in particular a failure of the
    user store is reported as 403 "Invalid token" (as 401 "Token expired"
    when the error is named [TokenExpiredError]). *)
Theorem authenticateToken_answers_401_or_403 (env : Env) (w : AuthService.World)
    (req : Request) :
  match snd (AuthService.authenticateToken env w req) with
  | AuthService.Next _ => True
  | AuthService.Answer status body =>
      (status = 401 \/ status = 403) /\ exists text, body = JObj [("error", JStr text)]
  end
  /\ forall token payload id error,
       AuthService.token_of (req_headers req !! "authorization") = Some token ->
       token <> "" ->
       AuthService.jwt_verify w token (AuthService.JWT_SECRET env)
       = AuthService.Decoded payload ->
       AuthService.userId_of payload = inl id ->
       AuthService.User_findById w id = AuthService.LookupError error ->
       snd (AuthService.authenticateToken env w req)
       = if String.eqb (AuthService.name error) "TokenExpiredError"
         then AuthService.Answer 401 (JObj [("error", JStr "Token expired")])
         else AuthService.Answer 403 (JObj [("error", JStr "Invalid token")]).
Proof.
  unfold AuthService.authenticateToken, AuthService.caught. split.
  - destruct (AuthService.token_of _) as [token|]; [|simpl; eauto].
    destruct (String.eqb token ""); [simpl; eauto|].
    destruct (AuthService.jwt_verify _ _ _) as [payload|e];
      [|destruct (String.eqb _ _); simpl; eauto].
    destruct (AuthService.userId_of payload) as [id|e];
      [|destruct (String.eqb _ _); simpl; eauto].
    destruct (AuthService.User_findById w id) as [u| |e];
      [destruct (AuthService.isActive u)|..]; try destruct (String.eqb _ _); simpl; eauto.
  - intros token payload id error Ht Hne Hv Hid Hf. rewrite Ht.
    destruct (String.eqb_spec token "") as [->|_]; [contradiction|].
    rewrite Hv, Hid, Hf. reflexivity.
Qed.

(** X9: the gateway is transparent to the token check: for a request the
    gateway forwards to the authentication service, [authenticateToken]
    applied to a request that carries the [Authorization] header of the
    outbound call gives the verdict it gives on the inbound request. *)
Theorem forwarded_request_gets_same_verdict (boot env : Env) (now : string) (net : Network)
    (guard : Request -> MwResult) (req : Request) (url : string)
    (secrets : Env) (w : AuthService.World) (received : Request) :
  reaches guard req (ToService Auth url) ->
  req_headers received !! "authorization"
  = mjoin (cfg_headers (outbound_config boot Auth req url) !! "authorization") ->
  outbound_calls (snd (app boot env now net guard req)) = [outbound_config boot Auth req url]
  /\ AuthService.authenticateToken secrets w received
     = AuthService.authenticateToken secrets w req.
Proof.
  intros Hreach Hrecv. split; [exact (app_routed_calls _ _ _ _ _ _ _ _ Hreach)|].
  unfold AuthService.authenticateToken. rewrite Hrecv.
  unfold outbound_config, forward_config. simpl cfg_headers.
  rewrite !lookup_insert_ne by discriminate.
  rewrite lookup_fmap. simpl req_headers.
  destruct (req_headers req !! "authorization"); reflexivity.
Qed.

Lemma forwarded_request_gets_same_verdict_witness :
  AuthService.authenticateToken ∅ sample_world profile_request
  = AuthService.authenticateToken ∅ sample_world gateway_profile_request.
Proof.
  apply (forwarded_request_gets_same_verdict ∅ ∅ "2024-01-01T00:00:00.000Z" net_ok pass
           gateway_profile_request "/profile" ∅ sample_world profile_request).
  - split; reflexivity.
  - reflexivity.
Defined.

(** ** The admin service *)

Lemma admin_guard_pass (req : Request) (h : string) :
  req_headers req !! "authorization" = Some h -> h <> "" ->
  AdminService.guard req
  = AdminService.Pass {| AdminService.userId := "demo-admin-id";
                         AdminService.userRole := "admin" |}.
Proof.
  unfold AdminService.guard, AdminService.authenticateAdmin.
  intros -> Hne. destruct (String.eqb_spec h "") as [->|_]; [contradiction|reflexivity].
Qed.

(** X10: the two middlewares in front of every admin route check only that
    an [Authorization] header is there: whatever its value, provided it is
    not empty, the request goes on as user "demo-admin-id" with role
    "admin"; without one it is answered 401; and [isAdmin] never answers
    403 behind [authenticateAdmin]. *)
Theorem admin_guard_checks_presence_only (req : Request) :
  (forall h, req_headers req !! "authorization" = Some h -> h <> "" ->
     AdminService.guard req
     = AdminService.Pass {| AdminService.userId := "demo-admin-id";
                            AdminService.userRole := "admin" |})
  /\ (forall status body, AdminService.guard req = AdminService.Reject status body ->
        status = 401
        /\ body = JObj [("error", JStr "Authorization header required")]
        /\ (req_headers req !! "authorization" = None
            \/ req_headers req !! "authorization" = Some "")).
Proof.
  split; [apply admin_guard_pass|].
  unfold AdminService.guard, AdminService.authenticateAdmin.
  - intros status body.
    destruct (req_headers req !! "authorization") as [h|]; [|intros H; injection H as <- <-; auto].
    destruct (String.eqb_spec h "") as [->|_].
    + intros H; injection H as <- <-; auto.
    + unfold AdminService.isAdmin. simpl. discriminate.
Qed.

(** X11: [DELETE /users/:id] never deactivates an administrator's account,
    unless the id in the path is the text "demo-admin-id": the request is
    answered 403 after the one query that looked the account up. *)
Theorem delete_admin_is_refused (req : Request) (db : AdminService.Db) (id : string)
    (row : AdminService.Row) (rows : list AdminService.Row) :
  id <> "demo-admin-id" ->
  db 0%nat "SELECT id, role FROM users WHERE id = $1" [JStr id] = AdminService.Rows (row :: rows) ->
  AdminService.lookup_key "role" row = Some (JStr "admin") ->
  existsb deactivates (AdminService.delete_user_route req db id) = false
  /\ (forall h, req_headers req !! "authorization" = Some h -> h <> "" ->
        AdminService.delete_user_route req db id
        = [AdminService.Queried "SELECT id, role FROM users WHERE id = $1" [JStr id];
           AdminService.Responded 403 (JObj [("error", JStr "Cannot delete other admin users")])]).
Proof.
  intros Hid Hdb Hrole.
  assert (forall who, AdminService.userId who = "demo-admin-id" ->
            AdminService.delete_user who db id
            = [AdminService.Queried "SELECT id, role FROM users WHERE id = $1" [JStr id];
               AdminService.Responded 403
                 (JObj [("error", JStr "Cannot delete other admin users")])]) as Hdel.
  { intros who Hwho. unfold AdminService.delete_user. rewrite Hdb, Hrole, Hwho.
    destruct (String.eqb_spec "demo-admin-id" id) as [E|_]; [congruence|reflexivity]. }
  unfold AdminService.delete_user_route. split.
  - destruct (AdminService.guard req) as [who|status body] eqn:G; [|reflexivity].
    assert (AdminService.userId who = "demo-admin-id") as Hwho.
    { revert G. unfold AdminService.guard, AdminService.authenticateAdmin.
      destruct (req_headers req !! "authorization") as [h|]; [|discriminate].
      destruct (String.eqb h ""); [discriminate|].
      unfold AdminService.isAdmin. simpl. intros G. injection G as <-. reflexivity. }
    rewrite (Hdel who Hwho). reflexivity.
  - intros h Hh Hne. rewrite (admin_guard_pass req h Hh Hne). apply Hdel. reflexivity.
Qed.

Lemma delete_admin_is_refused_witness :
  AdminService.delete_user_route admin_request db_of_admins "42"
  = [AdminService.Queried "SELECT id, role FROM users WHERE id = $1" [JStr "42"];
     AdminService.Responded 403 (JObj [("error", JStr "Cannot delete other admin users")])].
Proof.
  destruct (delete_admin_is_refused admin_request db_of_admins "42"
              [("id", JStr "42"); ("role", JStr "admin")] []) as [_ H].
  - discriminate.
  - reflexivity.
  - reflexivity.
  - apply (H "anything"); [reflexivity|discriminate].
Defined.

Lemma lookup_key_in (data : AdminService.Row) (k : string) (v : JSValue) :
  NoDup (map fst data) -> In (k, v) data -> AdminService.lookup_key k data = Some v.
Proof.
  unfold AdminService.lookup_key.
  induction data as [|[k' v'] data IH]; intros Hnd Hin; [destruct Hin|].
  apply NoDup_cons in Hnd as [Hk' Hnd]. simpl.
  destruct Hin as [E|Hin].
  - injection E as -> ->. rewrite String.eqb_refl. reflexivity.
  - destruct (String.eqb_spec k' k) as [->|_].
    + exfalso. apply Hk'. apply list_elem_of_In, in_map_iff. exists (k, v). auto.
    + apply IH; assumption.
Qed.

(** The loop over the keys, in closed form. *)
Lemma fold_add_field (data : AdminService.Row) (l : AdminService.Row) :
  (forall k v, In (k, v) l -> AdminService.lookup_key k data = Some v) ->
  forall fields params i,
    fold_left (AdminService.add_field data) (map fst l) (fields, params, i)
    = ((fields ++ assignments i (map fst l))%list,
       (params ++ map snd l)%list,
       i + Z.of_nat (length l)).
Proof.
  induction l as [|[k v] l IH]; intros Hl fields params i.
  - simpl. rewrite !app_nil_r, Z.add_0_r. reflexivity.
  - cbn [fold_left map fst].
    assert (AdminService.add_field data (fields, params, i) k
            = ((fields ++ [k +:+ " = $" +:+ pretty i])%list, (params ++ [v])%list, i + 1)) as ->.
    { unfold AdminService.add_field. rewrite (Hl k v) by (left; reflexivity). reflexivity. }
    rewrite IH by (intros k' v' Hin; apply Hl; right; exact Hin).
    simpl. rewrite <- !app_assoc. simpl. f_equal. lia.
Qed.

(** X12: the update statement of [PUT /users/:id]: for a body with the
    properties [k1: v1, ..., kn: vn] (n > 0) on an existing user, the
    statement sets [k1 = $1, ..., kn = $n, updated_at = CURRENT_TIMESTAMP]
    where [id = $(n+1)], and its parameters are [v1, ..., vn] and the id:
    the values travel as parameters, the names of the properties are
    copied into the text of the statement as they are.  With an empty body
    the answer is 400 and no update is made. *)
Theorem put_user_statement (db : AdminService.Db) (id : string) (updateData : AdminService.Row)
    (row : AdminService.Row) (rows : list AdminService.Row) :
  NoDup (map fst updateData) ->
  db 0%nat "SELECT id FROM users WHERE id = $1" [JStr id] = AdminService.Rows (row :: rows) ->
  match updateData with
  | [] =>
      AdminService.put_user [] db id updateData
      = [AdminService.Queried "SELECT id FROM users WHERE id = $1" [JStr id];
         AdminService.Responded 400 (JObj [("error", JStr "No fields to update")])]
  | _ :: _ =>
      exists rest,
        AdminService.put_user [] db id updateData
        = AdminService.Queried "SELECT id FROM users WHERE id = $1" [JStr id]
          :: AdminService.Queried
               (AdminService.update_query
                  (assignments 1 (map fst updateData) ++ ["updated_at = CURRENT_TIMESTAMP"])
                  (Z.of_nat (length updateData) + 1))
               (map snd updateData ++ [JStr id])
          :: rest
  end.
Proof.
  intros Hnd Hdb. unfold AdminService.put_user. rewrite Hdb.
  rewrite (fold_add_field updateData updateData (fun k v => lookup_key_in updateData k v Hnd)).
  destruct updateData as [|[k v] data]; [reflexivity|].
  rewrite !app_nil_l.
  replace (1 + Z.of_nat (length ((k, v) :: data))) with (Z.of_nat (length ((k, v) :: data)) + 1)
    by lia.
  cbn [assignments map fst].
  destruct (db 1%nat _ _); eexists; reflexivity.
Qed.

Lemma put_user_statement_witness :
  exists rest,
    AdminService.put_user [] db_of_admins "42"
      [("role", JStr "manager"); ("department = 'x', is_active", JBool true)]
    = AdminService.Queried "SELECT id FROM users WHERE id = $1" [JStr "42"]
      :: AdminService.Queried
           (AdminService.update_query
              ["role = $1"; "department = 'x', is_active = $2";
               "updated_at = CURRENT_TIMESTAMP"] 3)
           [JStr "manager"; JBool true; JStr "42"]
      :: rest.
Proof.
  apply (put_user_statement db_of_admins "42"
           [("role", JStr "manager"); ("department = 'x', is_active", JBool true)]
           [("id", JStr "42"); ("role", JStr "admin")] []).
  - refine (bool_decide_unpack _ _). vm_compute. exact I.
  - reflexivity.
Defined.

(** ** The task service: who may delete a task *)

Lemma hex_digit_not_m (c : ascii) : hex_digit (N_of_ascii c / 16) <> "m"%char.
Proof.
  destruct c as [b0 b1 b2 b3 b4 b5 b6 b7].
  destruct b0, b1, b2, b3, b4, b5, b6, b7; vm_compute; discriminate.
Qed.

(** No [ObjectId] prints as the identity [authenticateUser] gives. *)
Lemma toString_not_demo (id : TaskService.ObjectId) :
  String.eqb (TaskService.toString id) "demo-user-id" = false.
Proof.
  apply String.eqb_neq. destruct id as [|c0 [|c1 rest]]; [discriminate|discriminate|].
  intros H. cbn [TaskService.toString TaskService.hex_byte] in H.
  injection H as _ _ H _. exact (hex_digit_not_m c1 H).
Qed.

(** X13: [DELETE /:id] of the task service never archives a task: the
    identity [authenticateUser] gives every caller is a text that no
    [ObjectId] prints as, so the comparison with the reporter of the task
    fails and every request for an existing task is answered 403. *)
Theorem delete_task_never_archives (req : Request) (store : TaskService.Store)
    (now id : string) :
  existsb is_saved (TaskService.delete_task_route req store now id) = false
  /\ (forall h task,
        req_headers req !! "authorization" = Some h -> h <> "" ->
        TaskService.Task_findById store id = TaskService.FoundTask task ->
        TaskService.delete_task_route req store now id
        = [TaskService.Responded 403
             (JObj [("error", JStr "Not authorized to delete this task")])]).
Proof.
  unfold TaskService.delete_task_route, TaskService.authenticateUser. split.
  - destruct (req_headers req !! "authorization") as [h|]; [|reflexivity].
    destruct (String.eqb h ""); [reflexivity|].
    unfold TaskService.delete_task.
    destruct (TaskService.Task_findById store id) as [task| |m]; [|reflexivity..].
    rewrite toString_not_demo. reflexivity.
  - intros h task -> Hne Hfind.
    destruct (String.eqb_spec h "") as [->|_]; [contradiction|].
    unfold TaskService.delete_task. rewrite Hfind, toString_not_demo. reflexivity.
Qed.

(** ** Mongoose: the cast of an id *)

Lemma hex_byte_reads_back (c : ascii) :
  hex_val (hex_digit (N_of_ascii c / 16)) = Some (N_of_ascii c / 16)%N
  /\ hex_val (hex_digit (N_of_ascii c mod 16)) = Some (N_of_ascii c mod 16)%N
  /\ ascii_of_N (16 * (N_of_ascii c / 16) + N_of_ascii c mod 16) = c.
Proof. destruct c as [[] [] [] [] [] [] [] []]; vm_compute; repeat split; reflexivity. Qed.

(** The digits [toString()] writes are read back as the id. *)
Lemma from_hex_toString (id : TaskService.ObjectId) :
  Mongoose.from_hex (TaskService.toString id) = Some id.
Proof.
  induction id as [|c id IH]; [reflexivity|].
  cbn [TaskService.toString]. unfold TaskService.hex_byte. cbv zeta.
  change (String ?a (String ?b "") +:+ ?r) with (String a (String b r)).
  cbn [Mongoose.from_hex]. destruct (hex_byte_reads_back c) as (-> & -> & ->).
  rewrite IH. reflexivity.
Qed.

Lemma length_toString (id : TaskService.ObjectId) :
  String.length (TaskService.toString id) = (2 * String.length id)%nat.
Proof.
  induction id as [|c id IH]; [reflexivity|].
  cbn [TaskService.toString]. unfold TaskService.hex_byte. cbv zeta.
  change (String ?a (String ?b "") +:+ ?r) with (String a (String b r)).
  cbn [String.length]. rewrite IH. lia.
Qed.

(** An [ObjectId], and the text [toString()] gives for an [ObjectId] of 12
    bytes, cast to that [ObjectId]. *)
Lemma cast_canonical (cast_other : string -> option TaskService.ObjectId)
    (userId : Mongoose.Id) (id : TaskService.ObjectId) :
  userId = Mongoose.AnObjectId id
  \/ (userId = Mongoose.AText (TaskService.toString id) /\ String.length id = 12%nat) ->
  Mongoose.cast cast_other userId = Some id
  /\ TaskService.toString id = Mongoose.text_of userId.
Proof.
  intros [->|[-> Hlen]]; [split; reflexivity|]. split; [|reflexivity].
  unfold Mongoose.cast. rewrite length_toString, Hlen, from_hex_toString. reflexivity.
Qed.

(** ** The project model: members *)

Section Members.

Context (cast_other : string -> option TaskService.ObjectId).
Context {R : Type} (save : ProjectModel.Project -> R).

Lemma is_user_same (userId : Mongoose.Id) (m : ProjectModel.Member) :
  ProjectModel.has_user m = true ->
  ProjectModel.is_user userId m = Some (ProjectModel.same_user userId m).
Proof.
  unfold ProjectModel.same_user, ProjectModel.is_user, ProjectModel.has_user.
  destruct (ProjectModel.user m); [reflexivity|discriminate].
Qed.

(** On members that all have a user no callback throws. *)
Lemma find_user_loaded (userId : Mongoose.Id) (l : list ProjectModel.Member) :
  forallb ProjectModel.has_user l = true ->
  ProjectModel.find_user userId l = inr (find (ProjectModel.same_user userId) l).
Proof.
  induction l as [|m l IH]; cbn [forallb ProjectModel.find_user find]; [reflexivity|].
  intros H. apply andb_true_iff in H as [Hm Hl]. rewrite (is_user_same userId m Hm).
  destruct (ProjectModel.same_user userId m); [reflexivity|exact (IH Hl)].
Qed.

Lemma some_user_loaded (userId : Mongoose.Id) (l : list ProjectModel.Member) :
  forallb ProjectModel.has_user l = true ->
  ProjectModel.some_user userId l = inr (existsb (ProjectModel.same_user userId) l).
Proof.
  induction l as [|m l IH]; cbn [forallb ProjectModel.some_user existsb]; [reflexivity|].
  intros H. apply andb_true_iff in H as [Hm Hl]. rewrite (is_user_same userId m Hm).
  destruct (ProjectModel.same_user userId m); [reflexivity|exact (IH Hl)].
Qed.

Lemma without_user_loaded (userId : Mongoose.Id) (l : list ProjectModel.Member) :
  forallb ProjectModel.has_user l = true ->
  ProjectModel.without_user userId l
  = inr (List.filter (fun m => negb (ProjectModel.same_user userId m)) l).
Proof.
  induction l as [|m l IH]; cbn [forallb ProjectModel.without_user List.filter]; [reflexivity|].
  intros H. apply andb_true_iff in H as [Hm Hl]. rewrite (is_user_same userId m Hm), (IH Hl).
  destruct (ProjectModel.same_user userId m); reflexivity.
Qed.

Lemma set_role_loaded (userId : Mongoose.Id) (role : string) (l : list ProjectModel.Member) :
  forallb ProjectModel.has_user l = true ->
  forallb ProjectModel.has_user (ProjectModel.set_role userId role l) = true.
Proof.
  induction l as [|m l IH]; cbn [forallb ProjectModel.set_role]; [reflexivity|].
  intros H. apply andb_true_iff in H as [Hm Hl].
  destruct (ProjectModel.is_user userId m) as [[|]|]; cbn [forallb].
  - rewrite Hl. unfold ProjectModel.has_user in *. simpl. rewrite Hm. reflexivity.
  - rewrite Hm, (IH Hl). reflexivity.
  - rewrite Hm, (IH Hl). reflexivity.
Qed.

Lemma filter_loaded (p : ProjectModel.Member -> bool) (l : list ProjectModel.Member) :
  forallb ProjectModel.has_user l = true ->
  forallb ProjectModel.has_user (List.filter p l) = true.
Proof.
  induction l as [|m l IH]; cbn [forallb List.filter]; [reflexivity|].
  intros H. apply andb_true_iff in H as [Hm Hl].
  destruct (p m); cbn [forallb]; rewrite ?Hm, (IH Hl); reflexivity.
Qed.

Lemma existsb_find (p : ProjectModel.Member -> bool) (l : list ProjectModel.Member) :
  existsb p l = match find p l with Some _ => true | None => false end.
Proof.
  induction l as [|x l IH]; simpl; [reflexivity|]. destruct (p x); [reflexivity|exact IH].
Qed.

Lemma find_app_new (p : ProjectModel.Member -> bool) (l : list ProjectModel.Member)
    (m : ProjectModel.Member) :
  find p (l ++ [m])
  = match find p l with Some x => Some x | None => if p m then Some m else None end.
Proof.
  induction l as [|x l IH]; simpl; [reflexivity|]. destruct (p x); [reflexivity|exact IH].
Qed.

(** Two ids of different texts never name the same member. *)
Lemma same_other (userId other : Mongoose.Id) (m : ProjectModel.Member) :
  Mongoose.text_of other <> Mongoose.text_of userId ->
  ProjectModel.same_user userId m = true -> ProjectModel.same_user other m = false.
Proof.
  unfold ProjectModel.same_user, ProjectModel.is_user. intros Hne.
  destruct (ProjectModel.user m) as [id|]; [|auto].
  intros H. apply String.eqb_eq in H. rewrite H.
  destruct (String.eqb_spec (Mongoose.text_of userId) (Mongoose.text_of other)); congruence.
Qed.

Lemma find_set_role_same (userId : Mongoose.Id) (role : string) (l : list ProjectModel.Member) :
  forallb ProjectModel.has_user l = true ->
  find (ProjectModel.same_user userId) l <> None ->
  exists m, find (ProjectModel.same_user userId) (ProjectModel.set_role userId role l) = Some m
            /\ ProjectModel.role m = role.
Proof.
  induction l as [|m l IH]; cbn [forallb find ProjectModel.set_role]; [contradiction|].
  intros H. apply andb_true_iff in H as [Hm Hl]. rewrite (is_user_same userId m Hm).
  destruct (ProjectModel.same_user userId m) eqn:E; cbn [find].
  - intros _. unfold ProjectModel.same_user, ProjectModel.is_user in *. simpl. rewrite E.
    eexists. split; reflexivity.
  - rewrite E. exact (IH Hl).
Qed.

Lemma find_set_role_other (userId other : Mongoose.Id) (role : string)
    (l : list ProjectModel.Member) :
  Mongoose.text_of other <> Mongoose.text_of userId ->
  forallb ProjectModel.has_user l = true ->
  find (ProjectModel.same_user other) (ProjectModel.set_role userId role l)
  = find (ProjectModel.same_user other) l.
Proof.
  intros Hne. induction l as [|m l IH]; cbn [forallb find ProjectModel.set_role]; [reflexivity|].
  intros H. apply andb_true_iff in H as [Hm Hl]. rewrite (is_user_same userId m Hm).
  destruct (ProjectModel.same_user userId m) eqn:E; cbn [find].
  - rewrite (same_other userId other m Hne E).
    assert (ProjectModel.same_user other
              {| ProjectModel.user := ProjectModel.user m; ProjectModel.role := role;
                 ProjectModel.joinedAt := ProjectModel.joinedAt m |} = false) as ->.
    { apply (same_other userId other); [exact Hne|]. exact E. }
    reflexivity.
  - rewrite (IH Hl). reflexivity.
Qed.

Lemma find_filter_out (userId other : Mongoose.Id) (l : list ProjectModel.Member) :
  find (ProjectModel.same_user other)
    (List.filter (fun m => negb (ProjectModel.same_user userId m)) l)
  = if String.eqb (Mongoose.text_of other) (Mongoose.text_of userId) then None
    else find (ProjectModel.same_user other) l.
Proof.
  induction l as [|m l IH]; cbn [find List.filter];
    [destruct (String.eqb _ _); reflexivity|].
  destruct (ProjectModel.same_user userId m) eqn:E; cbn [negb find]; rewrite IH.
  - destruct (String.eqb_spec (Mongoose.text_of other) (Mongoose.text_of userId)) as [_|N];
      [reflexivity|].
    rewrite (same_other userId other m N E). reflexivity.
  - destruct (String.eqb_spec (Mongoose.text_of other) (Mongoose.text_of userId)) as [Heq|N];
      [|reflexivity].
    assert (ProjectModel.same_user other m = false) as ->; [|reflexivity].
    revert E. unfold ProjectModel.same_user, ProjectModel.is_user. rewrite Heq. auto.
Qed.

Lemma filter_none (userId : Mongoose.Id) (l : list ProjectModel.Member) :
  find (ProjectModel.same_user userId) l = None ->
  List.filter (fun m => negb (ProjectModel.same_user userId m)) l = l.
Proof.
  induction l as [|m l IH]; cbn [find List.filter]; [reflexivity|].
  destruct (ProjectModel.same_user userId m); [discriminate|]. intros F. cbn [negb].
  rewrite (IH F). reflexivity.
Qed.

(** Past members that are not the user, a member without a user makes the
    test throw. *)
Lemma some_user_new_none (userId : Mongoose.Id) (l : list ProjectModel.Member)
    (m : ProjectModel.Member) :
  forallb ProjectModel.has_user l = true ->
  find (ProjectModel.same_user userId) l = None ->
  ProjectModel.user m = None ->
  ProjectModel.some_user userId (l ++ [m]) = inl ProjectModel.TypeError.
Proof.
  intros L F Hm. induction l as [|x l IH]; cbn [List.app ProjectModel.some_user forallb find] in *.
  - unfold ProjectModel.is_user. rewrite Hm. reflexivity.
  - apply andb_true_iff in L as [Hx Hl]. rewrite (is_user_same userId x Hx).
    destruct (ProjectModel.same_user userId x); [discriminate F|]. exact (IH Hl F).
Qed.

(** The member [addMember] pushes for an id that casts to [id]. *)
Lemma same_new (o : Mongoose.Id) (id : TaskService.ObjectId) (role : string) (now : Z) :
  ProjectModel.same_user o {| ProjectModel.user := Some id; ProjectModel.role := role;
            ProjectModel.joinedAt := now |}
  = String.eqb (TaskService.toString id) (Mongoose.text_of o).
Proof. reflexivity. Qed.

(** X14: on a project whose members all have a user, [addMember(userId,
    role)] throws nothing and returns what [save] gives for the project it
    leaves.  When the user was a member, or [userId] is an [ObjectId] or
    the text [toString()] gives for the [ObjectId] it casts to (24
    lower-case hexadecimal digits), the user is a member afterwards and has
    that role ("developer" when none was given), and for every user of
    another text membership and role are what they were.  When [userId] is
    a text that casts to an [ObjectId] of another text (upper-case digits)
    and names no member, the new member is found under the [ObjectId] and
    not under [userId]; when it does not cast at all, the new member has no
    user and the membership test throws from then on. *)
Theorem addMember_then_member (now : Z) (userId : Mongoose.Id) (role : option string)
    (this : ProjectModel.Project) :
  ProjectModel.loaded this = true ->
  let given := match role with Some r => r | None => "developer" end in
  exists after,
    ProjectModel.addMember cast_other save now userId role this = inr (after, save after)
    /\ (ProjectModel.isMember userId this = inr true
        \/ (exists id, Mongoose.cast cast_other userId = Some id
                       /\ TaskService.toString id = Mongoose.text_of userId) ->
        ProjectModel.loaded after = true
        /\ ProjectModel.isMember userId after = inr true
        /\ ProjectModel.hasRole userId given after = inr (Some true)
        /\ forall other r, Mongoose.text_of other <> Mongoose.text_of userId ->
             ProjectModel.isMember other after = ProjectModel.isMember other this
             /\ ProjectModel.hasRole other r after = ProjectModel.hasRole other r this)
    /\ (forall id,
          ProjectModel.isMember userId this = inr false ->
          Mongoose.cast cast_other userId = Some id ->
          TaskService.toString id <> Mongoose.text_of userId ->
          ProjectModel.isMember userId after = inr false
          /\ ProjectModel.isMember (Mongoose.AnObjectId id) after = inr true)
    /\ (ProjectModel.isMember userId this = inr false ->
        Mongoose.cast cast_other userId = None ->
        ProjectModel.isMember userId after = inl ProjectModel.TypeError)
    /\ (forall id,
          userId = Mongoose.AnObjectId id
          \/ (userId = Mongoose.AText (TaskService.toString id)
              /\ String.length id = 12%nat) ->
          Mongoose.cast cast_other userId = Some id
          /\ TaskService.toString id = Mongoose.text_of userId).
Proof.
  intros L given. unfold ProjectModel.loaded in L.
  assert (C := fun id => cast_canonical cast_other userId id).
  unfold ProjectModel.addMember, ProjectModel.isMember, ProjectModel.hasRole,
    ProjectModel.loaded.
  fold given. rewrite (find_user_loaded userId _ L), (some_user_loaded userId _ L).
  rewrite existsb_find.
  destruct (find (ProjectModel.same_user userId) (ProjectModel.members this)) as [m|] eqn:F.
  - eexists. split; [reflexivity|]. cbn [ProjectModel.members].
    pose proof (set_role_loaded userId given _ L) as L'.
    split; [|split; [intros id H; discriminate H|split; [intros H; discriminate H|exact C]]].
    intros _. split; [exact L'|].
    rewrite (find_user_loaded userId _ L'), (some_user_loaded userId _ L'), existsb_find.
    destruct (find_set_role_same userId given _ L) as (m' & Hm' & Hr); [rewrite F; discriminate|].
    rewrite Hm', Hr, String.eqb_refl. split; [reflexivity|]. split; [reflexivity|].
    intros other r Hne.
    rewrite (find_user_loaded other _ L'), (some_user_loaded other _ L'),
      (find_user_loaded other _ L), (some_user_loaded other _ L), !existsb_find,
      (find_set_role_other userId other given _ Hne L).
    split; reflexivity.
  - eexists. split; [reflexivity|]. cbn [ProjectModel.members].
    split; [|split; [|split; [|exact C]]].
    + intros [H|(id & Hc & Ht)]; [discriminate H|]. rewrite Hc.
      assert (L' : forallb ProjectModel.has_user
                     (ProjectModel.members this
                      ++ [{| ProjectModel.user := Some id; ProjectModel.role := given;
                             ProjectModel.joinedAt := now |}]) = true).
      { rewrite forallb_app, L. reflexivity. }
      split; [exact L'|].
      rewrite (find_user_loaded userId _ L'), (some_user_loaded userId _ L'), existsb_find,
        find_app_new, F, same_new, Ht, String.eqb_refl.
      cbn [ProjectModel.role]. rewrite String.eqb_refl.
      split; [reflexivity|]. split; [reflexivity|].
      intros other r Hne.
      rewrite (find_user_loaded other _ L'), (some_user_loaded other _ L'),
        (find_user_loaded other _ L), (some_user_loaded other _ L), !existsb_find,
        find_app_new, same_new, Ht.
      destruct (String.eqb_spec (Mongoose.text_of userId) (Mongoose.text_of other)) as [E|_];
        [congruence|].
      destruct (find (ProjectModel.same_user other) (ProjectModel.members this));
        split; reflexivity.
    + intros id _ Hc Hne. rewrite Hc.
      assert (L' : forallb ProjectModel.has_user
                     (ProjectModel.members this
                      ++ [{| ProjectModel.user := Some id; ProjectModel.role := given;
                             ProjectModel.joinedAt := now |}]) = true).
      { rewrite forallb_app, L. reflexivity. }
      rewrite (some_user_loaded userId _ L'), (some_user_loaded (Mongoose.AnObjectId id) _ L'),
        !existsb_find, !find_app_new, F, !same_new.
      destruct (String.eqb_spec (TaskService.toString id) (Mongoose.text_of userId)) as [E|_];
        [contradiction|].
      cbn [Mongoose.text_of]. rewrite String.eqb_refl.
      split; [reflexivity|].
      destruct (find (ProjectModel.same_user (Mongoose.AnObjectId id))
                  (ProjectModel.members this)); reflexivity.
    + intros _ Hc. rewrite Hc. apply some_user_new_none; [exact L|exact F|reflexivity].
Qed.

(** X15: on a project whose members all have a user, [removeMember(userId)]
    throws nothing and returns what [save] gives for the project it leaves;
    afterwards the user is no member and has no role, whatever role is
    asked for, and for every user of another text membership and role are
    what they were.  Removing a user right after adding them to a project
    they were no member of gives the members back as they were when
    [userId] is an [ObjectId] or the text [toString()] gives for it; when
    it is a text that casts to an [ObjectId] of another text, the member
    added stays. *)
Theorem removeMember_then_no_member (userId : Mongoose.Id) (this : ProjectModel.Project) :
  ProjectModel.loaded this = true ->
  exists after,
    ProjectModel.removeMember save userId this = inr (after, save after)
    /\ ProjectModel.loaded after = true
    /\ ProjectModel.isMember userId after = inr false
    /\ (forall r, ProjectModel.hasRole userId r after = inr None)
    /\ (forall other r, Mongoose.text_of other <> Mongoose.text_of userId ->
          ProjectModel.isMember other after = ProjectModel.isMember other this
          /\ ProjectModel.hasRole other r after = ProjectModel.hasRole other r this)
    /\ (forall now role id,
          ProjectModel.isMember userId this = inr false ->
          Mongoose.cast cast_other userId = Some id ->
          exists added,
            ProjectModel.addMember cast_other save now userId role this
            = inr (added, save added)
            /\ (TaskService.toString id = Mongoose.text_of userId ->
                ProjectModel.removeMember save userId added = inr (this, save this))
            /\ (TaskService.toString id <> Mongoose.text_of userId ->
                ProjectModel.removeMember save userId added = inr (added, save added))).
Proof.
  intros L. unfold ProjectModel.loaded in L.
  unfold ProjectModel.removeMember, ProjectModel.isMember, ProjectModel.hasRole,
    ProjectModel.loaded.
  rewrite (without_user_loaded userId _ L). eexists. split; [reflexivity|].
  cbn [ProjectModel.members].
  pose proof (filter_loaded (fun m => negb (ProjectModel.same_user userId m)) _ L) as L'.
  split; [exact L'|].
  rewrite (some_user_loaded userId _ L'), (find_user_loaded userId _ L'), existsb_find,
    find_filter_out, String.eqb_refl.
  split; [reflexivity|]. split; [reflexivity|]. split.
  - intros other r Hne.
    rewrite (find_user_loaded other _ L'), (some_user_loaded other _ L'),
      (find_user_loaded other _ L), (some_user_loaded other _ L), !existsb_find,
      find_filter_out.
    destruct (String.eqb_spec (Mongoose.text_of other) (Mongoose.text_of userId));
      [contradiction|]. split; reflexivity.
  - intros now role id Hno Hc. unfold ProjectModel.addMember.
    rewrite (some_user_loaded userId _ L), existsb_find in Hno.
    rewrite (find_user_loaded userId _ L).
    destruct (find (ProjectModel.same_user userId) (ProjectModel.members this)) eqn:F;
      [discriminate Hno|].
    rewrite Hc. eexists. split; [reflexivity|]. cbn [ProjectModel.members].
    assert (L2 : forallb ProjectModel.has_user
                   (ProjectModel.members this
                    ++ [{| ProjectModel.user := Some id;
                           ProjectModel.role := match role with
                                                | Some role => role
                                                | None => "developer"
                                                end;
                           ProjectModel.joinedAt := now |}]) = true).
    { rewrite forallb_app, L. reflexivity. }
    rewrite (without_user_loaded userId _ L2), List.filter_app, (filter_none userId _ F).
    cbn [List.filter]. rewrite same_new. split.
    + intros ->. rewrite String.eqb_refl. cbn [negb]. rewrite app_nil_r.
      destruct this; reflexivity.
    + intros Hne. destruct (String.eqb_spec (TaskService.toString id) (Mongoose.text_of userId));
        [contradiction|reflexivity].
Qed.

Lemma map_user_set_role (userId : Mongoose.Id) (role : string) (l : list ProjectModel.Member) :
  map ProjectModel.user (ProjectModel.set_role userId role l) = map ProjectModel.user l.
Proof.
  induction l as [|m l IH]; cbn [map ProjectModel.set_role]; [reflexivity|].
  destruct (ProjectModel.is_user userId m) as [[|]|]; cbn [map]; [reflexivity| |];
    f_equal; exact IH.
Qed.

Lemma find_none_not_in (userId : Mongoose.Id) (id : TaskService.ObjectId)
    (l : list ProjectModel.Member) :
  TaskService.toString id = Mongoose.text_of userId ->
  find (ProjectModel.same_user userId) l = None -> ~ In (Some id) (map ProjectModel.user l).
Proof.
  intros Ht. induction l as [|m l IH]; cbn [find map]; [intros _ []|].
  destruct (ProjectModel.same_user userId m) eqn:E; [discriminate|].
  intros F [H|H]; [|exact (IH F H)].
  revert E. unfold ProjectModel.same_user, ProjectModel.is_user. rewrite H, Ht, String.eqb_refl.
  discriminate.
Qed.

Lemma NoDup_map_filter (p : ProjectModel.Member -> bool) (l : list ProjectModel.Member) :
  List.NoDup (map ProjectModel.user l) ->
  List.NoDup (map ProjectModel.user (List.filter p l)).
Proof.
  induction l as [|m l IH]; simpl; [auto|].
  intros H. inversion H as [|x xs Hx Hxs]; subst.
  destruct (p m); simpl; [|auto]. constructor; [|auto].
  intros Hin. apply Hx. apply in_map_iff in Hin as (y & Hy & Hin).
  apply in_map_iff. exists y. split; [exact Hy|]. apply List.filter_In in Hin. tauto.
Qed.

(** X16: a project whose members are distinct users, each with a user, keeps
    distinct members through [removeMember], and through [addMember] when
    the user is a member already (the role changes and no entry is added)
    or [userId] is an [ObjectId] or the text [toString()] gives for it.
    With a text that casts to the [ObjectId] of a member and is not found
    (upper-case digits), [addMember] adds a second entry for that user. *)
Theorem members_stay_distinct (now : Z) (userId : Mongoose.Id) (role : option string)
    (this : ProjectModel.Project) :
  ProjectModel.loaded this = true ->
  List.NoDup (map ProjectModel.user (ProjectModel.members this)) ->
  exists added removed,
    ProjectModel.addMember cast_other save now userId role this = inr (added, save added)
    /\ ProjectModel.removeMember save userId this = inr (removed, save removed)
    /\ List.NoDup (map ProjectModel.user (ProjectModel.members removed))
    /\ (ProjectModel.isMember userId this = inr true ->
        List.NoDup (map ProjectModel.user (ProjectModel.members added))
        /\ length (ProjectModel.members added) = length (ProjectModel.members this))
    /\ (forall id,
          Mongoose.cast cast_other userId = Some id ->
          TaskService.toString id = Mongoose.text_of userId ->
          List.NoDup (map ProjectModel.user (ProjectModel.members added)))
    /\ (forall id,
          Mongoose.cast cast_other userId = Some id ->
          ProjectModel.isMember userId this = inr false ->
          In (Some id) (map ProjectModel.user (ProjectModel.members this)) ->
          ~ List.NoDup (map ProjectModel.user (ProjectModel.members added))).
Proof.
  intros L Hnd. unfold ProjectModel.loaded in L.
  unfold ProjectModel.addMember, ProjectModel.removeMember, ProjectModel.isMember.
  rewrite (without_user_loaded userId _ L), (find_user_loaded userId _ L),
    (some_user_loaded userId _ L), existsb_find.
  destruct (find (ProjectModel.same_user userId) (ProjectModel.members this)) eqn:F.
  - eexists _, _. split; [reflexivity|]. split; [reflexivity|]. cbn [ProjectModel.members].
    split; [apply NoDup_map_filter, Hnd|].
    rewrite map_user_set_role.
    split; [|split; [intros id _ _; exact Hnd|intros id _ H; discriminate H]].
    intros _. split; [exact Hnd|].
    rewrite <- (length_map ProjectModel.user (ProjectModel.set_role _ _ _)), map_user_set_role,
      length_map. reflexivity.
  - eexists _, _. split; [reflexivity|]. split; [reflexivity|]. cbn [ProjectModel.members].
    split; [apply NoDup_map_filter, Hnd|].
    split; [intros H; discriminate H|]. rewrite map_app. cbn [map ProjectModel.user].
    split.
    + intros id -> Ht. apply List.NoDup_app; [exact Hnd|repeat constructor; simpl; tauto|].
      intros x Hx [<-|[]]. exact (find_none_not_in userId id _ Ht F Hx).
    + intros id -> _ Hin Hnd'.
      apply List.NoDup_remove_2 in Hnd'. apply Hnd'. rewrite app_nil_r. exact Hin.
Qed.

End Members.

Lemma two_members_distinct :
  List.NoDup (map ProjectModel.user (ProjectModel.members two_members)).
Proof. vm_compute. repeat constructor; simpl; intuition discriminate. Qed.

Lemma addMember_then_member_witness :
  ProjectModel.loaded two_members = true
  /\ exists after,
       ProjectModel.addMember hex_only (fun _ => tt) 3
         (Mongoose.AText "64b0c0ffee0000000000aa01") (Some "manager") two_members
       = inr (after, tt)
       /\ (ProjectModel.isMember (Mongoose.AText "64b0c0ffee0000000000aa01") two_members
           = inr true
           \/ (exists id,
                 Mongoose.cast hex_only (Mongoose.AText "64b0c0ffee0000000000aa01") = Some id
                 /\ TaskService.toString id
                    = Mongoose.text_of (Mongoose.AText "64b0c0ffee0000000000aa01")) ->
           ProjectModel.loaded after = true
           /\ ProjectModel.isMember (Mongoose.AText "64b0c0ffee0000000000aa01") after = inr true
           /\ ProjectModel.hasRole (Mongoose.AText "64b0c0ffee0000000000aa01") "manager" after
              = inr (Some true)
           /\ forall other r,
                Mongoose.text_of other
                <> Mongoose.text_of (Mongoose.AText "64b0c0ffee0000000000aa01") ->
                ProjectModel.isMember other after = ProjectModel.isMember other two_members
                /\ ProjectModel.hasRole other r after = ProjectModel.hasRole other r two_members)
       /\ (forall id,
             ProjectModel.isMember (Mongoose.AText "64b0c0ffee0000000000aa01") two_members
             = inr false ->
             Mongoose.cast hex_only (Mongoose.AText "64b0c0ffee0000000000aa01") = Some id ->
             TaskService.toString id
             <> Mongoose.text_of (Mongoose.AText "64b0c0ffee0000000000aa01") ->
             ProjectModel.isMember (Mongoose.AText "64b0c0ffee0000000000aa01") after = inr false
             /\ ProjectModel.isMember (Mongoose.AnObjectId id) after = inr true)
       /\ (ProjectModel.isMember (Mongoose.AText "64b0c0ffee0000000000aa01") two_members
           = inr false ->
           Mongoose.cast hex_only (Mongoose.AText "64b0c0ffee0000000000aa01") = None ->
           ProjectModel.isMember (Mongoose.AText "64b0c0ffee0000000000aa01") after
           = inl ProjectModel.TypeError)
       /\ (forall id,
             Mongoose.AText "64b0c0ffee0000000000aa01" = Mongoose.AnObjectId id
             \/ (Mongoose.AText "64b0c0ffee0000000000aa01"
                 = Mongoose.AText (TaskService.toString id)
                 /\ String.length id = 12%nat) ->
             Mongoose.cast hex_only (Mongoose.AText "64b0c0ffee0000000000aa01") = Some id
             /\ TaskService.toString id
                = Mongoose.text_of (Mongoose.AText "64b0c0ffee0000000000aa01")).
Proof.
  split; [reflexivity|].
  apply (addMember_then_member hex_only (fun _ => tt) 3
           (Mongoose.AText "64b0c0ffee0000000000aa01") (Some "manager") two_members).
  reflexivity.
Defined.

Lemma removeMember_then_no_member_witness :
  ProjectModel.loaded two_members = true
  /\ exists after,
       ProjectModel.removeMember (fun _ => tt) (Mongoose.AnObjectId bob) two_members
       = inr (after, tt)
       /\ ProjectModel.loaded after = true
       /\ ProjectModel.isMember (Mongoose.AnObjectId bob) after = inr false
       /\ (forall r, ProjectModel.hasRole (Mongoose.AnObjectId bob) r after = inr None)
       /\ (forall other r,
             Mongoose.text_of other <> Mongoose.text_of (Mongoose.AnObjectId bob) ->
             ProjectModel.isMember other after = ProjectModel.isMember other two_members
             /\ ProjectModel.hasRole other r after = ProjectModel.hasRole other r two_members)
       /\ (forall now role id,
             ProjectModel.isMember (Mongoose.AnObjectId bob) two_members = inr false ->
             Mongoose.cast hex_only (Mongoose.AnObjectId bob) = Some id ->
             exists added,
               ProjectModel.addMember hex_only (fun _ => tt) now (Mongoose.AnObjectId bob) role
                 two_members
               = inr (added, tt)
               /\ (TaskService.toString id = Mongoose.text_of (Mongoose.AnObjectId bob) ->
                   ProjectModel.removeMember (fun _ => tt) (Mongoose.AnObjectId bob) added
                   = inr (two_members, tt))
               /\ (TaskService.toString id <> Mongoose.text_of (Mongoose.AnObjectId bob) ->
                   ProjectModel.removeMember (fun _ => tt) (Mongoose.AnObjectId bob) added
                   = inr (added, tt))).
Proof.
  split; [reflexivity|].
  apply (removeMember_then_no_member hex_only (fun _ => tt) (Mongoose.AnObjectId bob)
           two_members).
  reflexivity.
Defined.

Lemma members_stay_distinct_witness :
  ProjectModel.loaded two_members = true
  /\ List.NoDup (map ProjectModel.user (ProjectModel.members two_members))
  /\ exists added removed,
       ProjectModel.addMember hex_only (fun _ => tt) 3
         (Mongoose.AText "507F191E810C19729DE860EA") (Some "manager") two_members
       = inr (added, tt)
       /\ ProjectModel.removeMember (fun _ => tt) (Mongoose.AText "507F191E810C19729DE860EA")
            two_members
          = inr (removed, tt)
       /\ List.NoDup (map ProjectModel.user (ProjectModel.members removed))
       /\ (ProjectModel.isMember (Mongoose.AText "507F191E810C19729DE860EA") two_members
           = inr true ->
           List.NoDup (map ProjectModel.user (ProjectModel.members added))
           /\ length (ProjectModel.members added) = length (ProjectModel.members two_members))
       /\ (forall id,
             Mongoose.cast hex_only (Mongoose.AText "507F191E810C19729DE860EA") = Some id ->
             TaskService.toString id
             = Mongoose.text_of (Mongoose.AText "507F191E810C19729DE860EA") ->
             List.NoDup (map ProjectModel.user (ProjectModel.members added)))
       /\ (forall id,
             Mongoose.cast hex_only (Mongoose.AText "507F191E810C19729DE860EA") = Some id ->
             ProjectModel.isMember (Mongoose.AText "507F191E810C19729DE860EA") two_members
             = inr false ->
             In (Some id) (map ProjectModel.user (ProjectModel.members two_members)) ->
             ~ List.NoDup (map ProjectModel.user (ProjectModel.members added))).
Proof.
  split; [reflexivity|]. split; [exact two_members_distinct|].
  apply (members_stay_distinct hex_only (fun _ => tt) 3
           (Mongoose.AText "507F191E810C19729DE860EA") (Some "manager") two_members).
  - reflexivity.
  - exact two_members_distinct.
Defined.

(** An upper-case id of a member: [addMember] does not find the member and
    adds a second entry for the same user, which [isMember] does not find
    under that id either. *)
Example addMember_upper_case :
  exists added,
    ProjectModel.addMember hex_only (fun _ => tt) 3
      (Mongoose.AText "507F191E810C19729DE860EA") None two_members
    = inr (added, tt)
    /\ map ProjectModel.user (ProjectModel.members added) = [Some ann; Some bob; Some bob]
    /\ ProjectModel.isMember (Mongoose.AText "507F191E810C19729DE860EA") added = inr false
    /\ ProjectModel.isMember (Mongoose.AText "507f191e810c19729de860ea") added = inr true.
Proof. eexists. vm_compute. repeat split; reflexivity. Qed.

(** ** The task model: subtasks *)

(** X17: [completeSubtask(i, userId)] with an index that is no position of
    a subtask throws "Subtask not found" and neither changes nor saves the
    task; with the position of a subtask it marks that subtask completed at
    that time, keeps its title, leaves every other subtask and their number
    as they were, and returns what [save] gives for the document so
    changed.  The subtask is completed by the [ObjectId] that [userId]
    casts to; when [userId] does not cast, [completedBy] keeps what it held
    and the document holds an error for that path. *)
Theorem completeSubtask_bounds (cast_other : string -> option TaskService.ObjectId)
    {R : Type} (save : TaskModel.Task -> R) (now i : Z)
    (userId : Mongoose.Id) (this : TaskModel.Task) :
  (i < 0 \/ Z.of_nat (length (TaskModel.subtasks this)) <= i ->
   TaskModel.completeSubtask cast_other save now i userId this = inr "Subtask not found")
  /\ (0 <= i < Z.of_nat (length (TaskModel.subtasks this)) ->
      exists after subtask,
        TaskModel.completeSubtask cast_other save now i userId this = inl (after, save after)
        /\ TaskModel.subtasks this !! Z.to_nat i = Some subtask
        /\ TaskModel.subtasks after !! Z.to_nat i
           = Some {| TaskModel.title := TaskModel.title subtask;
                     TaskModel.completed := true;
                     TaskModel.completedBy :=
                       match Mongoose.cast cast_other userId with
                       | Some id => Some id
                       | None => TaskModel.completedBy subtask
                       end;
                     TaskModel.completedAt := Some now |}
        /\ (In (TaskModel.completedBy_path (Z.to_nat i)) (TaskModel.invalid after)
            <-> Mongoose.cast cast_other userId = None)
        /\ (forall path, path <> TaskModel.completedBy_path (Z.to_nat i) ->
              In path (TaskModel.invalid after) <-> In path (TaskModel.invalid this))
        /\ length (TaskModel.subtasks after) = length (TaskModel.subtasks this)
        /\ forall j, j <> Z.to_nat i ->
             TaskModel.subtasks after !! j = TaskModel.subtasks this !! j)
  /\ (forall id,
        userId = Mongoose.AnObjectId id
        \/ (userId = Mongoose.AText (TaskService.toString id) /\ String.length id = 12%nat) ->
        Mongoose.cast cast_other userId = Some id).
Proof.
  unfold TaskModel.completeSubtask. split; [|split].
  - intros [H|H].
    + apply Z.ltb_lt in H. rewrite H. reflexivity.
    + destruct (i <? 0)%Z; [reflexivity|].
      rewrite lookup_ge_None_2 by lia. reflexivity.
  - intros [H0 H1].
    replace (i <? 0)%Z with false by (symmetry; apply Z.ltb_ge; lia).
    destruct (lookup_lt_is_Some_2 (TaskModel.subtasks this) (Z.to_nat i)) as [subtask Hs]; [lia|].
    rewrite Hs. eexists _, subtask. split; [reflexivity|]. split; [reflexivity|].
    cbn [TaskModel.subtasks TaskModel.invalid].
    assert (F : forall path,
              In path (List.filter
                         (fun path => negb (String.eqb path
                                              (TaskModel.completedBy_path (Z.to_nat i))))
                         (TaskModel.invalid this))
              <-> In path (TaskModel.invalid this)
                  /\ path <> TaskModel.completedBy_path (Z.to_nat i)).
    { intros path. rewrite List.filter_In.
      destruct (String.eqb_spec path (TaskModel.completedBy_path (Z.to_nat i)));
        cbn [negb]; intuition congruence. }
    split; [|split; [|split; [|split]]].
    + apply list_lookup_insert_eq. lia.
    + destruct (Mongoose.cast cast_other userId).
      * rewrite F. split; [intros [_ H]; contradiction|discriminate].
      * rewrite in_app_iff. split; [reflexivity|]. intros _. right. left. reflexivity.
    + intros path Hpath. destruct (Mongoose.cast cast_other userId).
      * rewrite F. tauto.
      * rewrite in_app_iff, F. cbn [In]. intuition congruence.
    + apply length_insert.
    + intros j Hj. apply list_lookup_insert_ne. congruence.
  - intros id H. exact (proj1 (cast_canonical cast_other userId id H)).
Qed.

Lemma completeSubtask_bounds_witness :
  (1 < 0 \/ Z.of_nat (length (TaskModel.subtasks two_subtasks)) <= 1 ->
   TaskModel.completeSubtask hex_only (fun _ => tt) 1700000000000 1 (Mongoose.AText "u1")
     two_subtasks
   = inr "Subtask not found")
  /\ (0 <= 1 < Z.of_nat (length (TaskModel.subtasks two_subtasks)) ->
      exists after subtask,
        TaskModel.completeSubtask hex_only (fun _ => tt) 1700000000000 1 (Mongoose.AText "u1")
          two_subtasks
        = inl (after, tt)
        /\ TaskModel.subtasks two_subtasks !! Z.to_nat 1 = Some subtask
        /\ TaskModel.subtasks after !! Z.to_nat 1
           = Some {| TaskModel.title := TaskModel.title subtask;
                     TaskModel.completed := true;
                     TaskModel.completedBy :=
                       match Mongoose.cast hex_only (Mongoose.AText "u1") with
                       | Some id => Some id
                       | None => TaskModel.completedBy subtask
                       end;
                     TaskModel.completedAt := Some 1700000000000 |}
        /\ (In (TaskModel.completedBy_path (Z.to_nat 1)) (TaskModel.invalid after)
            <-> Mongoose.cast hex_only (Mongoose.AText "u1") = None)
        /\ (forall path, path <> TaskModel.completedBy_path (Z.to_nat 1) ->
              In path (TaskModel.invalid after) <-> In path (TaskModel.invalid two_subtasks))
        /\ length (TaskModel.subtasks after) = length (TaskModel.subtasks two_subtasks)
        /\ forall j, j <> Z.to_nat 1 ->
             TaskModel.subtasks after !! j = TaskModel.subtasks two_subtasks !! j)
  /\ (forall id,
        Mongoose.AText "u1" = Mongoose.AnObjectId id
        \/ (Mongoose.AText "u1" = Mongoose.AText (TaskService.toString id)
            /\ String.length id = 12%nat) ->
        Mongoose.cast hex_only (Mongoose.AText "u1") = Some id).
Proof.
  exact (completeSubtask_bounds hex_only (fun _ => tt) 1700000000000 1 (Mongoose.AText "u1")
           two_subtasks).
Defined.

(** ** The notification service: the text version of an e-mail *)

Lemma strip_keeps_no_new (x : ascii) (s : string) :
  forall inside, contains_char x s = false ->
    contains_char x (NotificationService.strip inside s) = false.
Proof.
  induction s as [|c s IH]; intros inside;
    cbn [NotificationService.strip contains_char]; [reflexivity|].
  intros H. apply orb_false_iff in H as [Hc Hs].
  destruct inside.
  - destruct (Ascii.eqb c ">"); apply IH, Hs.
  - destruct (Ascii.eqb c "<" && contains_char ">" s); [apply IH, Hs|].
    cbn [contains_char]. rewrite Hc. apply IH, Hs.
Qed.

Lemma strip_has_no_tag (s : string) :
  forall inside, has_tag (NotificationService.strip inside s) = false.
Proof.
  induction s as [|c s IH]; intros inside;
    cbn [NotificationService.strip has_tag]; [reflexivity|].
  destruct inside.
  - destruct (Ascii.eqb c ">"); apply IH.
  - destruct (Ascii.eqb c "<" && contains_char ">" s) eqn:E; [apply IH|].
    cbn [has_tag]. rewrite IH, orb_false_r.
    apply andb_false_iff in E as [E|E]; [rewrite E; reflexivity|].
    rewrite (strip_keeps_no_new ">" s false E). apply andb_false_r.
Qed.

Lemma strip_without_tag (s : string) :
  has_tag s = false -> NotificationService.strip false s = s.
Proof.
  induction s as [|c s IH]; cbn [NotificationService.strip has_tag]; [reflexivity|].
  intros H. apply orb_false_iff in H as [Hc Hs]. rewrite Hc, (IH Hs). reflexivity.
Qed.

Lemma has_tag_needs_lt (s : string) : contains_char "<" s = false -> has_tag s = false.
Proof.
  induction s as [|c s IH]; cbn [contains_char has_tag]; [reflexivity|].
  intros H. apply orb_false_iff in H as [Hc Hs].
  rewrite Ascii.eqb_sym, Hc, (IH Hs). reflexivity.
Qed.

(** X18: the text version of an e-mail, made by removing everything from a
    [<] up to the next [>], holds no [<] with a [>] after it; making it
    again changes nothing; and a text without [<] is kept as it is. *)
Theorem strip_tags_leaves_no_tag (emailContent : string) :
  has_tag (NotificationService.strip_tags emailContent) = false
  /\ NotificationService.strip_tags (NotificationService.strip_tags emailContent)
     = NotificationService.strip_tags emailContent
  /\ (contains_char "<" emailContent = false ->
      NotificationService.strip_tags emailContent = emailContent).
Proof.
  unfold NotificationService.strip_tags. repeat split.
  - apply strip_has_no_tag.
  - apply strip_without_tag, strip_has_no_tag.
  - intros H. apply strip_without_tag, has_tag_needs_lt, H.
Qed.

(** ** The gateway's route tables and the controllers *)

Lemma route_eqb_eq (a b : Route) : route_eqb a b = true -> a = b.
Proof.
  destruct a as [m p], b as [m' p']. unfold route_eqb. simpl.
  intros H. apply andb_true_iff in H as [H1 H2].
  apply String.eqb_eq in H1, H2. congruence.
Qed.

Lemma routes_among_matches (l l' : list Route) (method url : string) :
  routes_among l l' = true ->
  router_matches l method url = true -> router_matches l' method url = true.
Proof.
  unfold routes_among, router_matches. intros H M.
  apply existsb_exists in M as (r & Hin & Hr).
  rewrite forallb_forall in H. specialize (H r Hin).
  apply existsb_exists in H as (r' & Hin' & E). apply route_eqb_eq in E. subst r'.
  apply existsb_exists. exists r. auto.
Qed.

(** X19: the route table the gateway keeps for a service lists the routes
    of that service's controller and no other: a request the gateway
    forwards always has a route in the controller, and a request for a
    route of the controller is forwarded, except for [GET /users] of the
    authentication service, which the gateway does not list. *)
Theorem gateway_lists_controller_routes (s : Service) (method url : string) :
  router_matches (Controllers.routes s) method url
  = router_matches (routes_of s) method url || router_matches (unlisted s) method url.
Proof.
  apply eq_true_iff_eq. rewrite orb_true_iff. split.
  - intros H.
    assert (router_matches (routes_of s ++ unlisted s) method url = true) as H'.
    { apply (routes_among_matches (Controllers.routes s)); [destruct s; reflexivity|exact H]. }
    unfold router_matches in *. rewrite existsb_app in H'. apply orb_true_iff, H'.
  - intros [H|H].
    + apply (routes_among_matches (routes_of s)); [destruct s; reflexivity|exact H].
    + apply (routes_among_matches (unlisted s)); [destruct s; reflexivity|exact H].
Qed.

(** ** The admin service: the filters of [GET /users] *)

(** X20: in [GET /users] the values of the filters [role], [department]
    and [search] never enter the text of the statement: the WHERE clause
    and the number of the next placeholder depend only on which filters are
    given; the values are the parameters, in that order ([search] between
    two percent signs), one for each number used. *)
Theorem users_where_values_are_parameters (role department search : option string)
    (role' department' search' : option string) :
  AdminService.given role = AdminService.given role' ->
  AdminService.given department = AdminService.given department' ->
  AdminService.given search = AdminService.given search' ->
  let '(whereClause, params, paramIndex) := AdminService.users_where role department search in
  let '(whereClause', params', paramIndex') :=
    AdminService.users_where role' department' search' in
  whereClause = whereClause'
  /\ paramIndex = paramIndex'
  /\ params = (filter_value id role ++ filter_value id department
               ++ filter_value (fun s => "%" +:+ s +:+ "%") search)%list
  /\ paramIndex = 1 + Z.of_nat (length params).
Proof.
  unfold AdminService.users_where, filter_value, AdminService.given.
  destruct role as [r|]; [destruct (String.eqb r "")|];
    (destruct role' as [r'|]; [destruct (String.eqb r' "")|]);
    cbn [negb]; intros Hr; try discriminate Hr;
    (destruct department as [d|]; [destruct (String.eqb d "")|]);
    (destruct department' as [d'|]; [destruct (String.eqb d' "")|]);
    cbn [negb]; intros Hd; try discriminate Hd;
    (destruct search as [s|]; [destruct (String.eqb s "")|]);
    (destruct search' as [s'|]; [destruct (String.eqb s' "")|]);
    cbn [negb]; intros Hs; try discriminate Hs;
    repeat split; reflexivity.
Qed.

Lemma users_where_values_are_parameters_witness :
  fst (fst (AdminService.users_where (Some "admin") None (Some "x' OR '1'='1")))
  = fst (fst (AdminService.users_where (Some "user") None (Some "ann"))).
Proof.
  pose proof (users_where_values_are_parameters
                (Some "admin") None (Some "x' OR '1'='1")
                (Some "user") None (Some "ann") eq_refl eq_refl eq_refl) as H.
  destruct (AdminService.users_where (Some "admin") None (Some "x' OR '1'='1"))
    as [[w p] i].
  destruct (AdminService.users_where (Some "user") None (Some "ann")) as [[w' p'] i'].
  exact (proj1 H).
Defined.

(** ** The authentication service: what [PUT /profile] changes *)

Lemma copy_field_keys (key : string) (body : JSValue) (u : list (string * JSValue)) :
  forall k, In k (map fst (AuthService.copy_field key body u)) -> k = key \/ In k (map fst u).
Proof.
  intros k. unfold AuthService.copy_field.
  destruct (AuthService.field key body) as [v|]; [|auto].
  destruct (AuthService.truthy v); [|auto].
  rewrite map_app, in_app_iff. simpl. intros [H|[H|[]]]; auto.
Qed.

Lemma copy_field_truthy (key : string) (body : JSValue) (u : list (string * JSValue)) :
  forall k v, In (k, v) (AuthService.copy_field key body u) ->
    In (k, v) u \/ (AuthService.field k body = Some v /\ AuthService.truthy v = true).
Proof.
  intros k v. unfold AuthService.copy_field.
  destruct (AuthService.field key body) as [w|] eqn:F; [|auto].
  destruct (AuthService.truthy w) eqn:T; [|auto].
  rewrite in_app_iff. simpl. intros [H|[H|[]]]; [auto|].
  injection H as <- <-. auto.
Qed.

(** X21: [PUT /profile] changes nothing but first name, last name,
    department, position, phone number and preferences: the update it
    builds has no other property, depends on no other property of the body
    (a [role], [email], [password] or [isActive] in it is ignored), and
    takes a value from the body only where that value is truthy, so an
    empty text clears nothing. *)
Theorem profile_update_is_whitelisted (current : list (string * JSValue)) (body : JSValue) :
  (forall updateData k,
     AuthService.profile_update current body = Some updateData ->
     In k (map fst updateData) -> In k profile_fields)
  /\ (forall body',
        (forall k, In k profile_fields -> AuthService.field k body' = AuthService.field k body) ->
        AuthService.profile_update current body' = AuthService.profile_update current body)
  /\ (forall updateData k v,
        AuthService.profile_update current body = Some updateData ->
        In (k, v) updateData -> k <> "preferences" ->
        AuthService.field k body = Some v /\ AuthService.truthy v = true).
Proof.
  split; [|split].
  - intros updateData k H Hin. unfold AuthService.profile_update in H.
    assert (forall u, In k (map fst u) ->
              u = AuthService.copy_field "phoneNumber" body
                    (AuthService.copy_field "position" body
                       (AuthService.copy_field "department" body
                          (AuthService.copy_field "lastName" body
                             (AuthService.copy_field "firstName" body [])))) ->
              In k profile_fields) as Hfive.
    { intros u Hk ->.
      repeat (apply copy_field_keys in Hk as [->|Hk]; [simpl; tauto|]). destruct Hk. }
    destruct (AuthService.field "preferences" body) as [p|].
    + destruct (AuthService.truthy p).
      * destruct (AuthService.spread_of p); [|discriminate]. injection H as <-.
        rewrite map_app, in_app_iff in Hin. destruct Hin as [Hin|[<-|[]]].
        -- exact (Hfive _ Hin eq_refl).
        -- simpl. tauto.
      * injection H as <-. exact (Hfive _ Hin eq_refl).
    + injection H as <-. exact (Hfive _ Hin eq_refl).
  - intros body' Hsame. unfold AuthService.profile_update, AuthService.copy_field.
    rewrite !Hsame by (simpl; tauto). reflexivity.
  - intros updateData k v H H0 H1. unfold AuthService.profile_update in H.
    assert (In (k, v) (AuthService.copy_field "phoneNumber" body
                         (AuthService.copy_field "position" body
                            (AuthService.copy_field "department" body
                               (AuthService.copy_field "lastName" body
                                  (AuthService.copy_field "firstName" body []))))) ->
            AuthService.field k body = Some v /\ AuthService.truthy v = true) as Hfive.
    { intros Hin. repeat (apply copy_field_truthy in Hin as [Hin|Hin]; [|exact Hin]).
      destruct Hin. }
    destruct (AuthService.field "preferences" body) as [p|].
    + destruct (AuthService.truthy p).
      * destruct (AuthService.spread_of p); [|discriminate]. injection H as <-.
        apply in_app_iff in H0 as [Hin|[E|[]]]; [exact (Hfive Hin)|].
        injection E as <- _. contradiction.
      * injection H as <-. exact (Hfive H0).
    + injection H as <-. exact (Hfive H0).
Qed.

(** ** The health-check script: what it prints *)

Lemma report_lines_errors (l : list HealthScript.CheckResult) :
  existsb is_error_line (concat (map HealthScript.report_lines l))
  = negb (forallb HealthScript.is_healthy l)
  /\ length (concat (map HealthScript.report_lines l)) = (length l + count_unhealthy l)%nat.
Proof.
  unfold count_unhealthy.
  induction l as [|r l [IH1 IH2]]; [split; reflexivity|].
  cbn [map concat forallb List.filter]. rewrite existsb_app, length_app, IH1, IH2.
  destruct r as [n p resp|n p e]; split; cbn [HealthScript.is_healthy negb andb length];
    try reflexivity; cbn [HealthScript.report_lines length]; lia.
Qed.

(** X22: the script prints an [Error:] line exactly when it ends with exit
    code 1: it exits with 0 if and only if none of the lines it printed is
    an [Error:] line, and it prints nine lines (the heading, one line for
    each of the six services, the rule and the verdict) and one [Error:]
    line more for each unhealthy service. *)
Theorem script_exit_code_matches_report (probe : HealthScript.Probe) :
  let run := HealthScript.checkAllServices probe in
  (HealthScript.exit_code run = 0 <-> existsb is_error_line (HealthScript.printed run) = false)
  /\ (HealthScript.exit_code run = 1 <-> existsb is_error_line (HealthScript.printed run) = true)
  /\ length (HealthScript.printed run) = (9 + count_unhealthy (HealthScript.results run))%nat.
Proof.
  intros run. subst run. unfold HealthScript.checkAllServices.
  cbn [HealthScript.exit_code HealthScript.printed HealthScript.results].
  set (results := map (HealthScript.checkService probe) HealthScript.services).
  destruct (report_lines_errors results) as [He Hl].
  rewrite all_healthy_forallb.
  assert (length results = 6%nat) as H6 by reflexivity.
  rewrite !existsb_app, !length_app, He, Hl, H6.
  destruct (forallb HealthScript.is_healthy results); cbn [negb existsb orb length];
    repeat split; intros; try reflexivity; try discriminate; try lia.
Qed.

(** ** The models of the backends on small inputs *)

Example delete_task_demo :
  TaskService.toString "demo-user-id" = "64656d6f2d757365722d6964"
  /\ TaskService.delete_task_route delete_task_request one_task_store
       "2024-01-01T00:00:00.000Z" "64656d6f2d757365722d6964"
     = [TaskService.Responded 403
          (JObj [("error", JStr "Not authorized to delete this task")])].
Proof. split; reflexivity. Qed.

Example completeSubtask_demo :
  TaskModel.completeSubtask hex_only (fun _ => tt) 1700000000000 1 (Mongoose.AnObjectId ann)
    two_subtasks
  = inl ({| TaskModel.subtasks :=
              [ {| TaskModel.title := "write"; TaskModel.completed := false;
                   TaskModel.completedBy := None; TaskModel.completedAt := None |};
                {| TaskModel.title := "test"; TaskModel.completed := true;
                   TaskModel.completedBy := Some ann;
                   TaskModel.completedAt := Some 1700000000000 |} ];
            TaskModel.invalid := [] |}, tt)
  /\ TaskModel.completeSubtask hex_only (fun _ => tt) 1700000000000 1 (Mongoose.AText "u1")
       two_subtasks
     = inl ({| TaskModel.subtasks :=
                 [ {| TaskModel.title := "write"; TaskModel.completed := false;
                      TaskModel.completedBy := None; TaskModel.completedAt := None |};
                   {| TaskModel.title := "test"; TaskModel.completed := true;
                      TaskModel.completedBy := None;
                      TaskModel.completedAt := Some 1700000000000 |} ];
               TaskModel.invalid := ["subtasks.1.completedBy"] |}, tt)
  /\ TaskModel.completeSubtask hex_only (fun _ => tt) 1700000000000 2 (Mongoose.AnObjectId ann)
       two_subtasks
     = inr "Subtask not found"
  /\ TaskModel.completeSubtask hex_only (fun _ => tt) 1700000000000 (-1)
       (Mongoose.AnObjectId ann) two_subtasks
     = inr "Subtask not found".
Proof. vm_compute. repeat split; reflexivity. Qed.

Example strip_tags_demo :
  NotificationService.strip_tags "<p>Hello <b>Ann</b>, 1 < 2 and 3 > 2</p>"
  = "Hello Ann, 1  2"
  /\ NotificationService.strip_tags "a < b" = "a < b".
Proof. split; reflexivity. Qed.

Example users_where_demo :
  AdminService.users_where (Some "admin") (Some "") (Some "ann")
  = ("WHERE 1=1 AND role = $1 AND (" +:+ AdminService.nl
     +:+ "        first_name ILIKE $2 OR " +:+ AdminService.nl
     +:+ "        last_name ILIKE $2 OR " +:+ AdminService.nl
     +:+ "        email ILIKE $2" +:+ AdminService.nl
     +:+ "      )",
     [JStr "admin"; JStr "%ann%"], 3).
Proof. reflexivity. Qed.

Example profile_update_demo :
  AuthService.profile_update [("theme", JStr "dark")]
    (JObj [("firstName", JStr "Ann"); ("lastName", JStr ""); ("role", JStr "admin");
           ("preferences", JObj [("language", JStr "en")])])
  = Some [("firstName", JStr "Ann");
          ("preferences", JObj [("theme", JStr "dark"); ("language", JStr "en")])].
Proof. reflexivity. Qed.

Example addMember_demo :
  (exists added,
     ProjectModel.addMember hex_only (fun _ => tt) 3 (Mongoose.AnObjectId bob) None two_members
     = inr (added, tt)
     /\ map ProjectModel.role (ProjectModel.members added) = ["owner"; "developer"])
  /\ (exists added,
        ProjectModel.addMember hex_only (fun _ => tt) 3
          (Mongoose.AText "64b0c0ffee0000000000aa01") None two_members
        = inr (added, tt)
        /\ map ProjectModel.user (ProjectModel.members added) = [Some ann; Some bob; Some cat])
  /\ ProjectModel.hasRole (Mongoose.AnObjectId cat) "developer" two_members = inr None
  /\ TaskService.toString bob = "507f191e810c19729de860ea".
Proof.
  split; [|split]; [eexists; vm_compute; split; reflexivity..|].
  vm_compute. split; reflexivity.
Qed.
